(** * @prz/agent-core: the orchestration pipeline and the preference model

    A shallow embedding of [src/types.ts], [src/pipeline/Pipeline.ts] and
    [src/feedback/PreferenceModel.ts], and the properties of the
    specification checked against it.

    Conventions of the embedding.
    - A JavaScript [number] is a rational of [Q] with exact arithmetic:
      the finite values, without rounding, [NaN] or the infinities.  Two
      numbers are compared with [Qeq] ([==]), [Qlt] and [Qle].  The
      confidence values of the default classifier are also evaluated in
      binary64 ([binary64_confidence]): rounding moves none of them
      across the default threshold 0.7 or the 0.9 of strategy selection.
    - A JavaScript string is a [string]: a sequence of code units below
      256, [String.length] being its [length].
    - An object that the code mutates through two names (the classified
      intent held by [context.currentIntent] and by [event.data.intent])
      lives in an object store and is named by its address.
    - [async] functions are awaited one after the other by their only
      caller, so they are plain sequential functions here; [console]
      output is not part of the state. *)

From Stdlib Require Import Floats.PrimFloat.
From Stdlib Require Import ZArith QArith Lqa Lia Bool List String Ascii.
From Stdlib Require Import DecimalString.
From stdpp Require Import base option list strings gmap.

Import ListNotations.
Local Open Scope string_scope.
Local Open Scope list_scope.

(* ===================================================================== *)
(** * Numbers and strings of the host language                            *)
(* ===================================================================== *)

(** [a < b] on numbers. *)
Definition Qltb (a b : Q) : bool := negb (Qle_bool b a).

(** [Math.max] and [Math.min] at two arguments. *)
Definition Math_max (a b : Q) : Q := if Qle_bool a b then b else a.
Definition Math_min (a b : Q) : Q := if Qle_bool a b then a else b.

(** A count as a number. *)
Definition of_nat (n : nat) : Q := inject_Z (Z.of_nat n).

(** [`${n}`] for a count. *)
Definition nat_to_string (n : nat) : string :=
  NilZero.string_of_uint (Nat.to_uint n).

(** [String.prototype.toLowerCase] on one code unit below 256: the letters
    A-Z, and the upper-case letters of Latin-1 (0xC0-0xDE without the
    multiplication sign 0xD7), move up by 32. *)
Definition lower_unit (c : ascii) : ascii :=
  let n := nat_of_ascii c in
  if ((65 <=? n) && (n <=? 90))%nat then ascii_of_nat (n + 32)
  else if ((192 <=? n) && (n <=? 222) && negb (n =? 215))%nat
       then ascii_of_nat (n + 32)
  else c.

Fixpoint toLowerCase (s : string) : string :=
  match s with
  | EmptyString => EmptyString
  | String c s' => String (lower_unit c) (toLowerCase s')
  end.

(** [haystack.includes(needle)]. *)
Fixpoint includes (needle haystack : string) : bool :=
  String.prefix needle haystack ||
  match haystack with
  | EmptyString => false
  | String _ rest => includes needle rest
  end.

(** Truthiness of a string: only the empty string is falsy. *)
Definition truthy (s : string) : bool :=
  match s with EmptyString => false | String _ _ => true end.

(* ===================================================================== *)
(** * types.ts                                                            *)
(* ===================================================================== *)

Inductive IntentType :=
  | VIBE_CHECK | MOVE_MAKE | CLARITY_CALL | RAPPORT_BUILD.

Definition IntentType_value (t : IntentType) : string :=
  match t with
  | VIBE_CHECK => "vibe_check"
  | MOVE_MAKE => "move_make"
  | CLARITY_CALL => "clarity_call"
  | RAPPORT_BUILD => "rapport_build"
  end.

Record ConfidenceScore := mkConfidence {
  patternMatch : Q;
  clarity : Q;
  templateCoverage : Q;
  historicalSuccess : Q;
  overall : Q
}.

(** [extractedEntities] is always the empty object and is left out. *)
Record ClassifiedIntent := mkIntent {
  intent_type : IntentType;
  confidence : ConfidenceScore;
  rawInput : string;
  intent_timestamp : Z
}.

Inductive PipelineStage :=
  | INTENT_CLASSIFICATION
  | CONFIDENCE_GATING
  | STRATEGY_SELECTION
  | EXECUTION
  | ANTI_PATTERN_DETECTION
  | FEEDBACK_COLLECTION.

#[global] Instance PipelineStage_eq_dec : EqDecision PipelineStage.
Proof. solve_decision. Defined.

Inductive StrategyType :=
  | AUTONOMOUS | CONFIRMATION | GUIDED | DELEGATED | LEARNING.

#[global] Instance StrategyType_eq_dec : EqDecision StrategyType.
Proof. solve_decision. Defined.

Definition StrategyType_value (t : StrategyType) : string :=
  match t with
  | AUTONOMOUS => "autonomous"
  | CONFIRMATION => "confirmation"
  | GUIDED => "guided"
  | DELEGATED => "delegated"
  | LEARNING => "learning"
  end.

(** [Object.values(StrategyType)], in declaration order. *)
Definition StrategyType_values : list StrategyType :=
  [AUTONOMOUS; CONFIRMATION; GUIDED; DELEGATED; LEARNING].

(** [parameters] is always the empty object and is left out. *)
Record ExecutionStrategy := mkStrategy {
  strategy_type : StrategyType;
  strategy_confidence : Q;
  reasoning : string
}.

Record ExecutionMetrics := mkMetrics {
  duration : Z;
  tokensUsed : option Z;
  retriesAttempted : Z
}.

Record ExecutionResult := mkResult {
  success : bool;
  output : option string;
  error : option string;
  metrics : ExecutionMetrics
}.

Inductive AntiPatternType :=
  | INFINITE_CLARIFICATION
  | STUCK_LOOP
  | CONTEXT_DRIFT
  | SCOPE_CREEP
  | HALLUCINATION_SPIRAL.

Record AntiPattern := mkAntiPattern {
  ap_type : AntiPatternType;
  severity : Q;
  evidence : list string;
  recommendedPivot : string
}.

Record ImplicitFeedback := mkImplicit {
  taskCompleted : bool;
  timeToCompletion : Q;
  editsMade : Q
}.

(** [rating] is declared a number, and [feedbackToReward] tests it against
    [undefined]: it is optional here.  [explicit] is never read. *)
Record UserFeedback := mkFeedback {
  rating : option Q;
  implicit : option ImplicitFeedback
}.

(** The address of a [ClassifiedIntent] object in the store. *)
Definition ref := nat.

(** [PipelineEvent.data], one shape per place that builds an event.
    [DHistory] is [{ history: context.history }]: the history array
    itself, not a copy of it. *)
Inductive EventData :=
  | DInput (input : string)
  | DIntent (intent : option ref)
  | DHistory
  | DExecution (intent : option ref) (strategy : option ExecutionStrategy)
  | DFeedback (feedback : UserFeedback).

Record EventMetadata := mkMetadata {
  timestamp : Z;
  meta_sessionId : string;
  meta_userId : option string
}.

Record PipelineEvent := mkEvent {
  stage : PipelineStage;
  data : EventData;
  metadata : EventMetadata
}.

Record PipelineContext := mkContext {
  sessionId : string;
  userId : option string;
  history : list PipelineEvent;
  currentIntent : option ref;
  selectedStrategy : option ExecutionStrategy;
  executionResult : option ExecutionResult;
  antiPatternDetected : option AntiPattern
}.

Record PipelineConfig := mkConfig {
  confidenceThreshold : Q;
  maxClarificationAttempts : Q;
  enableAntiPatternDetection : bool;
  enablePreferenceLearning : bool;
  llmProvider : string;
  debug : bool
}.

Definition DEFAULT_CONFIG : PipelineConfig :=
  {| confidenceThreshold := 0.7;
     maxClarificationAttempts := 3;
     enableAntiPatternDetection := true;
     enablePreferenceLearning := true;
     llmProvider := "gpt-4";
     debug := false |}.

(** [Partial<PipelineConfig>] and the spread [{...DEFAULT_CONFIG, ...config}]. *)
Record PartialConfig := mkPartial {
  p_confidenceThreshold : option Q;
  p_maxClarificationAttempts : option Q;
  p_enableAntiPatternDetection : option bool;
  p_enablePreferenceLearning : option bool;
  p_llmProvider : option string;
  p_debug : option bool
}.

Definition no_overrides : PartialConfig :=
  mkPartial None None None None None None.

Definition merge_config (d : PipelineConfig) (c : PartialConfig) : PipelineConfig :=
  {| confidenceThreshold := default (confidenceThreshold d) (p_confidenceThreshold c);
     maxClarificationAttempts :=
       default (maxClarificationAttempts d) (p_maxClarificationAttempts c);
     enableAntiPatternDetection :=
       default (enableAntiPatternDetection d) (p_enableAntiPatternDetection c);
     enablePreferenceLearning :=
       default (enablePreferenceLearning d) (p_enablePreferenceLearning c);
     llmProvider := default (llmProvider d) (p_llmProvider c);
     debug := default (debug d) (p_debug c) |}.

(* ===================================================================== *)
(** * pipeline/Pipeline.ts: the pure stage functions                      *)
(* ===================================================================== *)

(** [classifyIntent(input)], the reading of [Date.now()] passed in. *)
Definition classifyIntent_at (now : Z) (input : string) : ClassifiedIntent :=
  let lowerInput := toLowerCase input in
  let '(type, patternMatch, clarity) :=
    if includes "how" lowerInput || includes "what" lowerInput
       || includes "why" lowerInput
    then (VIBE_CHECK, 0.8%Q, 0.85%Q)
    else if includes "create" lowerInput || includes "build" lowerInput
            || includes "make" lowerInput
    then (MOVE_MAKE, 0.85%Q, 0.9%Q)
    else if includes "?" lowerInput || (String.length lowerInput <? 10)%nat
    then (CLARITY_CALL, 0.6%Q, 0.5%Q)
    else (RAPPORT_BUILD, 0.7%Q, 0.7%Q) in
  {| intent_type := type;
     confidence :=
       {| patternMatch := patternMatch;
          clarity := clarity;
          templateCoverage := 0.75;
          historicalSuccess := 0.8;
          overall := (patternMatch + clarity + 0.75 + 0.8) / 4 |};
     rawInput := input;
     intent_timestamp := now |}.

(** [selectStrategy(intent, context)]. *)
Definition selectStrategy (intent : ClassifiedIntent) (context : PipelineContext)
  : ExecutionStrategy :=
  let type :=
    match intent_type intent with
    | VIBE_CHECK => AUTONOMOUS
    | MOVE_MAKE =>
        if Qltb 0.9 (overall (confidence intent)) then AUTONOMOUS else CONFIRMATION
    | CLARITY_CALL => GUIDED
    | _ => AUTONOMOUS
    end in
  {| strategy_type := type;
     strategy_confidence := 0.85;
     reasoning := "Selected " +:+ StrategyType_value type +:+ " based on intent "
                  +:+ IntentType_value (intent_type intent) |}.

(** The test of the counting loop of [detectAntiPatterns]:
    [event.stage === INTENT_CLASSIFICATION] and
    [intentData?.input && intentData.input.length < 10]. *)
Definition counts_as_clarification (event : PipelineEvent) : bool :=
  match stage event with
  | INTENT_CLASSIFICATION =>
      match data event with
      | DInput input => truthy input && (String.length input <? 10)%nat
      | _ => false
      end
  | _ => false
  end.

Definition clarificationCount (events : list PipelineEvent) : nat :=
  length (filter (fun e => counts_as_clarification e = true) events).

(** [array.slice(-n)]. *)
Definition slice_last {A} (n : nat) (l : list A) : list A :=
  drop (length l - n) l.

(** [new Set(array).size]. *)
Definition distinct_count {A} `{EqDecision A} (l : list A) : nat :=
  length (remove_dups l).

(** [detectAntiPatterns(context)], reading [this.config]. *)
Definition detectAntiPatterns (config : PipelineConfig) (context : PipelineContext)
  : option AntiPattern :=
  let clarificationCount := clarificationCount (history context) in
  if Qltb (maxClarificationAttempts config) (of_nat clarificationCount) then
    Some {| ap_type := INFINITE_CLARIFICATION;
            severity := 0.9;
            evidence := [nat_to_string clarificationCount
                         +:+ " clarification attempts detected"];
            recommendedPivot := "Switch to guided mode with examples" |}
  else
    let recentEvents := slice_last 5 (history context) in
    let uniqueStages := distinct_count (map stage recentEvents) in
    if (uniqueStages <? 2)%nat && (5 <=? length recentEvents)%nat then
      Some {| ap_type := STUCK_LOOP;
              severity := 0.85;
              evidence := ["Repetitive pattern detected in recent events"];
              recommendedPivot := "Reset context and try alternative approach" |}
    else None.

(* ===================================================================== *)
(** * Calls that mutate a state and may throw                             *)
(* ===================================================================== *)

(** A call returns a value or throws. *)
Inductive Outcome (A : Type) :=
  | Returned (a : A)
  | Thrown (message : string).
Arguments Returned {A} a.
Arguments Thrown {A} message.

(** A computation over a mutable state [S].  What it mutated before
    throwing stays mutated: nothing is rolled back. *)
Definition Comp (S A : Type) : Type := S -> S * Outcome A.

Definition ret {S A} (a : A) : Comp S A := fun s => (s, Returned a).

Definition throw {S A} (message : string) : Comp S A :=
  fun s => (s, Thrown message).

Definition bind {S A B} (c : Comp S A) (k : A -> Comp S B) : Comp S B :=
  fun s =>
    match c s with
    | (s', Returned a) => k a s'
    | (s', Thrown message) => (s', Thrown message)
    end.

Definition lift {S A} (r : Outcome A) : Comp S A := fun s => (s, r).

Declare Scope comp_scope.
Delimit Scope comp_scope with comp.
Notation "x <- c ;; k" := (bind c (fun x => k))
  (at level 100, c at next level, right associativity) : comp_scope.
Notation "c ;;; k" := (bind c (fun _ => k))
  (at level 100, k at level 200, right associativity) : comp_scope.
Local Open Scope comp_scope.

(* ===================================================================== *)
(** * The state a turn runs in                                            *)
(* ===================================================================== *)

(** What a stage handler can reach: the session context it is handed, the
    store of [ClassifiedIntent] objects, and the number of readings of
    the wall clock taken so far. *)
Record Env := mkEnv {
  context : PipelineContext;
  objects : list ClassifiedIntent;
  reads : nat
}.

Definition M (A : Type) : Type := Comp Env A.

Definition get_context : M PipelineContext := fun e => (e, Returned (context e)).

Definition update_context (f : PipelineContext -> PipelineContext) : M unit :=
  fun e => (mkEnv (f (context e)) (objects e) (reads e), Returned tt).

(** [context.history.push(event)]. *)
Definition push_history (event : PipelineEvent) (c : PipelineContext) : PipelineContext :=
  mkContext (sessionId c) (userId c) (history c ++ [event]) (currentIntent c)
            (selectedStrategy c) (executionResult c) (antiPatternDetected c).

Definition set_currentIntent (r : ref) (c : PipelineContext) : PipelineContext :=
  mkContext (sessionId c) (userId c) (history c) (Some r)
            (selectedStrategy c) (executionResult c) (antiPatternDetected c).

Definition set_selectedStrategy (s : ExecutionStrategy) (c : PipelineContext)
  : PipelineContext :=
  mkContext (sessionId c) (userId c) (history c) (currentIntent c)
            (Some s) (executionResult c) (antiPatternDetected c).

Definition set_executionResult (r : ExecutionResult) (c : PipelineContext)
  : PipelineContext :=
  mkContext (sessionId c) (userId c) (history c) (currentIntent c)
            (selectedStrategy c) (Some r) (antiPatternDetected c).

Definition set_antiPatternDetected (a : AntiPattern) (c : PipelineContext)
  : PipelineContext :=
  mkContext (sessionId c) (userId c) (history c) (currentIntent c)
            (selectedStrategy c) (executionResult c) (Some a).

(** A fresh object: its address is the next free one. *)
Definition alloc (intent : ClassifiedIntent) : M ref :=
  fun e => (mkEnv (context e) (objects e ++ [intent]) (reads e),
            Returned (length (objects e))).

(** Reading through a reference.  Every reference the pipeline hands out
    was allocated, so the second case is there for totality only. *)
Definition deref (r : ref) : M ClassifiedIntent :=
  fun e =>
    match objects e !! r with
    | Some intent => (e, Returned intent)
    | None => (e, Thrown "dangling reference")
    end.

(** [intent.type = t], on the object itself. *)
Definition assign_type (r : ref) (t : IntentType) : M unit :=
  fun e =>
    match objects e !! r with
    | Some intent =>
        (mkEnv (context e)
               (<[r := mkIntent t (confidence intent) (rawInput intent)
                                (intent_timestamp intent)]> (objects e))
               (reads e),
         Returned tt)
    | None => (e, Thrown "dangling reference")
    end.

(** [(event, context) => void | Promise<void>]. *)
Definition EventHandler : Type := PipelineEvent -> M unit.

(** The [Pipeline] object: its three private fields, and with them the
    object store and the clock readings, which belong to the process. *)
Record Pipeline := mkPipeline {
  config : PipelineConfig;
  eventBus : PipelineStage -> list EventHandler;
  contexts : gmap string PipelineContext;
  heap : list ClassifiedIntent;
  clock : nat
}.

(** [const { intent } = event.data]. *)
Definition data_intent (d : EventData) : option ref :=
  match d with
  | DIntent intent => intent
  | DExecution intent _ => intent
  | _ => None
  end.

(** [const { strategy } = event.data]. *)
Definition data_strategy (d : EventData) : option ExecutionStrategy :=
  match d with
  | DExecution _ strategy => strategy
  | _ => None
  end.

(** The handlers of [emit], one after the other; a throw ends the loop. *)
Fixpoint run_handlers (handlers : list EventHandler) (event : PipelineEvent) : M unit :=
  match handlers with
  | [] => ret tt
  | handler :: rest => handler event ;;; run_handlers rest event
  end.

(** [emit(event, context)]. *)
Definition emit (p : Pipeline) (event : PipelineEvent) : M unit :=
  let handlers := eventBus p (stage event) in
  update_context (push_history event) ;;;
  run_handlers handlers event.

(** [on(stage, handler)]. *)
Definition on (stage0 : PipelineStage) (handler : EventHandler) (p : Pipeline) : Pipeline :=
  mkPipeline (config p)
             (fun s => if decide (s = stage0) then eventBus p s ++ [handler]
                       else eventBus p s)
             (contexts p) (heap p) (clock p).

(** [getContext(sessionId)]. *)
Definition getContext (sessionId0 : string) (p : Pipeline) : option PipelineContext :=
  contexts p !! sessionId0.

(** [clearContext(sessionId)]. *)
Definition clearContext (sessionId0 : string) (p : Pipeline) : Pipeline :=
  mkPipeline (config p) (eventBus p) (delete sessionId0 (contexts p)) (heap p) (clock p).

Section WallClock.

(** [Date.now()]: the value of the n-th reading of the clock. *)
Variable Date_now : nat -> Z.

Definition now : M Z :=
  fun e => (mkEnv (context e) (objects e) (S (reads e)), Returned (Date_now (reads e))).

(** [classifyIntent(input)]. *)
Definition classifyIntent (input : string) : M ClassifiedIntent :=
  t <- now ;; ret (classifyIntent_at t input).

(** [execute(intent, strategy)]: the timer of the [try] block never
    rejects, so the [catch] block is dead and is left out. *)
Definition execute (intent : ClassifiedIntent) (strategy : ExecutionStrategy)
  : M ExecutionResult :=
  startTime <- now ;;
  endTime <- now ;;
  ret {| success := true;
         output := Some ("Executed " +:+ IntentType_value (intent_type intent)
                         +:+ " with " +:+ StrategyType_value (strategy_type strategy)
                         +:+ " strategy");
         error := None;
         metrics := {| duration := endTime - startTime;
                       tokensUsed := Some 150%Z;
                       retriesAttempted := 0 |} |}.

(** The six handlers of [registerDefaultHandlers], closed over [this.config]. *)
Definition classificationHandler : EventHandler := fun event =>
  match data event with
  | DInput input =>
      intent <- classifyIntent input ;;
      r <- alloc intent ;;
      update_context (set_currentIntent r)
  | _ => throw "Cannot read properties of undefined (reading 'toLowerCase')"
  end.

Definition gatingHandler (cfg : PipelineConfig) : EventHandler := fun event =>
  match data_intent (data event) with
  | None => throw "No intent to gate"
  | Some r =>
      intent <- deref r ;;
      if Qltb (overall (confidence intent)) (confidenceThreshold cfg)
      then assign_type r CLARITY_CALL
      else ret tt
  end.

Definition strategyHandler : EventHandler := fun event =>
  match data_intent (data event) with
  | None => throw "No intent for strategy selection"
  | Some r =>
      intent <- deref r ;;
      c <- get_context ;;
      update_context (set_selectedStrategy (selectStrategy intent c))
  end.

Definition executionHandler : EventHandler := fun event =>
  match data_intent (data event), data_strategy (data event) with
  | Some r, Some strategy =>
      intent <- deref r ;;
      result <- execute intent strategy ;;
      update_context (set_executionResult result)
  | _, _ => throw "Missing intent or strategy for execution"
  end.

Definition antiPatternHandler (cfg : PipelineConfig) : EventHandler := fun event =>
  c <- get_context ;;
  match detectAntiPatterns cfg c with
  | Some antiPattern => update_context (set_antiPatternDetected antiPattern)
  | None => ret tt
  end.

Definition feedbackHandler : EventHandler := fun event => ret tt.

Definition registerDefaultHandlers (cfg : PipelineConfig)
  : PipelineStage -> list EventHandler :=
  fun s =>
    match s with
    | INTENT_CLASSIFICATION => [classificationHandler]
    | CONFIDENCE_GATING => [gatingHandler cfg]
    | STRATEGY_SELECTION => [strategyHandler]
    | EXECUTION => [executionHandler]
    | ANTI_PATTERN_DETECTION => [antiPatternHandler cfg]
    | FEEDBACK_COLLECTION => [feedbackHandler]
    end.

(** [new Pipeline(config)]. *)
Definition new_Pipeline (overrides : PartialConfig) : Pipeline :=
  let cfg := merge_config DEFAULT_CONFIG overrides in
  mkPipeline cfg (registerDefaultHandlers cfg) ∅ [] 0.

Definition event_at (s : PipelineStage) (d : EventData) (t : Z)
    (sessionId0 : string) (userId0 : option string) : PipelineEvent :=
  mkEvent s d (mkMetadata t sessionId0 userId0).

(** Stages 1 and 2 of [process]. *)
Definition classification_and_gating (p : Pipeline) (input sessionId0 : string)
    (userId0 : option string) : M unit :=
  t <- now ;;
  emit p (event_at INTENT_CLASSIFICATION (DInput input) t sessionId0 userId0) ;;;
  c <- get_context ;;
  t <- now ;;
  emit p (event_at CONFIDENCE_GATING (DIntent (currentIntent c)) t sessionId0 userId0).

(** Stage 3 of [process] and the test that follows it: the answer is
    whether [process] returns here. *)
Definition detection_stage (p : Pipeline) (sessionId0 : string)
    (userId0 : option string) : M bool :=
  if enableAntiPatternDetection (config p) then
    t <- now ;;
    emit p (event_at ANTI_PATTERN_DETECTION DHistory t sessionId0 userId0) ;;;
    c <- get_context ;;
    ret (bool_decide (is_Some (antiPatternDetected c)))
  else ret false.

(** Stages 4 and 5 of [process], and its last [return]. *)
Definition selection_and_execution (p : Pipeline) (sessionId0 : string)
    (userId0 : option string) : M PipelineContext :=
  c <- get_context ;;
  t <- now ;;
  emit p (event_at STRATEGY_SELECTION (DIntent (currentIntent c)) t
                   sessionId0 userId0) ;;;
  c <- get_context ;;
  t <- now ;;
  emit p (event_at EXECUTION (DExecution (currentIntent c) (selectedStrategy c)) t
                   sessionId0 userId0) ;;;
  get_context.

(** A turn as far as the end of stage 3. *)
Definition upto_detection (p : Pipeline) (input sessionId0 : string)
    (userId0 : option string) : M bool :=
  classification_and_gating p input sessionId0 userId0 ;;;
  detection_stage p sessionId0 userId0.

(** The [try] block of [process]; its [catch] block logs and rethrows. *)
Definition process_stages (p : Pipeline) (input sessionId0 : string)
    (userId0 : option string) : M PipelineContext :=
  stop <- upto_detection p input sessionId0 userId0 ;;
  if (stop : bool) then get_context
  else selection_and_execution p sessionId0 userId0.

(** The context of a session that has none yet. *)
Definition fresh_context (sessionId0 : string) (userId0 : option string)
  : PipelineContext :=
  mkContext sessionId0 userId0 [] None None None None.

(** Running a computation on the context of one session and leaving the
    context, the store and the clock where the computation left them:
    the context is one object, in the map all along. *)
Definition in_session {A} (p : Pipeline) (sessionId0 : string)
    (c : PipelineContext) (m : M A) : Pipeline * Outcome A :=
  let '(e, r) := m (mkEnv c (heap p) (clock p)) in
  (mkPipeline (config p) (eventBus p) (<[sessionId0 := context e]> (contexts p))
              (objects e) (reads e),
   r).

(** [process(input, sessionId, userId?)]. *)
Definition process (input sessionId0 : string) (userId0 : option string)
    (p : Pipeline) : Pipeline * Outcome PipelineContext :=
  let c :=
    match contexts p !! sessionId0 with
    | Some c => c
    | None => fresh_context sessionId0 userId0
    end in
  in_session p sessionId0 c (process_stages p input sessionId0 userId0).

(** [submitFeedback(sessionId, feedback)]. *)
Definition submitFeedback (sessionId0 : string) (feedback : UserFeedback)
    (p : Pipeline) : Pipeline * Outcome unit :=
  match contexts p !! sessionId0 with
  | None => (p, Thrown ("Session " +:+ sessionId0 +:+ " not found"))
  | Some c =>
      in_session p sessionId0 c
        (t <- now ;;
         emit p (event_at FEEDBACK_COLLECTION (DFeedback feedback) t
                          (sessionId c) (userId c)))
  end.

End WallClock.

(* ===================================================================== *)
(** * feedback/PreferenceModel.ts                                         *)
(* ===================================================================== *)

Record ContextFeatures := mkFeatures {
  intentType : IntentType;
  taskComplexity : Q;
  userExperience : Q;
  timeOfDay : Q;
  sessionLength : Q;
  previousSuccessRate : Q
}.

Record RewardEntry := mkEntry {
  entry_context : ContextFeatures;
  entry_strategy : StrategyType;
  reward : Q
}.

(** A JavaScript [Map] with keys compared by [same]: an association list
    in insertion order.  [set] on a key already there keeps its place. *)
Fixpoint Map_set {K V} (same : K -> K -> bool) (k : K) (v : V) (m : list (K * V))
  : list (K * V) :=
  match m with
  | [] => [(k, v)]
  | (k', v') :: m' =>
      if same k' k then (k', v) :: m' else (k', v') :: Map_set same k v m'
  end.

Fixpoint Map_get {K V} (same : K -> K -> bool) (k : K) (m : list (K * V)) : option V :=
  match m with
  | [] => None
  | (k', v') :: m' => if same k' k then Some v' else Map_get same k m'
  end.

(** A value of [JSON.parse]. *)
#[local] Set Warnings "-register-all".
Inductive json :=
  | JNull
  | JBool (b : bool)
  | JNumber (n : Q)
  | JString (s : string)
  | JArray (items : list json)
  | JObject (fields : list (string * json)).

(** A JavaScript string as [JSON.parse] sees it: a JSON text, given by
    the value it denotes, or any other string.  [JSON.parse] throws a
    [SyntaxError] on the second and returns the value of the first;
    [JSON.stringify] of a value built from finite numbers, strings,
    arrays and plain objects is a text that denotes it. *)
Inductive serialized :=
  | Text (denotes : json)
  | Malformed (s : string).

Definition JSON_parse (s : serialized) : Outcome json :=
  match s with
  | Text j => Returned j
  | Malformed _ => Thrown "SyntaxError"
  end.

Definition JSON_stringify (j : json) : serialized := Text j.

Module PreferenceModel.

Local Open Scope Q_scope.

(** [PreferenceState] as TypeScript declares it. *)
Record PreferenceState := mkState {
  strategyWeights : list (StrategyType * list Q);
  explorationRate : Q;
  totalIterations : nat;
  rewardHistory : list RewardEntry
}.

Definition same_strategy (a b : StrategyType) : bool := bool_decide (a = b).

(** [featureDimension]. *)
Definition featureDimension : nat := 6.

(** [new PreferenceModel(alpha)]: [Math.random()] is read once for each
    weight, strategy by strategy; [random n] is its n-th value. *)
Definition new_PreferenceModel (random : nat -> Q) : PreferenceState :=
  {| strategyWeights :=
       imap (fun k strategy =>
               (strategy,
                map (fun i => random (k * featureDimension + i)%nat * 0.1)
                    (seq 0 featureDimension)))
            StrategyType_values;
     explorationRate := 1.0;
     totalIterations := 0;
     rewardHistory := [] |}.

(** [intentTypeToNumeric(type)]; no entry of the table is falsy, so the
    [|| 0.5] of the source never applies. *)
Definition intentTypeToNumeric (type : IntentType) : Q :=
  match type with
  | VIBE_CHECK => 0.25
  | MOVE_MAKE => 0.5
  | CLARITY_CALL => 0.75
  | RAPPORT_BUILD => 1.0
  end.

(** [contextToVector(context)]. *)
Definition contextToVector (c : ContextFeatures) : list Q :=
  [ intentTypeToNumeric (intentType c);
    taskComplexity c;
    userExperience c;
    timeOfDay c / 24;
    sessionLength c / 60;
    previousSuccessRate c ].

(** [b[i]].  Past the end of [b] JavaScript reads [undefined] and the
    arithmetic on it is [NaN], which the numbers of this model do not
    have: the model is faithful where [i < length b], which holds for the
    weight vectors of every state the constructor and the two methods
    below produce (they all have [featureDimension] entries). *)
Definition at_index (b : list Q) (i : nat) : Q := nth i b 0.

(** [dotProduct(a, b)]: [a.reduce((sum, val, i) => sum + val * b[i], 0)]. *)
Definition dotProduct (a b : list Q) : Q :=
  fold_left (fun sum '(i, val) => sum + val * at_index b i)
            (imap (fun i val => (i, val)) a) 0.

(** [feedbackToReward(feedback)]. *)
Definition feedbackToReward (feedback : UserFeedback) : Q :=
  let reward := 0 in
  let reward :=
    match rating feedback with
    | Some r => reward + r / 5 * 0.6
    | None => reward
    end in
  let reward :=
    match implicit feedback with
    | Some i =>
        let reward := if taskCompleted i then reward + 0.4 else reward in
        let timeScore := Math_max 0 (1 - timeToCompletion i / 300) in
        let reward := reward + timeScore * 0.2 in
        let editScore := Math_max 0 (1 - editsMade i / 10) in
        reward + editScore * 0.2
    | None => reward
    end in
  Math_min 1 (Math_max 0 reward).

(** [updateFromFeedback(context, strategy, feedback)]. *)
Definition updateFromFeedback (c : ContextFeatures) (strategy : StrategyType)
    (feedback : UserFeedback) (st : PreferenceState) : PreferenceState :=
  let reward := feedbackToReward feedback in
  let history' := rewardHistory st ++ [mkEntry c strategy reward] in
  let contextVector := contextToVector c in
  let currentWeights :=
    default [] (Map_get same_strategy strategy (strategyWeights st)) in
  let learningRate := 0.1 / (1 + of_nat (totalIterations st) * 0.001) in
  let predicted := dotProduct currentWeights contextVector in
  let error := reward - predicted in
  let updatedWeights :=
    imap (fun i w => w + learningRate * error * at_index contextVector i)
         currentWeights in
  {| strategyWeights := Map_set same_strategy strategy updatedWeights (strategyWeights st);
     explorationRate := explorationRate st;
     totalIterations := totalIterations st;
     rewardHistory := history' |}.

Section Selection.

(** [Math.sqrt] and [Math.log]: only their being functions is used. *)
Variables Math_sqrt Math_log : Q -> Q.

(** [calculateUncertainty(strategy, context)]. *)
Definition calculateUncertainty (strategy : StrategyType) (st : PreferenceState) : Q :=
  let strategyCount :=
    length (filter (fun h => entry_strategy h = strategy) (rewardHistory st)) in
  Math_sqrt (2 * Math_log (of_nat (totalIterations st) + 1)
             / (of_nat strategyCount + 1)).

(** [selectStrategy(context)] with exploration parameter [alpha].  The
    running [bestScore] starts at [-Infinity], which is [None] here. *)
Definition selectStrategy (alpha : Q) (c : ContextFeatures) (st : PreferenceState)
  : StrategyType * PreferenceState :=
  let contextVector := contextToVector c in
  let best :=
    fold_left
      (fun (best : StrategyType * option Q) '(strategy, weights) =>
         let expectedReward := dotProduct weights contextVector in
         let uncertainty := calculateUncertainty strategy st in
         let ucbScore := expectedReward + alpha * uncertainty in
         match snd best with
         | Some bestScore =>
             if Qltb bestScore ucbScore then (strategy, Some ucbScore) else best
         | None => (strategy, Some ucbScore)
         end)
      (strategyWeights st) (AUTONOMOUS, None) in
  (fst best,
   {| strategyWeights := strategyWeights st;
      explorationRate := Math_max 0.1 (explorationRate st * 0.999);
      totalIterations := S (totalIterations st);
      rewardHistory := rewardHistory st |}).

End Selection.

(** One entry of the record [getStrategyStats] returns. *)
Record StrategyStats := mkStats {
  stats_count : nat;
  avgReward : Q
}.

(** [getStrategyStats()]: an entry for each strategy of the enumeration,
    in its order. *)
Definition getStrategyStats (st : PreferenceState)
  : list (StrategyType * StrategyStats) :=
  map (fun strategy =>
         let strategyHistory :=
           filter (fun h => entry_strategy h = strategy) (rewardHistory st) in
         (strategy,
          {| stats_count := length strategyHistory;
             avgReward :=
               if (0 <? length strategyHistory)%nat
               then fold_left (fun sum h => sum + reward h) strategyHistory 0
                    / of_nat (length strategyHistory)
               else 0 |}))
      StrategyType_values.

(** ** The state as the running program holds it

    TypeScript's types are erased: [importModel] stores what [JSON.parse]
    returned, whatever its shape.  The state it writes is therefore
    untyped; [None] is [undefined]. *)
Record RawState := mkRaw {
  raw_strategyWeights : list (option json * option json);
  raw_explorationRate : option json;
  raw_totalIterations : option json;
  raw_rewardHistory : option json
}.

(** How the values of the typed state are laid out as JSON values;
    [JSON.stringify] writes an object's fields in this order. *)
Definition features_json (c : ContextFeatures) : json :=
  JObject [ ("intentType", JString (IntentType_value (intentType c)));
            ("taskComplexity", JNumber (taskComplexity c));
            ("userExperience", JNumber (userExperience c));
            ("timeOfDay", JNumber (timeOfDay c));
            ("sessionLength", JNumber (sessionLength c));
            ("previousSuccessRate", JNumber (previousSuccessRate c)) ].

Definition entry_json (h : RewardEntry) : json :=
  JObject [ ("context", features_json (entry_context h));
            ("strategy", JString (StrategyType_value (entry_strategy h)));
            ("reward", JNumber (reward h)) ].

Definition weights_json (w : list Q) : json := JArray (map JNumber w).

(** The typed state in memory. *)
Definition raw_of (st : PreferenceState) : RawState :=
  {| raw_strategyWeights :=
       map (fun '(strategy, w) =>
              (Some (JString (StrategyType_value strategy)), Some (weights_json w)))
           (strategyWeights st);
     raw_explorationRate := Some (JNumber (explorationRate st));
     raw_totalIterations := Some (JNumber (of_nat (totalIterations st)));
     raw_rewardHistory := Some (JArray (map entry_json (rewardHistory st))) |}.

(** [state.rewardHistory.length], when [rewardHistory] is an array. *)
Definition raw_history_length (r : RawState) : option nat :=
  match raw_rewardHistory r with
  | Some (JArray items) => Some (length items)
  | _ => None
  end.

(** [exportModel()]. *)
Definition exportModel (st : PreferenceState) : serialized :=
  JSON_stringify
    (JObject
       [ ("weights",
          JArray (map (fun '(strategy, w) =>
                         JArray [JString (StrategyType_value strategy); weights_json w])
                      (strategyWeights st)));
         ("explorationRate", JNumber (explorationRate st));
         ("totalIterations", JNumber (of_nat (totalIterations st)));
         ("rewardHistory", JArray (map entry_json (slice_last 100 (rewardHistory st)))) ]).

(** [value.name] on a parsed value: a [TypeError] on [null], the field
    of an object, and [undefined] everywhere else (the four names read
    below are properties of no array, string, number or boolean). *)
Definition get_property (v : json) (name : string) : Outcome (option json) :=
  match v with
  | JNull => Thrown ("Cannot read properties of null (reading '" +:+ name +:+ "')")
  | JObject fields => Returned (Map_get String.eqb name fields)
  | _ => Returned None
  end.

(** [item[i]] for an entry of the iterable handed to [new Map]. *)
Definition entry_component (item : json) (i : nat) : option json :=
  match item with
  | JArray items => items !! i
  | JObject fields => Map_get String.eqb (nat_to_string i) fields
  | _ => None
  end.

(** SameValueZero, the key equality of [Map].  Two arrays or objects of
    one parsed value are two objects: never the same key. *)
Definition same_value_zero (a b : option json) : bool :=
  match a, b with
  | None, None => true
  | Some JNull, Some JNull => true
  | Some (JBool x), Some (JBool y) => Bool.eqb x y
  | Some (JNumber x), Some (JNumber y) => Qeq_bool x y
  | Some (JString x), Some (JString y) => String.eqb x y
  | _, _ => false
  end.

(** The loop of [new Map(iterable)] over the elements of an array: each
    must be an object, and contributes [item[0]] and [item[1]]. *)
Fixpoint Map_of_entries (items : list json) (m : list (option json * option json))
  : Outcome (list (option json * option json)) :=
  match items with
  | [] => Returned m
  | item :: rest =>
      match item with
      | JArray _ | JObject _ =>
          Map_of_entries rest
            (Map_set same_value_zero (entry_component item 0)
                     (entry_component item 1) m)
      | _ => Thrown "Iterator value is not an entry object"
      end
  end.

(** [new Map(iterable)]: empty for [undefined] and [null]; an array is
    iterated; a string is iterated too, and its elements are strings, so
    only the empty string passes; nothing else is iterable. *)
Definition new_Map (iterable : option json)
  : Outcome (list (option json * option json)) :=
  match iterable with
  | None | Some JNull => Returned []
  | Some (JArray items) => Map_of_entries items []
  | Some (JString s) =>
      if truthy s then Thrown "Iterator value is not an entry object"
      else Returned []
  | Some _ => Thrown "object is not iterable"
  end.

Definition set_strategyWeights (w : list (option json * option json)) : Comp RawState unit :=
  fun r => (mkRaw w (raw_explorationRate r) (raw_totalIterations r) (raw_rewardHistory r),
            Returned tt).

Definition set_explorationRate (v : option json) : Comp RawState unit :=
  fun r => (mkRaw (raw_strategyWeights r) v (raw_totalIterations r) (raw_rewardHistory r),
            Returned tt).

Definition set_totalIterations (v : option json) : Comp RawState unit :=
  fun r => (mkRaw (raw_strategyWeights r) (raw_explorationRate r) v (raw_rewardHistory r),
            Returned tt).

Definition set_rewardHistory (v : option json) : Comp RawState unit :=
  fun r => (mkRaw (raw_strategyWeights r) (raw_explorationRate r) (raw_totalIterations r) v,
            Returned tt).

(** The [try] block of [importModel], statement by statement. *)
Definition importModel_try (s : serialized) : Comp RawState unit :=
  data <- lift (JSON_parse s) ;;
  weights <- lift (get_property data "weights") ;;
  m <- lift (new_Map weights) ;;
  set_strategyWeights m ;;;
  rate <- lift (get_property data "explorationRate") ;;
  set_explorationRate rate ;;;
  iterations <- lift (get_property data "totalIterations") ;;
  set_totalIterations iterations ;;;
  history <- lift (get_property data "rewardHistory") ;;
  set_rewardHistory history.

(** [importModel(serialized)]: the state it leaves, and the error its
    [catch] block logged, if any. *)
Definition importModel (s : serialized) (r : RawState) : RawState * option string :=
  match importModel_try s r with
  | (r', Returned _) => (r', None)
  | (r', Thrown message) => (r', Some message)
  end.

End PreferenceModel.


(* ===================================================================== *)
(** * What a turn of the default handlers leaves, written out             *)
(* ===================================================================== *)

(** The intent after the default gating handler. *)
Definition gated (cfg : PipelineConfig) (intent : ClassifiedIntent) : ClassifiedIntent :=
  if Qltb (overall (confidence intent)) (confidenceThreshold cfg)
  then mkIntent CLARITY_CALL (confidence intent) (rawInput intent)
                (intent_timestamp intent)
  else intent.

(** The context after the default detection handler. *)
Definition detected (cfg : PipelineConfig) (c : PipelineContext) : PipelineContext :=
  match detectAntiPatterns cfg c with
  | Some antiPattern => set_antiPatternDetected antiPattern c
  | None => c
  end.

(** The result [execute] builds from two readings of the clock. *)
Definition executed (intent : ClassifiedIntent) (strategy : ExecutionStrategy)
    (startTime endTime : Z) : ExecutionResult :=
  {| success := true;
     output := Some ("Executed " +:+ IntentType_value (intent_type intent)
                     +:+ " with " +:+ StrategyType_value (strategy_type strategy)
                     +:+ " strategy");
     error := None;
     metrics := {| duration := endTime - startTime;
                   tokensUsed := Some 150%Z;
                   retriesAttempted := 0 |} |}.

(** The stages named by a list of events. *)
Definition stages (events : list PipelineEvent) : list PipelineStage := map stage events.

(** The calls a client makes on a [Pipeline] that change its state. *)
Inductive Operation :=
  | Process (input sessionId0 : string) (userId0 : option string)
  | SubmitFeedback (sessionId0 : string) (feedback : UserFeedback)
  | ClearContext (sessionId0 : string).

(** Whether the call discards the context of the session [sid]. *)
Definition touches_cleared (sid : string) (op : Operation) : bool :=
  match op with
  | ClearContext s => bool_decide (s = sid)
  | _ => false
  end.

(** The pipeline after one call, and after a sequence of calls. *)
Definition run_operation (Date_now : nat -> Z) (op : Operation) (p : Pipeline) : Pipeline :=
  match op with
  | Process input s u => fst (process Date_now input s u p)
  | SubmitFeedback s feedback => fst (submitFeedback Date_now s feedback p)
  | ClearContext s => clearContext s p
  end.

Definition run_operations (Date_now : nat -> Z) (ops : list Operation) (p : Pipeline)
  : Pipeline :=
  fold_left (fun p op => run_operation Date_now op p) ops p.

(** The last two stages of a turn of the default handlers, for the
    intent [intent] at address [r]. *)
Definition finish_turn (Date_now : nat -> Z) (r : ref) (intent : ClassifiedIntent)
    (sid : string) (uid : option string) (e : Env) : Env :=
  let n := reads e in
  let evSS := event_at STRATEGY_SELECTION (DIntent (Some r)) (Date_now n) sid uid in
  let c := push_history evSS (context e) in
  let strategy := selectStrategy intent c in
  let c := set_selectedStrategy strategy c in
  let evEX :=
    event_at EXECUTION (DExecution (Some r) (Some strategy)) (Date_now (S n)) sid uid in
  let c :=
    set_executionResult
      (executed intent strategy (Date_now (S (S n))) (Date_now (S (S (S n)))))
      (push_history evEX c) in
  mkEnv c (objects e) (S (S (S (S n)))).

(** The first two stages. *)
Definition start_turn (Date_now : nat -> Z) (cfg : PipelineConfig) (input sid : string)
    (uid : option string) (e : Env) : Env :=
  let n := reads e in
  let r := length (objects e) in
  let evIC := event_at INTENT_CLASSIFICATION (DInput input) (Date_now n) sid uid in
  let evCG :=
    event_at CONFIDENCE_GATING (DIntent (Some r)) (Date_now (S (S n))) sid uid in
  mkEnv (push_history evCG (set_currentIntent r (push_history evIC (context e))))
        (objects e ++ [gated cfg (classifyIntent_at (Date_now (S n)) input)])
        (S (S (S n))).

(** The detection stage. *)
Definition detect_turn (Date_now : nat -> Z) (cfg : PipelineConfig) (sid : string)
    (uid : option string) (e : Env) : Env :=
  let evAPD := event_at ANTI_PATTERN_DETECTION DHistory (Date_now (reads e)) sid uid in
  mkEnv (detected cfg (push_history evAPD (context e))) (objects e) (S (reads e)).

(** A whole turn of the default handlers. *)
Definition default_turn (Date_now : nat -> Z) (cfg : PipelineConfig) (input sid : string)
    (uid : option string) (e : Env) : Env :=
  let r := length (objects e) in
  let intent := gated cfg (classifyIntent_at (Date_now (S (reads e))) input) in
  let e2 := start_turn Date_now cfg input sid uid e in
  if enableAntiPatternDetection cfg then
    let e3 := detect_turn Date_now cfg sid uid e2 in
    if bool_decide (is_Some (antiPatternDetected (context e3))) then e3
    else finish_turn Date_now r intent sid uid e3
  else finish_turn Date_now r intent sid uid e2.

(** The context [process] works on: the session's, or a fresh one. *)
Definition session_context (p : Pipeline) (sid : string) (uid : option string)
  : PipelineContext :=
  default (fresh_context sid uid) (contexts p !! sid).

(** The environment a turn of [process] starts in. *)
Definition session_env (p : Pipeline) (sid : string) (uid : option string) : Env :=
  mkEnv (session_context p sid uid) (heap p) (clock p).

(** A handler that leaves the history as it found it, whether it returns
    or throws. *)
Definition keeps_history (h : EventHandler) : Prop :=
  forall event e, history (context (fst (h event e))) = history (context e).

(** A computation after which the history is the one before it with
    events added at its end, whether it returns or throws. *)
Definition only_appends {A} (m : M A) : Prop :=
  forall e, exists new, history (context (fst (m e))) = history (context e) ++ new.

(** An event of one of the two stages that act on the request. *)
Definition runs_task (event : PipelineEvent) : Prop :=
  stage event = STRATEGY_SELECTION \/ stage event = EXECUTION.

(** The environment of [emit] once the event is pushed, where the first
    handler starts. *)
Definition pushed (event : PipelineEvent) (e : Env) : Env :=
  mkEnv (push_history event (context e)) (objects e) (reads e).

(** An observer that reads and leaves everything as it is, as the one of
    the test "Integration - Custom event handlers". *)
Definition passive_observer : EventHandler := fun event => ret tt.

(** The count as the specification words it in section 4.1, "count
    classification events whose raw input length < 10", to compare with
    [clarificationCount], which is the count of the source. *)
Definition spec_counts_as_clarification (event : PipelineEvent) : bool :=
  match stage event, data event with
  | INTENT_CLASSIFICATION, DInput input => (String.length input <? 10)%nat
  | _, _ => false
  end.

Definition spec_clarificationCount (events : list PipelineEvent) : nat :=
  length (filter (fun e => spec_counts_as_clarification e = true) events).

(** The overrides of the test "GOOSEGUARD: Detects infinite clarification
    loop". *)
Definition gooseguard_overrides : PartialConfig :=
  mkPartial None (Some 3%Q) (Some true) None None (Some false).

(** [n] calls of [process] with the same input in one session of a new
    pipeline. *)
Definition repeated_turns (Date_now : nat -> Z) (overrides : PartialConfig)
    (input sid : string) (n : nat) : Pipeline :=
  Nat.iter n (fun p => fst (process Date_now input sid None p))
           (new_Pipeline Date_now overrides).

(** The values of the test "PreferenceModel - Export and Import", and a
    model trained [n] times on them.  Every reading of [Math.random()] is
    taken to be 0.5. *)
Definition example_random : nat -> Q := fun _ => 0.5%Q.

Definition example_features : ContextFeatures :=
  mkFeatures MOVE_MAKE 0.6 0.8 10 15 0.85.

Definition example_feedback : UserFeedback :=
  mkFeedback (Some 4%Q) (Some (mkImplicit true 60 2)).

Definition trained (n : nat) : PreferenceModel.PreferenceState :=
  Nat.iter n
    (PreferenceModel.updateFromFeedback example_features CONFIRMATION example_feedback)
    (PreferenceModel.new_PreferenceModel example_random).

(** The states of a [PreferenceModel] that the constructor and its two
    methods on typed arguments produce. *)
Inductive reachable : PreferenceModel.PreferenceState -> Prop :=
  | reachable_new random :
      reachable (PreferenceModel.new_PreferenceModel random)
  | reachable_update c strategy feedback st :
      reachable st ->
      reachable (PreferenceModel.updateFromFeedback c strategy feedback st)
  | reachable_select sqrt log alpha c st :
      reachable st ->
      reachable (snd (PreferenceModel.selectStrategy sqrt log alpha c st)).

(** The entry of one strategy in the exported [weights] array, and in the
    [Map] in memory. *)
Definition exported_entry (sw : StrategyType * list Q) : json :=
  let '(strategy, w) := sw in
  JArray [JString (StrategyType_value strategy); PreferenceModel.weights_json w].

Definition stored_entry (sw : StrategyType * list Q) : option json * option json :=
  let '(strategy, w) := sw in
  (Some (JString (StrategyType_value strategy)), Some (PreferenceModel.weights_json w)).

(* ===================================================================== *)
(** * Further notions used by the properties                              *)
(* ===================================================================== *)

(** An input that the counting loop of the detector counts: not empty
    and shorter than 10 code units. *)
Definition counted_input (input : string) : bool :=
  truthy input && (String.length input <? 10)%nat.

(** A finding as the first check of the detector reports it. *)
Definition clarification_finding (a : AntiPattern) : Prop :=
  ap_type a = INFINITE_CLARIFICATION /\ severity a = 0.9%Q.

(** [process] called with each input of a list, in order, for one
    session and one user. *)
Definition process_inputs (Date_now : nat -> Z) (inputs : list string)
    (sid : string) (uid : option string) (p : Pipeline) : Pipeline :=
  fold_left (fun p input => fst (process Date_now input sid uid p)) inputs p.

(** A clock that never runs backwards. *)
Definition monotone_clock (Date_now : nat -> Z) : Prop :=
  forall n m, (n <= m)%nat -> (Date_now n <= Date_now m)%Z.


(** The learning rate of [updateFromFeedback] after [n] selections. *)
Definition learning_rate (n : nat) : Q := (0.1 / (1 + of_nat n * 0.001))%Q.

(** The states of a model after [selections] calls of [selectStrategy]
    and [updates] calls of [updateFromFeedback], in any order. *)
Inductive reachable_after : nat -> nat -> PreferenceModel.PreferenceState -> Prop :=
  | after_new random :
      reachable_after 0 0 (PreferenceModel.new_PreferenceModel random)
  | after_update selections updates c strategy feedback st :
      reachable_after selections updates st ->
      reachable_after selections (S updates)
        (PreferenceModel.updateFromFeedback c strategy feedback st)
  | after_select selections updates sqrt log alpha c st :
      reachable_after selections updates st ->
      reachable_after (S selections) updates
        (snd (PreferenceModel.selectStrategy sqrt log alpha c st)).



(** The events a call of [process] that returns has appended to the
    history of the session. *)
Definition turn_events (Date_now : nat -> Z) (p : Pipeline) (input sid : string)
    (uid : option string) : list PipelineEvent :=
  match snd (process Date_now input sid uid p) with
  | Returned c' => drop (length (history (session_context p sid uid))) (history c')
  | Thrown _ => []
  end.
(* ===================================================================== *)
(** * Properties: numbers                                                 *)
(* ===================================================================== *)

Lemma Qltb_lt (a b : Q) : Qltb a b = true <-> (a < b)%Q.
Proof.
  unfold Qltb. rewrite negb_true_iff. split.
  - intros H. apply Qnot_le_lt. intros Hle.
    apply Qle_bool_iff in Hle. congruence.
  - intros H. destruct (Qle_bool b a) eqn:E; [|reflexivity].
    apply Qle_bool_iff in E. exfalso. now apply (Qlt_not_le a b).
Qed.

Lemma Qltb_ge (a b : Q) : Qltb a b = false <-> (b <= a)%Q.
Proof.
  unfold Qltb. rewrite negb_false_iff. apply Qle_bool_iff.
Qed.

Lemma Math_max_lower (a b : Q) : (a <= Math_max a b)%Q.
Proof.
  unfold Math_max. destruct (Qle_bool a b) eqn:E.
  - now apply Qle_bool_iff.
  - apply Qle_refl.
Qed.

Lemma Math_min_upper (a b : Q) : (Math_min a b <= a)%Q.
Proof.
  unfold Math_min. destruct (Qle_bool a b) eqn:E.
  - apply Qle_refl.
  - apply Qlt_le_weak, Qnot_le_lt. intros H. apply Qle_bool_iff in H. congruence.
Qed.

Lemma Math_min_lower (a b c : Q) : (c <= a)%Q -> (c <= b)%Q -> (c <= Math_min a b)%Q.
Proof. unfold Math_min. now destruct (Qle_bool a b). Qed.

(** The clamp of [feedbackToReward]. *)
Lemma clamp_unit (x : Q) : (0 <= Math_min 1 (Math_max 0 x) <= 1)%Q.
Proof.
  split.
  - apply Math_min_lower; [lra | apply Math_max_lower].
  - apply Math_min_upper.
Qed.

(* ===================================================================== *)
(** * Properties: confidence gating                                       *)
(* ===================================================================== *)

(** C3.  The default confidence-gating handler, run on an event whose
    [data.intent] is the object [intent] at address [r]: it returns
    without throwing, leaves the context and every other object alone,
    keeps the four sub-scores and [overall] of the intent (its whole
    [confidence]), sets its type to [CLARITY_CALL] when [overall] is
    strictly below the threshold and keeps its type when [overall] is at
    or above the threshold. *)
Theorem gating_forces_clarification
    (cfg : PipelineConfig) (event : PipelineEvent) (e : Env)
    (r : ref) (intent : ClassifiedIntent) :
  data_intent (data event) = Some r ->
  objects e !! r = Some intent ->
  exists intent',
    gatingHandler cfg event e
      = (mkEnv (context e) (<[r := intent']> (objects e)) (reads e), Returned tt)
    /\ confidence intent' = confidence intent
    /\ rawInput intent' = rawInput intent
    /\ ((overall (confidence intent) < confidenceThreshold cfg)%Q ->
        intent_type intent' = CLARITY_CALL)
    /\ ((confidenceThreshold cfg <= overall (confidence intent))%Q ->
        intent_type intent' = intent_type intent).
Proof.
  intros Hdata Hobj.
  unfold gatingHandler. rewrite Hdata.
  unfold bind, deref. rewrite Hobj.
  destruct (Qltb (overall (confidence intent)) (confidenceThreshold cfg)) eqn:Hlt.
  - exists (mkIntent CLARITY_CALL (confidence intent) (rawInput intent)
                     (intent_timestamp intent)).
    unfold assign_type. rewrite Hobj. simpl.
    repeat split; try reflexivity.
    intros Hge. apply Qltb_lt in Hlt. exfalso. now apply (Qlt_not_le _ _ Hlt).
  - exists intent. rewrite list_insert_id by exact Hobj.
    destruct e; simpl. repeat split; try reflexivity.
    intros Hlow. apply Qltb_lt in Hlow. congruence.
Qed.

(** A conversational intent of overall confidence 0.7375 under a threshold
    of 0.9: it is downgraded. *)
Lemma gating_forces_clarification_witness :
  let intent := classifyIntent_at 0 "Explain async/await" in
  let e := mkEnv (fresh_context "s" None) [intent] 0 in
  let event := mkEvent CONFIDENCE_GATING (DIntent (Some 0%nat)) (mkMetadata 0 "s" None) in
  let cfg := mkConfig 0.9 3 true true "gpt-4" false in
  exists intent',
    gatingHandler cfg event e
      = (mkEnv (context e) (<[0%nat := intent']> (objects e)) (reads e), Returned tt)
    /\ confidence intent' = confidence intent
    /\ rawInput intent' = rawInput intent
    /\ ((overall (confidence intent) < confidenceThreshold cfg)%Q ->
        intent_type intent' = CLARITY_CALL)
    /\ ((confidenceThreshold cfg <= overall (confidence intent))%Q ->
        intent_type intent' = intent_type intent).
Proof.
  exact (gating_forces_clarification
           (mkConfig 0.9 3 true true "gpt-4" false)
           (mkEvent CONFIDENCE_GATING (DIntent (Some 0%nat)) (mkMetadata 0 "s" None))
           (mkEnv (fresh_context "s" None) [classifyIntent_at 0 "Explain async/await"] 0)
           0%nat (classifyIntent_at 0 "Explain async/await") eq_refl eq_refl).
Defined.

(* ===================================================================== *)
(** * Properties: strategy selection                                      *)
(* ===================================================================== *)

Lemma selectStrategy_type (intent : ClassifiedIntent) (c : PipelineContext) :
  strategy_type (selectStrategy intent c)
  = match intent_type intent with
    | VIBE_CHECK => AUTONOMOUS
    | MOVE_MAKE =>
        if Qltb 0.9 (overall (confidence intent)) then AUTONOMOUS else CONFIRMATION
    | CLARITY_CALL => GUIDED
    | RAPPORT_BUILD => AUTONOMOUS
    end.
Proof. unfold selectStrategy. simpl. now destruct (intent_type intent). Qed.

(** The result of [selectStrategy] depends on the type of the intent and
    on the value of [overall] only: not on the context, nor on the rest
    of the intent, nor on how [overall] is written as a fraction. *)
Lemma selectStrategy_pure (i1 i2 : ClassifiedIntent) (c1 c2 : PipelineContext) :
  intent_type i1 = intent_type i2 ->
  (overall (confidence i1) == overall (confidence i2))%Q ->
  selectStrategy i1 c1 = selectStrategy i2 c2.
Proof.
  intros Ht Ho. unfold selectStrategy. rewrite Ht.
  assert (Qltb 0.9 (overall (confidence i1)) = Qltb 0.9 (overall (confidence i2))) as ->.
  { unfold Qltb. f_equal.
    destruct (Qle_bool (overall (confidence i1)) 0.9) eqn:E1,
             (Qle_bool (overall (confidence i2)) 0.9) eqn:E2; try reflexivity.
    - apply Qle_bool_iff in E1. rewrite Ho in E1. apply Qle_bool_iff in E1. congruence.
    - apply Qle_bool_iff in E2. rewrite <- Ho in E2. apply Qle_bool_iff in E2. congruence. }
  reflexivity.
Qed.

(* ===================================================================== *)
(** * Properties: the stages of the default handlers                      *)
(* ===================================================================== *)

Lemma lookup_fresh {A} (h : list A) (x : A) : (h ++ [x]) !! length h = Some x.
Proof. rewrite lookup_app_r by lia. now rewrite Nat.sub_diag. Qed.

Lemma insert_fresh {A} (h : list A) (x y : A) : <[length h := y]> (h ++ [x]) = h ++ [y].
Proof. rewrite insert_app_r_alt by lia. now rewrite Nat.sub_diag. Qed.

Section DefaultStages.

Variable Date_now : nat -> Z.
Variable p : Pipeline.
Hypothesis Hbus : eventBus p = registerDefaultHandlers Date_now (config p).

Lemma emit_classification input t sid uid e :
  let ev := event_at INTENT_CLASSIFICATION (DInput input) t sid uid in
  emit p ev e
  = (mkEnv (set_currentIntent (length (objects e)) (push_history ev (context e)))
           (objects e ++ [classifyIntent_at (Date_now (reads e)) input])
           (S (reads e)),
     Returned tt).
Proof. unfold emit. rewrite Hbus. reflexivity. Qed.

Lemma emit_gating r intent t sid uid e :
  objects e !! r = Some intent ->
  let ev := event_at CONFIDENCE_GATING (DIntent (Some r)) t sid uid in
  emit p ev e
  = (mkEnv (push_history ev (context e))
           (<[r := gated (config p) intent]> (objects e))
           (reads e),
     Returned tt).
Proof.
  intros Hobj. unfold emit. rewrite Hbus. cbn.
  unfold bind, deref. cbn. rewrite Hobj. unfold gated.
  destruct (Qltb _ _).
  - unfold assign_type. cbn. now rewrite Hobj.
  - cbn. now rewrite list_insert_id.
Qed.

Lemma emit_detection t sid uid e :
  let ev := event_at ANTI_PATTERN_DETECTION DHistory t sid uid in
  emit p ev e
  = (mkEnv (detected (config p) (push_history ev (context e))) (objects e) (reads e),
     Returned tt).
Proof.
  unfold emit. rewrite Hbus. cbn. unfold bind, antiPatternHandler, detected. cbn.
  now destruct (detectAntiPatterns _ _).
Qed.

Lemma emit_strategy r intent t sid uid e :
  objects e !! r = Some intent ->
  let ev := event_at STRATEGY_SELECTION (DIntent (Some r)) t sid uid in
  emit p ev e
  = (mkEnv (set_selectedStrategy
              (selectStrategy intent (push_history ev (context e)))
              (push_history ev (context e)))
           (objects e) (reads e),
     Returned tt).
Proof.
  intros Hobj. unfold emit. rewrite Hbus. cbn.
  unfold bind, deref. cbn. now rewrite Hobj.
Qed.

Lemma emit_execution r intent strategy t sid uid e :
  objects e !! r = Some intent ->
  let ev := event_at EXECUTION (DExecution (Some r) (Some strategy)) t sid uid in
  emit p ev e
  = (mkEnv (set_executionResult
              (executed intent strategy (Date_now (reads e)) (Date_now (S (reads e))))
              (push_history ev (context e)))
           (objects e) (S (S (reads e))),
     Returned tt).
Proof.
  intros Hobj. unfold emit. rewrite Hbus. cbn.
  unfold bind, deref. cbn. now rewrite Hobj.
Qed.

Lemma emit_feedback feedback t sid uid e :
  let ev := event_at FEEDBACK_COLLECTION (DFeedback feedback) t sid uid in
  emit p ev e = (mkEnv (push_history ev (context e)) (objects e) (reads e), Returned tt).
Proof. unfold emit. rewrite Hbus. reflexivity. Qed.

End DefaultStages.
Section DefaultTurn.

Variable Date_now : nat -> Z.
Variable p : Pipeline.
Hypothesis Hbus : eventBus p = registerDefaultHandlers Date_now (config p).

Lemma start_turn_spec input sid uid e :
  classification_and_gating Date_now p input sid uid e
  = (start_turn Date_now (config p) input sid uid e, Returned tt).
Proof.
  destruct e as [c objs n]. unfold classification_and_gating.
  unfold bind at 1. cbn [now context objects reads].
  unfold bind at 1. rewrite (emit_classification Date_now p Hbus).
  cbn [context objects reads].
  unfold bind at 1. cbn [get_context context].
  unfold bind at 1. cbn [now context objects reads].
  cbn [currentIntent set_currentIntent].
  rewrite (emit_gating Date_now p Hbus (length objs)
             (classifyIntent_at (Date_now (S n)) input))
    by (cbn; apply lookup_fresh).
  cbn [context objects reads]. now rewrite insert_fresh.
Qed.

Lemma detection_stage_spec sid uid e :
  detection_stage Date_now p sid uid e
  = if enableAntiPatternDetection (config p)
    then (detect_turn Date_now (config p) sid uid e,
          Returned (bool_decide
                      (is_Some (antiPatternDetected
                                  (context (detect_turn Date_now (config p) sid uid e))))))
    else (e, Returned false).
Proof.
  destruct e as [c objs n]. unfold detection_stage.
  destruct (enableAntiPatternDetection (config p)); [|reflexivity].
  unfold bind at 1. cbn [now context objects reads].
  unfold bind at 1. rewrite (emit_detection Date_now p Hbus).
  reflexivity.
Qed.

Lemma finish_turn_spec r intent sid uid e :
  objects e !! r = Some intent ->
  currentIntent (context e) = Some r ->
  selection_and_execution Date_now p sid uid e
  = (finish_turn Date_now r intent sid uid e,
     Returned (context (finish_turn Date_now r intent sid uid e))).
Proof.
  intros Hobj Hcur. destruct e as [c objs n]. cbn in Hobj, Hcur.
  unfold selection_and_execution.
  unfold bind at 1. cbn [get_context context].
  unfold bind at 1. cbn [now context objects reads].
  unfold bind at 1. rewrite Hcur.
  rewrite (emit_strategy Date_now p Hbus r intent) by exact Hobj.
  cbn [context objects reads].
  unfold bind at 1. cbn [get_context context].
  unfold bind at 1. cbn [now context objects reads].
  unfold bind at 1. cbn [currentIntent selectedStrategy set_selectedStrategy push_history].
  rewrite Hcur.
  rewrite (emit_execution Date_now p Hbus r intent) by exact Hobj.
  reflexivity.
Qed.

Lemma detected_currentIntent cfg c : currentIntent (detected cfg c) = currentIntent c.
Proof. unfold detected. now destruct (detectAntiPatterns cfg c). Qed.

Lemma process_stages_default input sid uid e :
  process_stages Date_now p input sid uid e
  = (default_turn Date_now (config p) input sid uid e,
     Returned (context (default_turn Date_now (config p) input sid uid e))).
Proof.
  unfold process_stages, upto_detection.
  unfold bind at 1. unfold bind at 1. rewrite start_turn_spec.
  rewrite detection_stage_spec. unfold default_turn.
  destruct (enableAntiPatternDetection (config p)).
  - destruct (bool_decide _) eqn:Hstop; [reflexivity|].
    apply finish_turn_spec.
    + apply lookup_fresh.
    + cbn. apply detected_currentIntent.
  - apply finish_turn_spec; [apply lookup_fresh | reflexivity].
Qed.

End DefaultTurn.

(* ===================================================================== *)
(** * Properties: process                                                 *)
(* ===================================================================== *)

Lemma process_unfold Date_now input sid uid p :
  process Date_now input sid uid p
  = in_session p sid (session_context p sid uid)
      (process_stages Date_now p input sid uid).
Proof.
  unfold process, session_context. now destruct (contexts p !! sid).
Qed.

Lemma process_default Date_now p input sid uid :
  eventBus p = registerDefaultHandlers Date_now (config p) ->
  let e' := default_turn Date_now (config p) input sid uid (session_env p sid uid) in
  process Date_now input sid uid p
  = (mkPipeline (config p) (eventBus p) (<[sid := context e']> (contexts p))
                (objects e') (reads e'),
     Returned (context e')).
Proof.
  intros Hbus e'. rewrite process_unfold. unfold in_session.
  fold (session_env p sid uid).
  now rewrite (process_stages_default Date_now p Hbus).
Qed.

Lemma upto_detection_default Date_now p input sid uid e :
  eventBus p = registerDefaultHandlers Date_now (config p) ->
  fst (upto_detection Date_now p input sid uid e)
  = if enableAntiPatternDetection (config p)
    then detect_turn Date_now (config p) sid uid
           (start_turn Date_now (config p) input sid uid e)
    else start_turn Date_now (config p) input sid uid e.
Proof.
  intros Hbus. unfold upto_detection, bind.
  rewrite (start_turn_spec Date_now p Hbus), (detection_stage_spec Date_now p Hbus).
  now destruct (enableAntiPatternDetection (config p)).
Qed.

(** What the default detection handler leaves in [antiPatternDetected]:
    the new finding if there is one, and what was there otherwise. *)
Lemma detected_antiPattern cfg c :
  antiPatternDetected (detected cfg c)
  = match detectAntiPatterns cfg c with
    | Some a => Some a
    | None => antiPatternDetected c
    end.
Proof. unfold detected. now destruct (detectAntiPatterns cfg c). Qed.

Lemma detected_history cfg c : history (detected cfg c) = history c.
Proof. unfold detected. now destruct (detectAntiPatterns cfg c). Qed.

Lemma detected_selectedStrategy cfg c :
  selectedStrategy (detected cfg c) = selectedStrategy c.
Proof. unfold detected. now destruct (detectAntiPatterns cfg c). Qed.

Lemma detected_executionResult cfg c :
  executionResult (detected cfg c) = executionResult c.
Proof. unfold detected. now destruct (detectAntiPatterns cfg c). Qed.

(** For any handlers: a turn whose first three stages return with the
    finding set ends there, in the state the detection stage left. *)
Lemma process_stages_halts Date_now p input sid uid e e3 :
  upto_detection Date_now p input sid uid e = (e3, Returned true) ->
  process_stages Date_now p input sid uid e = (e3, Returned (context e3)).
Proof. intros H. unfold process_stages, bind. now rewrite H. Qed.

(** For any handlers: the detection stage answers [true] only when it is
    enabled and leaves the finding set. *)
Lemma upto_detection_true Date_now p input sid uid e e3 :
  upto_detection Date_now p input sid uid e = (e3, Returned true) ->
  enableAntiPatternDetection (config p) = true
  /\ is_Some (antiPatternDetected (context e3)).
Proof.
  unfold upto_detection, detection_stage, bind.
  destruct (classification_and_gating _ _ _ _ _ _) as [e2 [[]|message]]; [|discriminate].
  destruct (enableAntiPatternDetection (config p)); [|discriminate].
  destruct (now Date_now e2) as [e2' [t|message]] eqn:Hnow; [|discriminate].
  destruct (emit p _ e2') as [e3' [[]|message]]; [|discriminate].
  cbn. intros [= <- Hset]. split; [reflexivity|].
  now apply bool_decide_eq_true in Hset.
Qed.

(** C1.  Whatever the registered handlers, a call of [process] whose
    first three stages return with [antiPatternDetected] set returns at
    once: the pipeline is left in the state in which the detection stage
    finished, and the context of that moment is the result.  On a
    pipeline with the default handlers, moreover, the call returns (it
    does not throw) the session's context, to whose history it has
    appended, in this order, the events of intent classification,
    confidence gating, anti-pattern detection (when
    [enableAntiPatternDetection] is true), strategy selection and
    execution; except that, when detection is enabled and
    [antiPatternDetected] is set in the context at the end of the
    detection stage, the last two events are not appended, and
    [selectedStrategy] and [executionResult] are what they were before
    the call. *)
Theorem process_stage_order
    (Date_now : nat -> Z) (p : Pipeline) (input sid : string) (uid : option string) :
  let c0 := session_context p sid uid in
  let e3 := fst (upto_detection Date_now p input sid uid (session_env p sid uid)) in
  let halted :=
    enableAntiPatternDetection (config p)
    && bool_decide (is_Some (antiPatternDetected (context e3))) in
  (snd (upto_detection Date_now p input sid uid (session_env p sid uid)) = Returned true ->
   enableAntiPatternDetection (config p) = true
   /\ is_Some (antiPatternDetected (context e3))
   /\ process Date_now input sid uid p
      = (mkPipeline (config p) (eventBus p) (<[sid := context e3]> (contexts p))
                    (objects e3) (reads e3),
         Returned (context e3)))
  /\ (eventBus p = registerDefaultHandlers Date_now (config p) ->
      exists c' new,
        snd (process Date_now input sid uid p) = Returned c'
        /\ contexts (fst (process Date_now input sid uid p)) !! sid = Some c'
        /\ history c' = history c0 ++ new
        /\ stages new
           = [INTENT_CLASSIFICATION; CONFIDENCE_GATING]
             ++ (if enableAntiPatternDetection (config p)
                 then [ANTI_PATTERN_DETECTION] else [])
             ++ (if halted then [] else [STRATEGY_SELECTION; EXECUTION])
        /\ (halted = true ->
            c' = context e3
            /\ heap (fst (process Date_now input sid uid p)) = objects e3
            /\ selectedStrategy c' = selectedStrategy c0
            /\ executionResult c' = executionResult c0)
        /\ (halted = false ->
            is_Some (selectedStrategy c') /\ is_Some (executionResult c'))).
Proof.
  cbv zeta. split.
  { intros Hupto.
    destruct (upto_detection Date_now p input sid uid (session_env p sid uid))
      as [e3 r] eqn:Heq.
    cbn in Hupto. subst r. cbn [fst].
    destruct (upto_detection_true _ _ _ _ _ _ _ Heq) as [Hen Hset].
    split; [exact Hen|]. split; [exact Hset|].
    rewrite process_unfold. unfold in_session. fold (session_env p sid uid).
    now rewrite (process_stages_halts _ _ _ _ _ _ _ Heq). }
  intros Hbus.
  rewrite (process_default Date_now p input sid uid Hbus). cbn [fst snd contexts heap].
  rewrite lookup_insert_eq.
  rewrite (upto_detection_default Date_now p input sid uid _ Hbus).
  unfold default_turn.
  destruct (enableAntiPatternDetection (config p)) eqn:Hen; cbn [andb].
  - destruct (bool_decide _) eqn:Hstop.
    + eexists _, _. split; [reflexivity|]. split; [reflexivity|].
      split; [|split; [|split]].
      * cbn. rewrite detected_history. cbn. rewrite <- !app_assoc. reflexivity.
      * reflexivity.
      * intros _. repeat split.
        -- cbn. now rewrite detected_selectedStrategy.
        -- cbn. now rewrite detected_executionResult.
      * discriminate.
    + eexists _, _. split; [reflexivity|]. split; [reflexivity|].
      split; [|split; [|split]].
      * cbn. rewrite detected_history. cbn. rewrite <- !app_assoc. reflexivity.
      * reflexivity.
      * discriminate.
      * intros _. cbn. split; eexists; reflexivity.
  - eexists _, _. split; [reflexivity|]. split; [reflexivity|].
    split; [|split; [|split]].
    + cbn. rewrite <- !app_assoc. reflexivity.
    + reflexivity.
    + discriminate.
    + intros _. cbn. split; eexists; reflexivity.
Qed.

(** No operation changes the configuration or the registered handlers. *)
Lemma run_operation_keeps_handlers Date_now op p :
  eventBus (run_operation Date_now op p) = eventBus p
  /\ config (run_operation Date_now op p) = config p.
Proof.
  destruct op as [input s u | s feedback | s]; cbn [run_operation].
  - rewrite process_unfold. unfold in_session.
    now destruct (process_stages _ _ _ _ _ _).
  - unfold submitFeedback. destruct (contexts p !! s); [|easy].
    unfold in_session. now destruct (bind _ _ _).
  - easy.
Qed.

(** A first turn on a new pipeline: nothing is detected and the five
    stages run. *)
Lemma process_stage_order_witness :
  exists c' new,
    snd (process (fun _ => 0%Z) "How does X work?" "session" None
                 (new_Pipeline (fun _ => 0%Z) no_overrides)) = Returned c'
    /\ history c' = new
    /\ stages new = [INTENT_CLASSIFICATION; CONFIDENCE_GATING; ANTI_PATTERN_DETECTION;
                     STRATEGY_SELECTION; EXECUTION].
Proof.
  destruct (proj2 (process_stage_order (fun _ => 0%Z)
                     (new_Pipeline (fun _ => 0%Z) no_overrides)
                     "How does X work?" "session" None) eq_refl)
    as (c' & new & Hret & _ & Hhist & Hstages & _).
  exists c', new. split; [exact Hret|]. split; [exact Hhist|]. exact Hstages.
Defined.

(* ===================================================================== *)
(** * Properties: a finding stays                                         *)
(* ===================================================================== *)

Section Sticky.

Variable Date_now : nat -> Z.

(** One call of [process] on a session whose finding is set. *)
Lemma process_after_finding p input sid uid c :
  eventBus p = registerDefaultHandlers Date_now (config p) ->
  enableAntiPatternDetection (config p) = true ->
  contexts p !! sid = Some c ->
  is_Some (antiPatternDetected c) ->
  exists c' evIC evCG evAPD,
    process Date_now input sid uid p
    = (mkPipeline (config p) (eventBus p) (<[sid := c']> (contexts p))
                  (heap p ++ [gated (config p)
                                (classifyIntent_at (Date_now (S (clock p))) input)])
                  (S (S (S (S (clock p))))),
       Returned c')
    /\ history c' = history c ++ [evIC; evCG; evAPD]
    /\ stages [evIC; evCG; evAPD]
       = [INTENT_CLASSIFICATION; CONFIDENCE_GATING; ANTI_PATTERN_DETECTION]
    /\ is_Some (antiPatternDetected c')
    /\ selectedStrategy c' = selectedStrategy c
    /\ executionResult c' = executionResult c.
Proof.
  intros Hbus Hen Hctx Hset.
  rewrite (process_default Date_now p input sid uid Hbus).
  unfold default_turn. rewrite Hen.
  unfold session_env, session_context. rewrite Hctx. cbn [default].
  set (e3 := detect_turn _ _ _ _ _).
  assert (is_Some (antiPatternDetected (context e3))) as Hset3.
  { subst e3. cbn. rewrite detected_antiPattern.
    destruct (detectAntiPatterns _ _); [eauto | exact Hset]. }
  rewrite (bool_decide_eq_true_2 _ Hset3).
  eexists (context e3), _, _, _. split; [reflexivity|].
  split; [|split; [|split; [|split]]].
  - subst e3. cbn. rewrite detected_history. cbn. rewrite <- !app_assoc. reflexivity.
  - reflexivity.
  - exact Hset3.
  - subst e3. cbn. now rewrite detected_selectedStrategy.
  - subst e3. cbn. now rewrite detected_executionResult.
Qed.

Lemma submitFeedback_default p sid feedback c :
  eventBus p = registerDefaultHandlers Date_now (config p) ->
  contexts p !! sid = Some c ->
  submitFeedback Date_now sid feedback p
  = (mkPipeline (config p) (eventBus p)
       (<[sid := push_history
                   (event_at FEEDBACK_COLLECTION (DFeedback feedback)
                             (Date_now (clock p)) (sessionId c) (userId c)) c]>
          (contexts p))
       (heap p) (S (clock p)),
     Returned tt).
Proof.
  intros Hbus Hctx. unfold submitFeedback. rewrite Hctx. unfold in_session.
  unfold bind at 1. cbn [now context objects reads].
  now rewrite (emit_feedback Date_now p Hbus).
Qed.

(** What one operation that does not discard the session [sid] does to a
    pipeline with the default handlers and to that session, once its
    finding is set. *)
Lemma run_operation_after_finding op p sid c :
  eventBus p = registerDefaultHandlers Date_now (config p) ->
  enableAntiPatternDetection (config p) = true ->
  contexts p !! sid = Some c ->
  is_Some (antiPatternDetected c) ->
  touches_cleared sid op = false ->
  let p' := run_operation Date_now op p in
  eventBus p' = registerDefaultHandlers Date_now (config p')
  /\ enableAntiPatternDetection (config p') = true
  /\ exists c' new,
       contexts p' !! sid = Some c'
       /\ history c' = history c ++ new
       /\ Forall (fun event => ~ runs_task event) new
       /\ is_Some (antiPatternDetected c')
       /\ selectedStrategy c' = selectedStrategy c
       /\ executionResult c' = executionResult c.
Proof.
  intros Hbus Hen Hctx Hset Hop.
  assert (exists c' new,
             contexts p !! sid = Some c' /\ history c' = history c ++ new
             /\ Forall (fun event => ~ runs_task event) new
             /\ is_Some (antiPatternDetected c')
             /\ selectedStrategy c' = selectedStrategy c
             /\ executionResult c' = executionResult c) as Hsame.
  { exists c, []. rewrite app_nil_r. repeat split; auto. }
  destruct op as [input s u | s feedback | s]; cbn [run_operation].
  - destruct (decide (s = sid)) as [->|Hne].
    + destruct (process_after_finding p input sid u c Hbus Hen Hctx Hset)
        as (c' & evIC & evCG & evAPD & Hp & Hh & Hst & Hset' & Hs & Hr).
      rewrite Hp. cbn [fst config eventBus contexts].
      split; [exact Hbus|]. split; [exact Hen|].
      exists c', [evIC; evCG; evAPD]. rewrite lookup_insert_eq.
      repeat split; auto.
      injection Hst as H1 H2 H3.
      repeat constructor; unfold runs_task; intros [H|H]; congruence.
    + rewrite (process_default Date_now p input s u Hbus).
      cbn [fst config eventBus contexts].
      split; [exact Hbus|]. split; [exact Hen|].
      rewrite lookup_insert_ne by exact Hne. exact Hsame.
  - destruct (contexts p !! s) as [cs|] eqn:Hs.
    + rewrite (submitFeedback_default p s feedback cs Hbus Hs).
      cbn [fst config eventBus contexts].
      split; [exact Hbus|]. split; [exact Hen|].
      destruct (decide (s = sid)) as [->|Hne].
      * rewrite lookup_insert_eq. rewrite Hctx in Hs. injection Hs as <-.
        eexists _, [_]. split; [reflexivity|]. cbn.
        repeat split; auto.
        repeat constructor. unfold runs_task. cbn. intros [H|H]; discriminate.
      * rewrite lookup_insert_ne by exact Hne. exact Hsame.
    + unfold submitFeedback. rewrite Hs. cbn [fst].
      split; [exact Hbus|]. split; [exact Hen|]. exact Hsame.
  - cbn in Hop. apply bool_decide_eq_false in Hop.
    unfold clearContext. cbn [config eventBus contexts].
    split; [exact Hbus|]. split; [exact Hen|].
    rewrite lookup_delete_ne by exact Hop. exact Hsame.
Qed.

End Sticky.

(** C10.  On a pipeline with the default handlers and detection enabled,
    once [antiPatternDetected] is set in the context of a session, every
    call of [process] for that session returns right after the detection
    stage, whatever the detector answers on the longer history: it
    appends the events of classification, gating and detection only, and
    leaves the finding set.  Hence after any sequence of [process],
    [submitFeedback] and [clearContext] calls that does not clear this
    session, the finding is still set, no event of strategy selection or
    execution was added to the history of the session, and
    [selectedStrategy] and [executionResult] are what they were. *)
Theorem finding_halts_later_turns
    (Date_now : nat -> Z) (p : Pipeline) (sid : string) (c : PipelineContext)
    (ops : list Operation) :
  eventBus p = registerDefaultHandlers Date_now (config p) ->
  enableAntiPatternDetection (config p) = true ->
  contexts p !! sid = Some c ->
  is_Some (antiPatternDetected c) ->
  Forall (fun op => touches_cleared sid op = false) ops ->
  (forall input uid, exists c' evIC evCG evAPD,
      snd (process Date_now input sid uid p) = Returned c'
      /\ contexts (fst (process Date_now input sid uid p)) !! sid = Some c'
      /\ history c' = history c ++ [evIC; evCG; evAPD]
      /\ stages [evIC; evCG; evAPD]
         = [INTENT_CLASSIFICATION; CONFIDENCE_GATING; ANTI_PATTERN_DETECTION]
      /\ is_Some (antiPatternDetected c')
      /\ selectedStrategy c' = selectedStrategy c
      /\ executionResult c' = executionResult c)
  /\ exists c' new,
       contexts (run_operations Date_now ops p) !! sid = Some c'
       /\ history c' = history c ++ new
       /\ Forall (fun event => ~ runs_task event) new
       /\ is_Some (antiPatternDetected c')
       /\ selectedStrategy c' = selectedStrategy c
       /\ executionResult c' = executionResult c.
Proof.
  intros Hbus Hen Hctx Hset Hops. split.
  - intros input uid.
    destruct (process_after_finding Date_now p input sid uid c Hbus Hen Hctx Hset)
      as (c' & evIC & evCG & evAPD & Hp & Hrest).
    exists c', evIC, evCG, evAPD. rewrite Hp. cbn [fst snd contexts].
    rewrite lookup_insert_eq. auto.
  - revert p c Hbus Hen Hctx Hset.
    induction Hops as [|op ops Hop Hops IH]; intros p c Hbus Hen Hctx Hset.
    + exists c, []. rewrite app_nil_r. cbn. repeat split; auto.
    + destruct (run_operation_after_finding Date_now op p sid c Hbus Hen Hctx Hset Hop)
        as (Hbus1 & Hen1 & c1 & new1 & Hctx1 & Hh1 & Hn1 & Hset1 & Hs1 & Hr1).
      destruct (IH _ c1 Hbus1 Hen1 Hctx1 Hset1)
        as (c2 & new2 & Hctx2 & Hh2 & Hn2 & Hset2 & Hs2 & Hr2).
      exists c2, (new1 ++ new2). cbn [run_operations fold_left].
      split; [exact Hctx2|]. split; [rewrite Hh2, Hh1; now rewrite app_assoc|].
      split; [now apply Forall_app|].
      split; [exact Hset2|]. split; congruence.
Qed.

(** The session of the clarification-loop test after its fourth turn,
    the one that set the finding, and three more operations on it. *)
Lemma finding_halts_later_turns_witness :
  let p := repeated_turns (fun _ => 0%Z) gooseguard_overrides
                          "what?" "test-session-11" 4 in
  let c := session_context p "test-session-11" None in
  let ops := [ Process "what?" "test-session-11" None;
               SubmitFeedback "test-session-11" (mkFeedback (Some 5%Q) None);
               Process "Create a new service" "test-session-11" None ] in
  exists c' new,
    contexts (run_operations (fun _ => 0%Z) ops p) !! "test-session-11" = Some c'
    /\ history c' = history c ++ new
    /\ Forall (fun event => ~ runs_task event) new
    /\ is_Some (antiPatternDetected c')
    /\ selectedStrategy c' = selectedStrategy c
    /\ executionResult c' = executionResult c.
Proof.
  cbv zeta.
  refine (proj2 (finding_halts_later_turns (fun _ => 0%Z)
                   (repeated_turns (fun _ => 0%Z) gooseguard_overrides
                                   "what?" "test-session-11" 4)
                   "test-session-11"
                   (session_context
                      (repeated_turns (fun _ => 0%Z) gooseguard_overrides
                                      "what?" "test-session-11" 4)
                      "test-session-11" None)
                   _ _ _ _ _ _)).
  - vm_compute. reflexivity.
  - vm_compute. reflexivity.
  - vm_compute. reflexivity.
  - eexists. vm_compute. reflexivity.
  - repeat constructor.
Defined.

(* ===================================================================== *)
(** * Properties: the history                                             *)
(* ===================================================================== *)

Lemma classificationHandler_keeps_history Date_now :
  keeps_history (classificationHandler Date_now).
Proof. intros event e. unfold classificationHandler. now destruct (data event). Qed.

Lemma gatingHandler_keeps_history cfg : keeps_history (gatingHandler cfg).
Proof.
  intros event e. unfold gatingHandler.
  destruct (data_intent (data event)) as [r|]; [|reflexivity].
  unfold bind, deref. destruct (objects e !! r) as [intent|] eqn:Hobj; [|reflexivity].
  destruct (Qltb _ _); [|reflexivity].
  unfold assign_type. now rewrite Hobj.
Qed.

Lemma strategyHandler_keeps_history : keeps_history strategyHandler.
Proof.
  intros event e. unfold strategyHandler.
  destruct (data_intent (data event)) as [r|]; [|reflexivity].
  unfold bind, deref. now destruct (objects e !! r).
Qed.

Lemma executionHandler_keeps_history Date_now : keeps_history (executionHandler Date_now).
Proof.
  intros event e. unfold executionHandler.
  destruct (data_intent (data event)) as [r|]; [|reflexivity].
  destruct (data_strategy (data event)) as [s|]; [|reflexivity].
  unfold bind, deref. now destruct (objects e !! r).
Qed.

Lemma antiPatternHandler_keeps_history cfg : keeps_history (antiPatternHandler cfg).
Proof.
  intros event e. unfold antiPatternHandler, bind, get_context.
  now destruct (detectAntiPatterns cfg (context e)).
Qed.

Lemma feedbackHandler_keeps_history : keeps_history feedbackHandler.
Proof. intros event e. reflexivity. Qed.

Lemma default_handlers_keep_history Date_now cfg s :
  Forall keeps_history (registerDefaultHandlers Date_now cfg s).
Proof.
  destruct s; (apply Forall_cons_2; [|apply Forall_nil_2]).
  - apply classificationHandler_keeps_history.
  - apply gatingHandler_keeps_history.
  - apply strategyHandler_keeps_history.
  - apply executionHandler_keeps_history.
  - apply antiPatternHandler_keeps_history.
  - apply feedbackHandler_keeps_history.
Qed.

(** Registering an observer that keeps the history keeps the property. *)
Lemma on_keeps_history s0 handler p :
  keeps_history handler ->
  (forall s, Forall keeps_history (eventBus p s)) ->
  forall s, Forall keeps_history (eventBus (on s0 handler p) s).
Proof.
  intros Hh Hp s. cbn. destruct (decide (s = s0)); [|apply Hp].
  apply Forall_app. split; [apply Hp | now constructor].
Qed.

Lemma run_handlers_keep_history handlers event e :
  Forall keeps_history handlers ->
  history (context (fst (run_handlers handlers event e))) = history (context e).
Proof.
  intros Hall. revert e. induction Hall as [|h hs Hh Hhs IH]; intros e; [reflexivity|].
  cbn [run_handlers]. unfold bind. specialize (Hh event e).
  destruct (h event e) as [e1 [u|message]]; cbn in Hh |- *.
  - now rewrite IH.
  - exact Hh.
Qed.

(** The handlers after the first ones run in the state the first ones
    left, if these returned. *)
Lemma run_handlers_app before after event e :
  run_handlers (before ++ after) event e
  = (run_handlers before event ;;; run_handlers after event) e.
Proof.
  revert e. induction before as [|h hs IH]; intros e; [reflexivity|].
  cbn [app run_handlers]. unfold bind.
  destruct (h event e) as [e1 [u|message]]; [|reflexivity].
  rewrite IH. reflexivity.
Qed.

Lemma only_appends_ret {A} (a : A) : only_appends (ret a).
Proof. intros e. exists []. now rewrite app_nil_r. Qed.

Lemma only_appends_get_context : only_appends get_context.
Proof. intros e. exists []. now rewrite app_nil_r. Qed.

Lemma only_appends_now Date_now : only_appends (now Date_now).
Proof. intros e. exists []. cbn. now rewrite app_nil_r. Qed.

Lemma only_appends_bind {A B} (m : M A) (k : A -> M B) :
  only_appends m -> (forall a, only_appends (k a)) -> only_appends (bind m k).
Proof.
  intros Hm Hk e. unfold bind. destruct (Hm e) as [new1 H1].
  destruct (m e) as [e1 [a|message]]; cbn in H1.
  - destruct (Hk a e1) as [new2 H2]. exists (new1 ++ new2).
    now rewrite H2, H1, app_assoc.
  - now exists new1.
Qed.

Section History.

Variable Date_now : nat -> Z.
Variable p : Pipeline.
Hypothesis Hkeep : forall s, Forall keeps_history (eventBus p s).

Lemma emit_appends event e :
  history (context (fst (emit p event e))) = history (context e) ++ [event].
Proof.
  unfold emit, bind. cbn [update_context].
  now rewrite run_handlers_keep_history by apply Hkeep.
Qed.

Lemma only_appends_emit event : only_appends (emit p event).
Proof. intros e. exists [event]. apply emit_appends. Qed.

Lemma only_appends_process_stages input sid uid :
  only_appends (process_stages Date_now p input sid uid).
Proof.
  unfold process_stages, upto_detection, classification_and_gating,
    detection_stage, selection_and_execution.
  repeat first
    [ apply only_appends_emit
    | apply only_appends_bind; [|intros ?]
    | apply only_appends_now
    | apply only_appends_get_context
    | apply only_appends_ret
    | match goal with |- only_appends (if ?b then _ else _) => destruct b end ].
Qed.

End History.

(** C6.  On a pipeline whose registered handlers leave the history alone
    (the default handlers do, and the specification asks it of every
    observer), [emit] pushes the event before it calls any handler: each
    handler of the stage is called (if the ones before it returned) in an
    environment whose history is the history before the call followed by
    the event.  And the history only grows at its end: after [emit] it is
    the old one followed by the event; after [process], returned or
    thrown, the old one followed by new events; after [submitFeedback]
    the old one followed by one feedback event. *)
Theorem history_is_append_only (Date_now : nat -> Z) (p : Pipeline) :
  (forall s, Forall keeps_history (eventBus p s)) ->
  (forall event e before handler after e1,
      eventBus p (stage event) = before ++ handler :: after ->
      run_handlers before event (pushed event e) = (e1, Returned tt) ->
      emit p event e = (handler event ;;; run_handlers after event) e1
      /\ history (context e1) = history (context e) ++ [event])
  /\ (forall event e,
        history (context (fst (emit p event e))) = history (context e) ++ [event])
  /\ (forall input sid uid, exists c' new,
        contexts (fst (process Date_now input sid uid p)) !! sid = Some c'
        /\ history c' = history (session_context p sid uid) ++ new)
  /\ (forall sid feedback c,
        contexts p !! sid = Some c ->
        exists c' event,
          contexts (fst (submitFeedback Date_now sid feedback p)) !! sid = Some c'
          /\ history c' = history c ++ [event]
          /\ stage event = FEEDBACK_COLLECTION).
Proof.
  intros Hkeep. split; [|split; [|split]].
  - intros event e before handler after e1 Hbus Hrun. split.
    + unfold emit. rewrite Hbus. unfold bind at 1. cbn [update_context].
      fold (pushed event e). rewrite run_handlers_app. unfold bind at 1.
      rewrite Hrun. reflexivity.
    + assert (Forall keeps_history before) as Hbefore.
      { specialize (Hkeep (stage event)). rewrite Hbus in Hkeep.
        now apply Forall_app in Hkeep. }
      pose proof (run_handlers_keep_history before event (pushed event e) Hbefore) as H.
      rewrite Hrun in H. exact H.
  - apply emit_appends, Hkeep.
  - intros input sid uid. rewrite process_unfold. unfold in_session.
    destruct (only_appends_process_stages Date_now p Hkeep input sid uid
                (mkEnv (session_context p sid uid) (heap p) (clock p)))
      as [new Hnew].
    destruct (process_stages _ _ _ _ _ _) as [e' r]. cbn in Hnew |- *.
    exists (context e'), new. now rewrite lookup_insert_eq.
  - intros sid feedback c Hctx. unfold submitFeedback. rewrite Hctx.
    unfold in_session, bind at 1. cbn [now context objects reads].
    set (event := event_at _ _ _ _ _). set (e := mkEnv _ _ _).
    pose proof (emit_appends p Hkeep event e) as H.
    destruct (emit p event e) as [e' r]. cbn in H |- *.
    exists (context e'), event. now rewrite lookup_insert_eq.
Qed.

(** A new pipeline with one more observer on the classification stage. *)
Lemma history_is_append_only_witness :
  exists c' new,
    contexts (fst (process (fun _ => 0%Z) "Test query" "custom-handler-test" None
                     (on INTENT_CLASSIFICATION passive_observer
                         (new_Pipeline (fun _ => 0%Z) no_overrides))))
      !! "custom-handler-test" = Some c'
    /\ history c'
       = history (session_context
                    (on INTENT_CLASSIFICATION passive_observer
                        (new_Pipeline (fun _ => 0%Z) no_overrides))
                    "custom-handler-test" None) ++ new.
Proof.
  exact (proj1 (proj2 (proj2
           (history_is_append_only (fun _ => 0%Z)
              (on INTENT_CLASSIFICATION passive_observer
                  (new_Pipeline (fun _ => 0%Z) no_overrides))
              (on_keeps_history INTENT_CLASSIFICATION passive_observer
                 (new_Pipeline (fun _ => 0%Z) no_overrides)
                 (fun event e => eq_refl)
                 (default_handlers_keep_history (fun _ => 0%Z) _)))))
           "Test query" "custom-handler-test" None).
Defined.

(* ===================================================================== *)
(** * Properties: the anti-pattern detector                               *)
(* ===================================================================== *)

Lemma slice_last_length {A} (n : nat) (l : list A) :
  length (slice_last n l) = Nat.min n (length l).
Proof. unfold slice_last. rewrite length_drop. lia. Qed.

(** What the counting loop counts: the classification events whose input
    is not empty and has fewer than 10 code units. *)
Lemma counts_as_clarification_spec (event : PipelineEvent) :
  counts_as_clarification event = true
  <-> stage event = INTENT_CLASSIFICATION
      /\ exists input, data event = DInput input
                       /\ input <> "" /\ (String.length input < 10)%nat.
Proof.
  unfold counts_as_clarification. split.
  - destruct (stage event); try discriminate.
    destruct (data event) as [input| | | |]; try discriminate.
    intros H. apply andb_true_iff in H as [Ht Hl]. split; [reflexivity|].
    exists input. split; [reflexivity|]. split.
    + now destruct input.
    + now apply Nat.ltb_lt.
  - intros [-> (input & -> & Hne & Hl)]. apply andb_true_iff. split.
    + now destruct input.
    + now apply Nat.ltb_lt.
Qed.

(** C9, as stated, fails on a history of one event: the first check does
    not fire, the last five events (there is one) span one stage, and the
    detector reports nothing. *)
Lemma stuck_loop_needs_five_events :
  let c := push_history (event_at ANTI_PATTERN_DETECTION DHistory 0 "s" None)
                        (fresh_context "s" None) in
  Qltb (maxClarificationAttempts DEFAULT_CONFIG)
       (of_nat (clarificationCount (history c))) = false
  /\ (distinct_count (stages (slice_last 5 (history c))) < 2)%nat
  /\ detectAntiPatterns DEFAULT_CONFIG c = None.
Proof.
  cbv zeta. split; [reflexivity|]. split; [|reflexivity].
  vm_compute. lia.
Qed.

(** C9, amended.  The detector checks infinite clarification first: when
    the count exceeds [maxClarificationAttempts] it reports that, with
    severity 0.9, and looks no further.  When it does not, the detector
    reports a stuck loop, with severity 0.85, if the history has at
    least 5 events and the last 5 span fewer than 2 distinct stages, and
    it reports nothing otherwise.  Its answer is one finding at most. *)
Theorem detector_checks_in_order (cfg : PipelineConfig) (c : PipelineContext) :
  let count := clarificationCount (history c) in
  let recent := slice_last 5 (history c) in
  ((maxClarificationAttempts cfg < of_nat count)%Q ->
   detectAntiPatterns cfg c
   = Some (mkAntiPattern INFINITE_CLARIFICATION 0.9
             [nat_to_string count +:+ " clarification attempts detected"]
             "Switch to guided mode with examples"))
  /\ ((of_nat count <= maxClarificationAttempts cfg)%Q ->
      ((5 <= length (history c))%nat ->
       (distinct_count (stages recent) < 2)%nat ->
       detectAntiPatterns cfg c
       = Some (mkAntiPattern STUCK_LOOP 0.85
                 ["Repetitive pattern detected in recent events"]
                 "Reset context and try alternative approach"))
      /\ ((length (history c) < 5)%nat
          \/ (2 <= distinct_count (stages recent))%nat ->
          detectAntiPatterns cfg c = None)).
Proof.
  cbv zeta. unfold detectAntiPatterns, stages. split.
  - intros Hgt. apply Qltb_lt in Hgt. now rewrite Hgt.
  - intros Hle. apply Qltb_ge in Hle. rewrite Hle. split.
    + intros Hlen Hdistinct.
      apply Nat.ltb_lt in Hdistinct. rewrite Hdistinct.
      assert ((5 <=? length (slice_last 5 (history c)))%nat = true) as ->.
      { apply Nat.leb_le. rewrite slice_last_length. lia. }
      reflexivity.
    + intros [Hshort | Hmany].
      * assert ((5 <=? length (slice_last 5 (history c)))%nat = false) as ->.
        { apply Nat.leb_gt. rewrite slice_last_length. lia. }
        now rewrite andb_false_r.
      * apply Nat.ltb_ge in Hmany. now rewrite Hmany.
Qed.

(** Where no classification event carries the empty input, the count of
    the source is the count of the specification. *)
Lemma clarificationCount_without_empty_input (events : list PipelineEvent) :
  Forall (fun event => data event <> DInput "") events ->
  clarificationCount events = spec_clarificationCount events.
Proof.
  unfold clarificationCount, spec_clarificationCount.
  induction 1 as [|event events Hne Hall IH]; [reflexivity|].
  assert (counts_as_clarification event = spec_counts_as_clarification event) as Heq.
  { unfold counts_as_clarification, spec_counts_as_clarification.
    destruct (stage event); try reflexivity.
    destruct (data event) as [input| | | |]; try reflexivity.
    destruct input; [congruence | reflexivity]. }
  rewrite !filter_cons, Heq.
  destruct (decide _); cbn; now rewrite IH.
Qed.

(** The scenario of C2: with [maxClarificationAttempts = 3] and detection
    enabled, "what?" passes three times and the fourth and the fifth call
    leave an infinite-clarification finding of severity 0.9. *)
Lemma what_scenario (Date_now : nat -> Z) :
  let after n :=
    contexts (repeated_turns Date_now gooseguard_overrides "what?" "test-session-11" n)
      !! "test-session-11" in
  (exists c, after 3%nat = Some c /\ antiPatternDetected c = None)
  /\ (exists c,
        after 4%nat = Some c
        /\ antiPatternDetected c
           = Some (mkAntiPattern INFINITE_CLARIFICATION 0.9
                     ["4 clarification attempts detected"]
                     "Switch to guided mode with examples"))
  /\ (exists c,
        after 5%nat = Some c
        /\ antiPatternDetected c
           = Some (mkAntiPattern INFINITE_CLARIFICATION 0.9
                     ["5 clarification attempts detected"]
                     "Switch to guided mode with examples")).
Proof.
  cbv zeta. repeat split; eexists; (split; [vm_compute; reflexivity | reflexivity]).
Qed.

(** C2, the source at the failing input.  Five calls of [process] with the
    empty input, [maxClarificationAttempts = 3] and detection enabled:
    the history holds five classification events whose input has length
    0 < 10, the counting loop counts none of them, and no finding is
    ever set. *)
Theorem empty_inputs_are_not_counted (Date_now : nat -> Z) :
  exists c,
    contexts (repeated_turns Date_now gooseguard_overrides "" "test-session-11" 5)
      !! "test-session-11" = Some c
    /\ spec_clarificationCount (history c) = 5%nat
    /\ clarificationCount (history c) = 0%nat
    /\ antiPatternDetected c = None
    /\ length (history c) = 25%nat.
Proof.
  eexists. split; [vm_compute; reflexivity|]. repeat split.
Qed.

(** C4.  The strategy chosen by the default [selectStrategy] is
    determined by the type of the intent and its overall confidence:
    [VIBE_CHECK] gives autonomous, [CLARITY_CALL] guided, [RAPPORT_BUILD]
    autonomous, [MOVE_MAKE] autonomous when [overall > 0.9] and
    confirm-first otherwise; two intents of the same type and the same
    overall confidence get the same strategy in any two contexts.  And
    a first call of [process] with "Create a new service" on a pipeline
    of the default configuration (threshold 0.7) classifies the input as
    [MOVE_MAKE] with sub-scores 0.85, 0.9, 0.75, 0.8 and overall 0.825,
    and selects confirm-first. *)
Theorem default_strategy_selection
    (Date_now : nat -> Z) (sid : string) (uid : option string) :
  (forall intent c,
      match intent_type intent with
      | VIBE_CHECK => strategy_type (selectStrategy intent c) = AUTONOMOUS
      | CLARITY_CALL => strategy_type (selectStrategy intent c) = GUIDED
      | RAPPORT_BUILD => strategy_type (selectStrategy intent c) = AUTONOMOUS
      | MOVE_MAKE =>
          ((0.9 < overall (confidence intent))%Q ->
           strategy_type (selectStrategy intent c) = AUTONOMOUS)
          /\ ((overall (confidence intent) <= 0.9)%Q ->
              strategy_type (selectStrategy intent c) = CONFIRMATION)
      end)
  /\ (forall i1 i2 c1 c2,
        intent_type i1 = intent_type i2 ->
        (overall (confidence i1) == overall (confidence i2))%Q ->
        selectStrategy i1 c1 = selectStrategy i2 c2)
  /\ (exists p' c r intent strategy,
        process Date_now "Create a new service" sid uid
                (new_Pipeline Date_now no_overrides) = (p', Returned c)
        /\ confidenceThreshold (config p') = 0.7%Q
        /\ currentIntent c = Some r
        /\ heap p' !! r = Some intent
        /\ intent_type intent = MOVE_MAKE
        /\ patternMatch (confidence intent) = 0.85%Q
        /\ clarity (confidence intent) = 0.9%Q
        /\ templateCoverage (confidence intent) = 0.75%Q
        /\ historicalSuccess (confidence intent) = 0.8%Q
        /\ (overall (confidence intent) == 0.825)%Q
        /\ selectedStrategy c = Some strategy
        /\ strategy_type strategy = CONFIRMATION).
Proof.
  split; [|split].
  - intros intent c. rewrite selectStrategy_type.
    destruct (intent_type intent); try reflexivity. split.
    + intros H. apply Qltb_lt in H. now rewrite H.
    + intros H. apply Qltb_ge in H. now rewrite H.
  - apply selectStrategy_pure.
  - rewrite (process_default Date_now (new_Pipeline Date_now no_overrides)
               "Create a new service" sid uid eq_refl).
    unfold session_env, session_context. cbn [new_Pipeline contexts heap clock config].
    rewrite lookup_empty. cbn [default].
    eexists _, _, 0%nat, _, _. split; [reflexivity|].
    repeat split.
Qed.

(** The overall confidence of the four branches of [classifyIntent] in
    binary64.  The sum of the second branch rounds to the double written
    0.825; none of the four values exceeds 0.9, and only the third is
    below the default threshold 0.7: the comparisons of the pipeline give
    the answers they give on the exact values. *)
#[local] Set Warnings "-inexact-float".
Lemma binary64_confidence :
  let overall pm cl :=
    PrimFloat.div (PrimFloat.add (PrimFloat.add (PrimFloat.add pm cl) 0.75%float)
                                 0.8%float) 4%float in
  PrimFloat.eqb (overall 0.85 0.9)%float 0.825%float = true
  /\ PrimFloat.eqb (overall 0.8 0.85)%float 0.8%float = true
  /\ map (fun v => PrimFloat.ltb 0.9%float v)
         [overall 0.8 0.85; overall 0.85 0.9; overall 0.6 0.5; overall 0.7 0.7]%float
     = [false; false; false; false]
  /\ map (fun v => PrimFloat.ltb v 0.7%float)
         [overall 0.8 0.85; overall 0.85 0.9; overall 0.6 0.5; overall 0.7 0.7]%float
     = [false; false; true; false]
  /\ map (fun v : Q => (Qltb 0.9 v, Qltb v 0.7))
         [ (0.8 + 0.85 + 0.75 + 0.8) / 4; (0.85 + 0.9 + 0.75 + 0.8) / 4;
           (0.6 + 0.5 + 0.75 + 0.8) / 4; (0.7 + 0.7 + 0.75 + 0.8) / 4 ]%Q
     = [(false, false); (false, false); (false, true); (false, false)].
Proof. cbv zeta. repeat split. Qed.

(* ===================================================================== *)
(** * Properties: the preference model                                    *)
(* ===================================================================== *)

Section PreferenceModelProperties.

Import PreferenceModel.

Lemma Map_get_set_other {V} (strategy other : StrategyType) (v : V)
    (m : list (StrategyType * V)) :
  other <> strategy ->
  Map_get same_strategy other (Map_set same_strategy strategy v m)
  = Map_get same_strategy other m.
Proof.
  intros Hne.
  assert (same_strategy strategy other = false) as Hfalse.
  { apply bool_decide_eq_false_2. intros E. now apply Hne. }
  induction m as [|[k v'] m IH]; cbn.
  - now rewrite Hfalse.
  - destruct (same_strategy k strategy) eqn:Hk; cbn.
    + apply bool_decide_eq_true in Hk. subst k. now rewrite Hfalse.
    + destruct (same_strategy k other); [reflexivity | exact IH].
Qed.

Lemma Map_get_set_same {V} (strategy : StrategyType) (v : V)
    (m : list (StrategyType * V)) :
  Map_get same_strategy strategy (Map_set same_strategy strategy v m) = Some v.
Proof.
  induction m as [|[k v'] m IH]; cbn.
  - unfold same_strategy. now rewrite bool_decide_eq_true_2.
  - destruct (same_strategy k strategy) eqn:Hk; cbn; rewrite Hk; [reflexivity | exact IH].
Qed.

Lemma feedbackToReward_unit (feedback : UserFeedback) :
  (0 <= feedbackToReward feedback <= 1)%Q.
Proof. unfold feedbackToReward. apply clamp_unit. Qed.

(** The sum that [feedbackToReward] clamps can exceed 1: for the feedback
    of the export test it is 1.2. *)
Lemma raw_reward_can_exceed_one :
  (4 / 5 * 0.6 + 0.4 + Math_max 0 (1 - 60 / 300) * 0.2
   + Math_max 0 (1 - 2 / 10) * 0.2 == 1.2)%Q
  /\ (feedbackToReward example_feedback == 1)%Q.
Proof. split; reflexivity. Qed.

(** C5.  A call [updateFromFeedback(features, strategy, feedback)] adds
    exactly one entry at the end of [rewardHistory], so its length grows
    by 1; the entry holds the features, the strategy and the reward
    [feedbackToReward(feedback)], which lies in [0, 1]; the weight vector
    of every other strategy is the very same list as before; the chosen
    strategy has a weight vector afterwards; and the exploration rate and
    the iteration counter are not touched. *)
Theorem updateFromFeedback_frame
    (c : ContextFeatures) (strategy : StrategyType) (feedback : UserFeedback)
    (st : PreferenceState) :
  let st' := updateFromFeedback c strategy feedback st in
  length (rewardHistory st') = S (length (rewardHistory st))
  /\ (exists h,
        rewardHistory st' = rewardHistory st ++ [h]
        /\ entry_context h = c /\ entry_strategy h = strategy
        /\ reward h = feedbackToReward feedback
        /\ (0 <= reward h <= 1)%Q)
  /\ (forall other,
        other <> strategy ->
        Map_get same_strategy other (strategyWeights st')
        = Map_get same_strategy other (strategyWeights st))
  /\ is_Some (Map_get same_strategy strategy (strategyWeights st'))
  /\ explorationRate st' = explorationRate st
  /\ totalIterations st' = totalIterations st.
Proof.
  cbv zeta. unfold updateFromFeedback. cbn [rewardHistory strategyWeights
    explorationRate totalIterations].
  split; [rewrite length_app; cbn; lia|].
  split.
  { eexists. split; [reflexivity|]. cbn. repeat split; apply feedbackToReward_unit. }
  split; [intros other Hne; now apply Map_get_set_other|].
  split; [rewrite Map_get_set_same; eauto|].
  split; reflexivity.
Qed.

(** ** Export and import *)

Lemma StrategyType_value_inj (a b : StrategyType) :
  String.eqb (StrategyType_value a) (StrategyType_value b) = bool_decide (a = b).
Proof. destruct a, b; reflexivity. Qed.

(** [set] on a key that is not in the map adds it at the end. *)
Lemma Map_set_fresh {K V} (same : K -> K -> bool) (k : K) (v : V) (m : list (K * V)) :
  Forall (fun kv => same (fst kv) k = false) m ->
  Map_set same k v m = m ++ [(k, v)].
Proof.
  induction 1 as [|[k' v'] m Hk Hm IH]; [reflexivity|].
  cbn in Hk |- *. now rewrite Hk, IH.
Qed.

(** [set] on a key of the map keeps the keys and their order. *)
Lemma Map_set_keys {V} (strategy : StrategyType) (v : V) (m : list (StrategyType * V)) :
  strategy ∈ map fst m ->
  map fst (Map_set same_strategy strategy v m) = map fst m.
Proof.
  induction m as [|[k v'] m IH]; cbn; intros Hin.
  - now apply elem_of_nil in Hin.
  - destruct (same_strategy k strategy) eqn:Hk; [reflexivity|]. cbn. f_equal.
    apply IH. apply elem_of_cons in Hin as [->|Hin]; [|exact Hin].
    apply bool_decide_eq_false in Hk. congruence.
Qed.

Lemma Map_of_entries_total (ws : list (StrategyType * list Q)) m :
  exists m', Map_of_entries (map exported_entry ws) m = Returned m'.
Proof.
  revert m. induction ws as [|[s w] ws IH]; intros m; cbn; [eauto | apply IH].
Qed.

Lemma Map_of_entries_distinct (ws0 ws : list (StrategyType * list Q)) :
  NoDup (map fst (ws0 ++ ws)) ->
  Map_of_entries (map exported_entry ws) (map stored_entry ws0)
  = Returned (map stored_entry (ws0 ++ ws)).
Proof.
  revert ws0. induction ws as [|[s w] ws IH]; intros ws0 Hnd.
  - now rewrite app_nil_r.
  - cbn [map exported_entry Map_of_entries entry_component].
    change ([JString (StrategyType_value s); weights_json w] !! 0%nat)
      with (Some (JString (StrategyType_value s))).
    change ([JString (StrategyType_value s); weights_json w] !! 1%nat)
      with (Some (weights_json w)).
    rewrite Map_set_fresh.
    + change [(Some (JString (StrategyType_value s)), Some (weights_json w))]
        with (map stored_entry [(s, w)]).
      rewrite <- map_app. rewrite IH; rewrite <- app_assoc; [reflexivity | exact Hnd].
    + apply Forall_forall. intros [k v] Hin.
      apply list_elem_of_fmap in Hin as ([s0 w0] & Heq & Hin).
      cbn in Heq. injection Heq as -> ->.
      cbn. rewrite StrategyType_value_inj. apply bool_decide_eq_false_2. intros ->.
      rewrite map_app in Hnd. apply NoDup_app in Hnd as (_ & Hdisj & _).
      apply (Hdisj s).
      * apply list_elem_of_fmap. now exists (s, w0).
      * cbn. apply elem_of_cons. now left.
Qed.

(** What [importModel] makes of an exported model, whatever the state it
    is imported into. *)
Lemma importModel_exportModel (st : PreferenceState) (r : RawState) :
  exists m,
    Map_of_entries (map exported_entry (strategyWeights st)) [] = Returned m
    /\ importModel (exportModel st) r
       = (mkRaw m
                (Some (JNumber (explorationRate st)))
                (Some (JNumber (of_nat (totalIterations st))))
                (Some (JArray (map entry_json (slice_last 100 (rewardHistory st))))),
          None).
Proof.
  destruct (Map_of_entries_total (strategyWeights st) []) as [m Hm].
  exists m. split; [exact Hm|].
  unfold importModel, importModel_try, exportModel, JSON_stringify.
  unfold bind at 1. cbn [lift JSON_parse].
  unfold bind at 1. cbn [lift get_property Map_get String.eqb Ascii.eqb Bool.eqb].
  unfold bind at 1. cbn [lift new_Map].
  change (map (fun '(strategy, w) =>
                 JArray [JString (StrategyType_value strategy); weights_json w])
              (strategyWeights st))
    with (map exported_entry (strategyWeights st)).
  rewrite Hm. reflexivity.
Qed.

(** ** The states a model goes through *)

Lemma Map_get_is_Some {V} (strategy : StrategyType) (m : list (StrategyType * V)) :
  strategy ∈ map fst m -> is_Some (Map_get same_strategy strategy m).
Proof.
  induction m as [|[k v] m IH]; cbn; intros Hin.
  - now apply elem_of_nil in Hin.
  - destruct (same_strategy k strategy) eqn:Hk; [eauto|].
    apply IH. apply elem_of_cons in Hin as [->|Hin]; [|exact Hin].
    apply bool_decide_eq_false in Hk. congruence.
Qed.

Lemma Map_get_Forall {V} (P : V -> Prop) (strategy : StrategyType) (v : V)
    (m : list (StrategyType * V)) :
  Forall (fun kv => P (snd kv)) m ->
  Map_get same_strategy strategy m = Some v -> P v.
Proof.
  induction 1 as [|[k v'] m Hk Hm IH]; cbn; [discriminate|].
  destruct (same_strategy k strategy); [|exact IH].
  intros [= <-]. exact Hk.
Qed.

Lemma Map_set_Forall {V} (P : V -> Prop) (strategy : StrategyType) (v : V)
    (m : list (StrategyType * V)) :
  Forall (fun kv => P (snd kv)) m -> P v ->
  Forall (fun kv => P (snd kv)) (Map_set same_strategy strategy v m).
Proof.
  intros Hm Hv. induction Hm as [|[k v'] m Hk Hm IH]; cbn.
  - now repeat constructor.
  - destruct (same_strategy k strategy); constructor; auto.
Qed.

Lemma every_strategy_listed (strategy : StrategyType) :
  strategy ∈ StrategyType_values.
Proof. destruct strategy; unfold StrategyType_values; set_solver. Qed.

Lemma StrategyType_values_NoDup : NoDup StrategyType_values.
Proof. apply (bool_decide_unpack _). now vm_compute. Qed.

(** Every state the constructor and the two methods produce maps the five
    strategies, in the order of the enumeration, to weight vectors of
    [featureDimension] entries: [dotProduct] and the update never read
    past the end of a vector. *)
Lemma reachable_weights (st : PreferenceState) :
  reachable st ->
  map fst (strategyWeights st) = StrategyType_values
  /\ Forall (fun sw => length (snd sw) = featureDimension) (strategyWeights st).
Proof.
  induction 1 as [random | c strategy feedback st Hst [IHk IHl]
                 | sqrt log alpha c st Hst IH].
  - split; [reflexivity|]. cbn. repeat constructor.
  - cbn [updateFromFeedback strategyWeights]. split.
    + rewrite Map_set_keys; [exact IHk|]. rewrite IHk. apply every_strategy_listed.
    + apply (Map_set_Forall (fun w => length w = featureDimension)); [exact IHl|].
      rewrite length_imap.
      destruct (Map_get_is_Some strategy (strategyWeights st)) as [w Hw].
      { rewrite IHk. apply every_strategy_listed. }
      rewrite Hw. cbn [default].
      exact (Map_get_Forall (fun w => length w = featureDimension) strategy w _ IHl Hw).
  - exact IH.
Qed.

Lemma slice_last_all {A} (n : nat) (l : list A) :
  (length l <= n)%nat -> slice_last n l = l.
Proof.
  intros H. unfold slice_last. now replace (length l - n)%nat with 0%nat by lia.
Qed.

Lemma trained_reachable (n : nat) : reachable (trained n).
Proof. induction n; cbn; constructor. exact IHn. Qed.

Lemma trained_history_length (n : nat) : length (rewardHistory (trained n)) = n.
Proof.
  induction n as [|n IH]; [reflexivity|].
  change (trained (S n))
    with (updateFromFeedback example_features CONFIRMATION example_feedback (trained n)).
  cbn [updateFromFeedback rewardHistory]. rewrite length_app, IH. cbn. lia.
Qed.

(** C7, as stated, fails on a model trained 101 times: the export is
    imported without error into a new model, whose [rewardHistory] then
    has 100 entries where the original has 101. *)
Lemma export_drops_old_rewards :
  exists restored,
    reachable (trained 101)
    /\ importModel (exportModel (trained 101))
                   (raw_of (new_PreferenceModel example_random))
       = (restored, None)
    /\ raw_history_length (raw_of (trained 101)) = Some 101%nat
    /\ raw_history_length restored = Some 100%nat.
Proof.
  destruct (importModel_exportModel (trained 101)
              (raw_of (new_PreferenceModel example_random))) as (m & _ & Himport).
  eexists. split; [apply trained_reachable|]. split; [exact Himport|].
  unfold raw_history_length, raw_of. cbn [raw_rewardHistory].
  rewrite !length_map, slice_last_length, trained_history_length. split; reflexivity.
Qed.

(** C7, amended.  Exporting a reachable model and importing the result
    into a newly constructed one succeeds and restores the iteration
    counter, the exploration rate and the weights of the original, and
    the last 100 entries of its reward history: the restored
    [rewardHistory.length] is the smaller of 100 and the original's, so
    the two lengths agree, and the whole state is restored, when the
    original has at most 100 entries. *)
Theorem export_import_round_trip (st : PreferenceState) (random : nat -> Q) :
  reachable st ->
  let original := raw_of st in
  exists restored,
    importModel (exportModel st) (raw_of (new_PreferenceModel random)) = (restored, None)
    /\ raw_totalIterations restored = raw_totalIterations original
    /\ raw_explorationRate restored = raw_explorationRate original
    /\ raw_strategyWeights restored = raw_strategyWeights original
    /\ raw_rewardHistory restored
       = Some (JArray (map entry_json (slice_last 100 (rewardHistory st))))
    /\ raw_history_length original = Some (length (rewardHistory st))
    /\ raw_history_length restored = Some (Nat.min 100 (length (rewardHistory st)))
    /\ ((length (rewardHistory st) <= 100)%nat -> restored = original).
Proof.
  intros Hst original.
  destruct (importModel_exportModel st (raw_of (new_PreferenceModel random)))
    as (m & Hm & Himport).
  destruct (reachable_weights st Hst) as [Hkeys _].
  assert (m = raw_strategyWeights original) as ->.
  { pose proof (Map_of_entries_distinct [] (strategyWeights st)) as Hd.
    cbn [app map] in Hd. rewrite Hd in Hm.
    - injection Hm as <-. subst original. unfold raw_of. cbn [raw_strategyWeights].
      apply map_ext. now intros [s w].
    - rewrite Hkeys. apply StrategyType_values_NoDup. }
  eexists. split; [exact Himport|]. subst original. unfold raw_history_length, raw_of.
  cbn [raw_totalIterations raw_explorationRate raw_strategyWeights raw_rewardHistory].
  repeat split.
  - now rewrite length_map.
  - now rewrite length_map, slice_last_length.
  - intros Hshort. now rewrite slice_last_all.
Qed.

(** The model of the test "PreferenceModel - Export and Import". *)
Lemma export_import_round_trip_witness :
  exists restored,
    importModel (exportModel (trained 1)) (raw_of (new_PreferenceModel example_random))
    = (restored, None)
    /\ raw_totalIterations restored = raw_totalIterations (raw_of (trained 1))
    /\ raw_history_length restored = raw_history_length (raw_of (trained 1)).
Proof.
  destruct (export_import_round_trip (trained 1) example_random (trained_reachable 1))
    as (restored & Himport & Hiter & _ & _ & _ & Hlen0 & Hlen1 & _).
  exists restored. split; [exact Himport|]. split; [exact Hiter|].
  rewrite Hlen0, Hlen1. reflexivity.
Defined.

(** ** Import of an arbitrary string *)

(** A value on which one property read returns lets every property read
    return: only [null] throws. *)
Lemma get_property_total (data : json) (name1 name2 : string) (v : option json) :
  get_property data name1 = Returned v ->
  exists v', get_property data name2 = Returned v'.
Proof. destruct data; cbn; intros H; try discriminate; eauto. Qed.

(** What [importModel] does, case by case.  It logs an error and leaves
    the state exactly as it was when [JSON.parse] throws, when reading
    [weights] throws (the parsed value is [null]) and when [new Map]
    throws: all three come before the first assignment.  In every other
    case it logs nothing and writes all four fields of the state from the
    parsed value, a field the value does not hold being written as
    [undefined].  It never writes some fields and stops. *)
Lemma importModel_outcome (s : serialized) (r : RawState) :
  (forall message,
      JSON_parse s = Thrown message -> importModel s r = (r, Some message))
  /\ (forall data message,
        JSON_parse s = Returned data ->
        get_property data "weights" = Thrown message ->
        importModel s r = (r, Some message))
  /\ (forall data weights message,
        JSON_parse s = Returned data ->
        get_property data "weights" = Returned weights ->
        new_Map weights = Thrown message ->
        importModel s r = (r, Some message))
  /\ (forall data weights m,
        JSON_parse s = Returned data ->
        get_property data "weights" = Returned weights ->
        new_Map weights = Returned m ->
        exists rate iterations history,
          get_property data "explorationRate" = Returned rate
          /\ get_property data "totalIterations" = Returned iterations
          /\ get_property data "rewardHistory" = Returned history
          /\ importModel s r = (mkRaw m rate iterations history, None)).
Proof.
  unfold importModel, importModel_try. split; [|split; [|split]].
  - intros message Hparse. unfold bind at 1, lift. now rewrite Hparse.
  - intros data message Hparse Hw. unfold bind at 1, lift at 1. rewrite Hparse.
    unfold bind at 1, lift at 1. now rewrite Hw.
  - intros data weights message Hparse Hw Hm. unfold bind at 1, lift at 1. rewrite Hparse.
    unfold bind at 1, lift at 1. rewrite Hw.
    unfold bind at 1, lift at 1. now rewrite Hm.
  - intros data weights m Hparse Hw Hm.
    destruct (get_property_total data "weights" "explorationRate" _ Hw) as [rate Hr].
    destruct (get_property_total data "weights" "totalIterations" _ Hw) as [iterations Hi].
    destruct (get_property_total data "weights" "rewardHistory" _ Hw) as [history Hh].
    exists rate, iterations, history.
    repeat (split; [assumption|]).
    unfold bind, lift. rewrite ?Hparse, ?Hw, ?Hm. cbn [set_strategyWeights]. rewrite Hr.
    cbn [set_explorationRate raw_strategyWeights raw_explorationRate
         raw_totalIterations raw_rewardHistory].
    rewrite Hi. cbn [set_totalIterations raw_strategyWeights raw_explorationRate
         raw_totalIterations raw_rewardHistory].
    rewrite Hh. reflexivity.
Qed.

(** C8.  [importModel] does not look at the shape of what it parsed.
    Given the string [{}], or [5], or [[]], each a JSON text that is no
    exported model, it logs no error and overwrites the whole state,
    whatever it was: the weight map becomes empty and [explorationRate],
    [totalIterations] and [rewardHistory] become [undefined].  The state
    it leaves is the layout of no [PreferenceState]; it has no
    [rewardHistory.length]. *)
Theorem importModel_installs_wrong_shape (r : RawState) :
  let wiped := mkRaw [] None None None in
  importModel (Text (JObject [])) r = (wiped, None)
  /\ importModel (Text (JNumber 5)) r = (wiped, None)
  /\ importModel (Text (JArray [])) r = (wiped, None)
  /\ (forall st, raw_of st <> wiped)
  /\ raw_history_length wiped = None.
Proof.
  cbv zeta. repeat split. intros st H. discriminate H.
Qed.

End PreferenceModelProperties.

(* ===================================================================== *)
(** * Further properties: sessions                                        *)
(* ===================================================================== *)

(** [process_stages] and [emit] read the configuration and the handlers
    of the pipeline, not its sessions. *)
Lemma process_stages_contexts Date_now cfg bus ctxs1 ctxs2 h1 h2 k1 k2 input sid uid e :
  process_stages Date_now (mkPipeline cfg bus ctxs1 h1 k1) input sid uid e
  = process_stages Date_now (mkPipeline cfg bus ctxs2 h2 k2) input sid uid e.
Proof. reflexivity. Qed.

(** The history a turn of the default handlers leaves: the old one, the
    classification event of the call, and at most four more events, none
    of them a classification event; each carries the session and user
    of the call. *)
Lemma default_turn_history Date_now cfg input sid uid e :
  exists rest,
    history (context (default_turn Date_now cfg input sid uid e))
    = history (context e)
      ++ event_at INTENT_CLASSIFICATION (DInput input) (Date_now (reads e)) sid uid
         :: rest
    /\ Forall (fun ev => stage ev <> INTENT_CLASSIFICATION
                         /\ meta_sessionId (metadata ev) = sid
                         /\ meta_userId (metadata ev) = uid) rest
    /\ (length rest <= 4)%nat.
Proof.
  unfold default_turn.
  destruct (enableAntiPatternDetection cfg);
    [destruct (bool_decide _)|];
    cbn; rewrite ?detected_history; cbn; rewrite <- ?app_assoc; cbn;
    eexists; (split; [reflexivity|]); (split; [|cbn; lia]);
    repeat (apply Forall_cons_2; [cbn; repeat split; discriminate|]);
    apply Forall_nil_2.
Qed.

Lemma default_turn_identity Date_now cfg input sid uid e :
  sessionId (context (default_turn Date_now cfg input sid uid e)) = sessionId (context e)
  /\ userId (context (default_turn Date_now cfg input sid uid e)) = userId (context e).
Proof.
  unfold default_turn.
  destruct (enableAntiPatternDetection cfg);
    [destruct (bool_decide _)|];
    cbn; unfold detected; try destruct (detectAntiPatterns _ _); cbn; auto.
Qed.

(** X1.  [submitFeedback] for a session that has no context throws
    "Session <id> not found" and changes nothing, whatever the handlers.
    For a session that has one, on a pipeline with the default handlers,
    it returns, and its only effects are one feedback event, carrying the
    feedback and the session and user of the context, at the end of that
    session's history, and one reading of the clock: the other fields of
    the context, the other sessions, the intents, the configuration and
    the handlers are as before. *)
Theorem submitFeedback_outcome
    (Date_now : nat -> Z) (p : Pipeline) (sid : string) (feedback : UserFeedback) :
  (contexts p !! sid = None ->
   submitFeedback Date_now sid feedback p
   = (p, Thrown ("Session " +:+ sid +:+ " not found")))
  /\ (forall c,
        contexts p !! sid = Some c ->
        eventBus p = registerDefaultHandlers Date_now (config p) ->
        exists p',
          submitFeedback Date_now sid feedback p = (p', Returned tt)
          /\ contexts p' !! sid
             = Some (push_history
                       (event_at FEEDBACK_COLLECTION (DFeedback feedback)
                                 (Date_now (clock p)) (sessionId c) (userId c)) c)
          /\ (forall other, other <> sid -> contexts p' !! other = contexts p !! other)
          /\ heap p' = heap p
          /\ clock p' = S (clock p)
          /\ config p' = config p
          /\ eventBus p' = eventBus p).
Proof.
  split.
  - intros Hnone. unfold submitFeedback. now rewrite Hnone.
  - intros c Hctx Hbus. rewrite (submitFeedback_default Date_now p sid feedback c Hbus Hctx).
    eexists. split; [reflexivity|]. cbn [contexts heap clock config eventBus].
    rewrite lookup_insert_eq. repeat split.
    intros other Hne. now rewrite lookup_insert_ne.
Qed.

(** X2.  A call of [process] for one session leaves the context of every
    other session as it was, whatever the handlers.  With the default
    handlers it also keeps the identity of its own session: the context
    of an existing session keeps its [sessionId] and its [userId] (the
    [userId] argument of a later call is not stored; it goes into the
    metadata of the events of that call only), and the context created
    for a new session takes both from the call. *)
Theorem process_session_identity
    (Date_now : nat -> Z) (p : Pipeline) (input sid : string) (uid : option string) :
  (forall other,
      other <> sid ->
      contexts (fst (process Date_now input sid uid p)) !! other = contexts p !! other)
  /\ (eventBus p = registerDefaultHandlers Date_now (config p) ->
      exists c' new,
        contexts (fst (process Date_now input sid uid p)) !! sid = Some c'
        /\ history c' = history (session_context p sid uid) ++ new
        /\ Forall (fun ev => meta_sessionId (metadata ev) = sid
                             /\ meta_userId (metadata ev) = uid) new
        /\ match contexts p !! sid with
           | Some c => sessionId c' = sessionId c /\ userId c' = userId c
           | None => sessionId c' = sid /\ userId c' = uid
           end).
Proof.
  split.
  - intros other Hne. rewrite process_unfold. unfold in_session.
    destruct (process_stages _ _ _ _ _ _) as [e r]. cbn.
    now rewrite lookup_insert_ne.
  - intros Hbus. rewrite (process_default Date_now p input sid uid Hbus).
    cbn [fst contexts]. rewrite lookup_insert_eq.
    destruct (default_turn_history Date_now (config p) input sid uid (session_env p sid uid))
      as (rest & Hhist & Hrest & _).
    destruct (default_turn_identity Date_now (config p) input sid uid
                (session_env p sid uid)) as [Hsid Huid].
    eexists _, _. split; [reflexivity|]. split; [exact Hhist|]. split.
    + apply Forall_cons_2; [now cbn|].
      eapply Forall_impl; [exact Hrest|]. now intros ev (_ & H1 & H2).
    + rewrite Hsid, Huid. unfold session_env, session_context. cbn.
      now destruct (contexts p !! sid).
Qed.

(** X3.  After [clearContext(sid)], [getContext(sid)] is [undefined] and
    [submitFeedback] for [sid] throws, while every other session is as
    before; and a later [process] for [sid] returns exactly what it
    returns on a pipeline with the same configuration, handlers, intents
    and clock and no session at all: nothing of the cleared context,
    its history and finding included, comes back. *)
Theorem clearContext_forgets
    (Date_now : nat -> Z) (p : Pipeline) (sid : string) :
  getContext sid (clearContext sid p) = None
  /\ (forall other,
        other <> sid -> getContext other (clearContext sid p) = getContext other p)
  /\ (forall feedback,
        snd (submitFeedback Date_now sid feedback (clearContext sid p))
        = Thrown ("Session " +:+ sid +:+ " not found"))
  /\ (forall input uid,
        snd (process Date_now input sid uid (clearContext sid p))
        = snd (process Date_now input sid uid
                       (mkPipeline (config p) (eventBus p) ∅ (heap p) (clock p)))).
Proof.
  unfold getContext, clearContext. cbn [contexts]. split; [apply lookup_delete_eq|].
  split; [intros other Hne; now apply lookup_delete_ne|]. split.
  - intros feedback. unfold submitFeedback. cbn [contexts]. now rewrite lookup_delete_eq.
  - intros input uid. rewrite !process_unfold. unfold in_session, session_context.
    cbn [contexts heap clock config eventBus]. rewrite lookup_delete_eq, lookup_empty.
    destruct p as [cfg bus ctxs h k]. cbn [config eventBus contexts heap clock].
    rewrite (process_stages_contexts Date_now cfg bus (delete sid ctxs) ∅ h h k k).
    now destruct (process_stages _ _ _ _ _ _).
Qed.

(* ===================================================================== *)
(** * Further properties: the default classifier and what follows it      *)
(* ===================================================================== *)

(** The four intents [classifyIntent] can build. *)
Lemma classifyIntent_cases (now : Z) (input : string) :
  let confidence_of pm cl := mkConfidence pm cl 0.75 0.8 ((pm + cl + 0.75 + 0.8) / 4) in
  classifyIntent_at now input = mkIntent VIBE_CHECK (confidence_of 0.8 0.85)%Q input now
  \/ classifyIntent_at now input = mkIntent MOVE_MAKE (confidence_of 0.85 0.9)%Q input now
  \/ classifyIntent_at now input = mkIntent CLARITY_CALL (confidence_of 0.6 0.5)%Q input now
  \/ classifyIntent_at now input = mkIntent RAPPORT_BUILD (confidence_of 0.7 0.7)%Q input now.
Proof.
  cbv zeta. unfold classifyIntent_at.
  destruct (_ || _ || _); [now left|].
  destruct (_ || _ || _); [now right; left|].
  destruct (_ || _); [now right; right; left | now right; right; right].
Qed.

(** The overall confidence of the four branches of [classifyIntent] in
    binary64: the sums of the first, second and fourth branch round to
    the doubles written 0.8, 0.825 and 0.7375; the sum of the third is
    one unit in the last place above the double written 0.6625. *)
Lemma binary64_overall :
  let overall pm cl :=
    PrimFloat.div (PrimFloat.add (PrimFloat.add (PrimFloat.add pm cl) 0.75%float)
                                 0.8%float) 4%float in
  PrimFloat.eqb (overall 0.8 0.85)%float 0.8%float = true
  /\ PrimFloat.eqb (overall 0.85 0.9)%float 0.825%float = true
  /\ PrimFloat.eqb (overall 0.7 0.7)%float 0.7375%float = true
  /\ PrimFloat.eqb (overall 0.6 0.5)%float 0.6625%float = false
  /\ PrimFloat.ltb 0.66%float (overall 0.6 0.5)%float = true
  /\ PrimFloat.ltb (overall 0.6 0.5)%float 0.67%float = true.
Proof. vm_compute. repeat split. Qed.

(** X4.  For every input, the intent [classifyIntent] returns has its
    four sub-scores and its [overall] in [0, 1], and [overall] lies
    between the smallest and the largest of the four sub-scores.  The
    confidence is fixed by the type: two inputs classified alike carry
    the same confidence, whose [overall] is 0.8 for [VIBE_CHECK], 0.825
    for [MOVE_MAKE], 0.7375 for [RAPPORT_BUILD] and between 0.66 and 0.67
    for [CLARITY_CALL] (where the sum of the code does not round to a
    short decimal).  [rawInput] is the input as given. *)
Theorem classifyIntent_confidence (now now' : Z) (input input' : string) :
  let intent := classifyIntent_at now input in
  let c := confidence intent in
  (0 <= patternMatch c <= 1)%Q /\ (0 <= clarity c <= 1)%Q
  /\ (0 <= templateCoverage c <= 1)%Q /\ (0 <= historicalSuccess c <= 1)%Q
  /\ (0 <= overall c <= 1)%Q
  /\ (Math_min (patternMatch c)
               (Math_min (clarity c) (Math_min (templateCoverage c) (historicalSuccess c)))
      <= overall c
      <= Math_max (patternMatch c)
                  (Math_max (clarity c)
                            (Math_max (templateCoverage c) (historicalSuccess c))))%Q
  /\ match intent_type intent with
     | VIBE_CHECK => (overall c == 0.8)%Q
     | MOVE_MAKE => (overall c == 0.825)%Q
     | CLARITY_CALL => (0.66 < overall c < 0.67)%Q
     | RAPPORT_BUILD => (overall c == 0.7375)%Q
     end
  /\ (intent_type (classifyIntent_at now' input') = intent_type intent ->
      confidence (classifyIntent_at now' input') = c)
  /\ rawInput intent = input.
Proof.
  cbv zeta.
  destruct (classifyIntent_cases now input) as [H|[H|[H|H]]]; rewrite H;
    destruct (classifyIntent_cases now' input') as [H'|[H'|[H'|H']]]; rewrite H';
    cbn [confidence intent_type rawInput patternMatch clarity templateCoverage
         historicalSuccess overall];
    repeat split;
    try (vm_compute;
         first [ reflexivity | discriminate
               | intros Hx; first [reflexivity | discriminate Hx] ]).
Qed.

Lemma lower_unit_idempotent (c : ascii) : lower_unit (lower_unit c) = lower_unit c.
Proof. destruct c as [[] [] [] [] [] [] [] []]; reflexivity. Qed.

Lemma toLowerCase_idempotent (s : string) : toLowerCase (toLowerCase s) = toLowerCase s.
Proof. induction s as [|c s IH]; cbn; [reflexivity|]. now rewrite lower_unit_idempotent, IH. Qed.

(** X5.  Classification does not look at the case of letters: two inputs
    with the same lower-case form get the same type and the same
    confidence, and so does an input and its own lower-case form. *)
Theorem classifyIntent_ignores_case (now : Z) (a b : string) :
  (toLowerCase a = toLowerCase b ->
   intent_type (classifyIntent_at now a) = intent_type (classifyIntent_at now b)
   /\ confidence (classifyIntent_at now a) = confidence (classifyIntent_at now b))
  /\ intent_type (classifyIntent_at now (toLowerCase a))
     = intent_type (classifyIntent_at now a)
  /\ confidence (classifyIntent_at now (toLowerCase a))
     = confidence (classifyIntent_at now a).
Proof.
  assert (forall x y, toLowerCase x = toLowerCase y ->
            intent_type (classifyIntent_at now x) = intent_type (classifyIntent_at now y)
            /\ confidence (classifyIntent_at now x) = confidence (classifyIntent_at now y))
    as Hsame.
  { intros x y Heq. unfold classifyIntent_at. rewrite Heq.
    destruct (_ || _ || _); [now split|].
    destruct (_ || _ || _); [now split|].
    destruct (_ || _); now split. }
  split; [apply Hsame|]. apply Hsame, toLowerCase_idempotent.
Qed.

(** X6.  What confidence gating does to the intents of the default
    classifier.  With a threshold of at most 0.7375 (the default 0.7 lies
    there) gating leaves every intent as the classifier built it: the
    only intents that can be below the threshold are already of type
    [CLARITY_CALL].  With a threshold above 0.825 every intent leaves
    gating as [CLARITY_CALL], and strategy selection answers guided for
    every input. *)
Theorem gating_of_default_classifier
    (cfg : PipelineConfig) (now : Z) (input : string) (c : PipelineContext) :
  ((confidenceThreshold cfg <= 0.7375)%Q ->
   gated cfg (classifyIntent_at now input) = classifyIntent_at now input)
  /\ ((0.825 < confidenceThreshold cfg)%Q ->
      intent_type (gated cfg (classifyIntent_at now input)) = CLARITY_CALL
      /\ strategy_type (selectStrategy (gated cfg (classifyIntent_at now input)) c)
         = GUIDED).
Proof.
  split.
  - intros Hlow. unfold gated.
    destruct (Qltb _ _) eqn:Hlt; [|reflexivity].
    apply Qltb_lt in Hlt.
    destruct (classifyIntent_cases now input) as [H|[H|[H|H]]];
      rewrite H in Hlt |- *; cbn [confidence overall intent_type rawInput intent_timestamp] in Hlt |- *;
      try reflexivity;
      exfalso; apply (Qlt_irrefl (confidenceThreshold cfg));
      (eapply Qle_lt_trans; [|exact Hlt]); (eapply Qle_trans; [exact Hlow|]);
      apply Qle_bool_iff; reflexivity.
  - intros Hhigh.
    assert (intent_type (gated cfg (classifyIntent_at now input)) = CLARITY_CALL) as Htype.
    { unfold gated. destruct (Qltb _ _) eqn:Hlt; [reflexivity|].
      apply Qltb_ge in Hlt. exfalso.
      apply (Qlt_irrefl 0.825). eapply Qlt_le_trans; [exact Hhigh|].
      eapply Qle_trans; [exact Hlt|].
      destruct (classifyIntent_cases now input) as [H|[H|[H|H]]];
        rewrite H; apply Qle_bool_iff; reflexivity. }
    split; [exact Htype|]. rewrite selectStrategy_type. now rewrite Htype.
Qed.

Lemma strategy_table (cfg : PipelineConfig) (now : Z) (input : string)
    (c : PipelineContext) :
  strategy_type (selectStrategy (gated cfg (classifyIntent_at now input)) c)
  = match intent_type (gated cfg (classifyIntent_at now input)) with
    | VIBE_CHECK => AUTONOMOUS
    | MOVE_MAKE => CONFIRMATION
    | CLARITY_CALL => GUIDED
    | RAPPORT_BUILD => AUTONOMOUS
    end.
Proof.
  rewrite selectStrategy_type. unfold gated.
  destruct (Qltb _ _); [reflexivity|].
  destruct (classifyIntent_cases now input) as [H|[H|[H|H]]]; rewrite H; reflexivity.
Qed.

(** X7.  The strategy the default pipeline selects for an input, whatever
    the threshold: never delegated and never learning; autonomous only
    for an intent that leaves gating as [VIBE_CHECK] or [RAPPORT_BUILD];
    and for an actionable task ([MOVE_MAKE]) always confirm-first, the
    overall confidence the classifier gives it (0.825) being below the
    0.9 that [selectStrategy] asks for autonomy.  The confidence of the
    strategy is 0.85. *)
Theorem strategy_of_default_classifier
    (cfg : PipelineConfig) (now : Z) (input : string) (c : PipelineContext) :
  let intent := gated cfg (classifyIntent_at now input) in
  let strategy := selectStrategy intent c in
  strategy_type strategy
  = match intent_type intent with
    | VIBE_CHECK => AUTONOMOUS
    | MOVE_MAKE => CONFIRMATION
    | CLARITY_CALL => GUIDED
    | RAPPORT_BUILD => AUTONOMOUS
    end
  /\ strategy_type strategy <> DELEGATED
  /\ strategy_type strategy <> LEARNING
  /\ strategy_confidence strategy = 0.85%Q.
Proof.
  cbv zeta. rewrite strategy_table. split; [reflexivity|].
  destruct (intent_type _); repeat split; discriminate.
Qed.

(* ===================================================================== *)
(** * Further properties: the detector inside a turn                      *)
(* ===================================================================== *)

Lemma of_nat_le (a b : nat) : (a <= b)%nat -> (of_nat a <= of_nat b)%Q.
Proof. intros H. unfold of_nat. rewrite <- Zle_Qle. lia. Qed.

Lemma clarificationCount_app (h l : list PipelineEvent) :
  clarificationCount (h ++ l) = (clarificationCount h + clarificationCount l)%nat.
Proof. unfold clarificationCount. now rewrite filter_app, length_app. Qed.

Lemma clarificationCount_other_stages (l : list PipelineEvent) :
  Forall (fun ev => stage ev <> INTENT_CLASSIFICATION) l -> clarificationCount l = 0%nat.
Proof.
  unfold clarificationCount. induction 1 as [|ev l Hev Hl IH]; [reflexivity|].
  rewrite filter_cons. destruct (decide _) as [Hc|_]; [|exact IH].
  apply counts_as_clarification_spec in Hc as [Hs _]. contradiction.
Qed.

Lemma clarificationCount_classification input t sid uid :
  clarificationCount [event_at INTENT_CLASSIFICATION (DInput input) t sid uid]
  = if counted_input input then 1%nat else 0%nat.
Proof.
  unfold clarificationCount. rewrite filter_cons.
  change (counts_as_clarification
            (event_at INTENT_CLASSIFICATION (DInput input) t sid uid))
    with (counted_input input).
  destruct (counted_input input); now destruct (decide _).
Qed.

(** The detector reads the history and nothing else of the context. *)
Lemma detectAntiPatterns_history cfg c1 c2 :
  history c1 = history c2 -> detectAntiPatterns cfg c1 = detectAntiPatterns cfg c2.
Proof. intros H. unfold detectAntiPatterns. now rewrite H. Qed.

Lemma two_distinct_members {A} `{EqDecision A} (x y : A) (l : list A) :
  x ∈ l -> y ∈ l -> x <> y -> (2 <= distinct_count l)%nat.
Proof.
  intros Hx Hy Hne. unfold distinct_count.
  apply elem_of_remove_dups in Hx, Hy.
  destruct (remove_dups l) as [|a [|b r]]; cbn; [|  |lia].
  - now apply elem_of_nil in Hx.
  - apply list_elem_of_singleton in Hx, Hy. congruence.
Qed.

(** At the end of a history that a turn has brought as far as the
    detection stage, the last five events span at least two stages. *)
Lemma detection_window (h : list PipelineEvent) (a b c : PipelineEvent) :
  stage a = INTENT_CLASSIFICATION -> stage b = CONFIDENCE_GATING ->
  (2 <= distinct_count (map stage (slice_last 5 (h ++ [a; b; c]))))%nat.
Proof.
  intros Ha Hb. unfold slice_last. rewrite length_app. cbn [length].
  rewrite drop_app_le by lia. rewrite map_app. cbn [map].
  apply (two_distinct_members INTENT_CLASSIFICATION CONFIDENCE_GATING).
  - apply elem_of_app. right. rewrite Ha. apply elem_of_cons. now left.
  - apply elem_of_app. right. rewrite Hb. apply elem_of_cons. right.
    apply elem_of_cons. now left.
  - discriminate.
Qed.

(** So the detector, called by the detection stage of [process], never
    reports a stuck loop: it reports infinite clarification or nothing. *)
Lemma detectAntiPatterns_in_turn cfg c (h : list PipelineEvent) (a b d : PipelineEvent) :
  history c = h ++ [a; b; d] ->
  stage a = INTENT_CLASSIFICATION -> stage b = CONFIDENCE_GATING ->
  detectAntiPatterns cfg c
  = if Qltb (maxClarificationAttempts cfg) (of_nat (clarificationCount (history c)))
    then Some (mkAntiPattern INFINITE_CLARIFICATION 0.9
                 [nat_to_string (clarificationCount (history c))
                  +:+ " clarification attempts detected"]
                 "Switch to guided mode with examples")
    else None.
Proof.
  intros Hh Ha Hb. unfold detectAntiPatterns.
  destruct (Qltb _ _); [reflexivity|].
  rewrite Hh. pose proof (detection_window h a b d Ha Hb) as Hw.
  apply Nat.ltb_ge in Hw. now rewrite Hw.
Qed.

(** The finding in the context after a turn of the default handlers. *)
Lemma default_turn_finding Date_now cfg input sid uid e :
  let count :=
    (clarificationCount (history (context e))
     + if counted_input input then 1 else 0)%nat in
  clarificationCount (history (context (default_turn Date_now cfg input sid uid e)))
  = count
  /\ antiPatternDetected (context (default_turn Date_now cfg input sid uid e))
     = if enableAntiPatternDetection cfg
          && Qltb (maxClarificationAttempts cfg) (of_nat count)
       then Some (mkAntiPattern INFINITE_CLARIFICATION 0.9
                    [nat_to_string count +:+ " clarification attempts detected"]
                    "Switch to guided mode with examples")
       else antiPatternDetected (context e).
Proof.
  cbv zeta. split.
  - destruct (default_turn_history Date_now cfg input sid uid e)
      as (rest & Hhist & Hrest & _).
    rewrite Hhist, clarificationCount_app.
    change (?x :: rest) with ([x] ++ rest).
    rewrite clarificationCount_app, clarificationCount_classification.
    rewrite (clarificationCount_other_stages rest); [lia|].
    eapply Forall_impl; [exact Hrest|]. now intros ev [H _].
  - unfold default_turn.
    destruct (enableAntiPatternDetection cfg); cbn [andb]; [|reflexivity].
    pose (c3 := push_history
                  (event_at ANTI_PATTERN_DETECTION DHistory
                            (Date_now (S (S (S (reads e))))) sid uid)
                  (context (start_turn Date_now cfg input sid uid e))).
    assert (antiPatternDetected (context (detect_turn Date_now cfg sid uid
                (start_turn Date_now cfg input sid uid e)))
            = match detectAntiPatterns cfg c3 with
              | Some a => Some a
              | None => antiPatternDetected (context e)
              end) as Hdet.
    { change (context (detect_turn Date_now cfg sid uid
                         (start_turn Date_now cfg input sid uid e)))
        with (detected cfg c3).
      rewrite detected_antiPattern. reflexivity. }
    assert (history c3
            = history (context e)
              ++ [event_at INTENT_CLASSIFICATION (DInput input) (Date_now (reads e)) sid uid;
                  event_at CONFIDENCE_GATING (DIntent (Some (length (objects e))))
                           (Date_now (S (S (reads e)))) sid uid;
                  event_at ANTI_PATTERN_DETECTION DHistory
                           (Date_now (S (S (S (reads e))))) sid uid]) as Hh3.
    { subst c3. cbn. now rewrite <- !app_assoc. }
    rewrite (detectAntiPatterns_in_turn cfg c3 _ _ _ _ Hh3 eq_refl eq_refl) in Hdet.
    assert (clarificationCount (history c3)
            = (clarificationCount (history (context e))
               + if counted_input input then 1 else 0)%nat) as Hcount.
    { rewrite Hh3, clarificationCount_app.
      change [?x; ?y; ?z] with ([x] ++ [y; z]).
      rewrite clarificationCount_app, clarificationCount_classification.
      match goal with
      | |- context [clarificationCount [?y; ?z]] =>
          rewrite (clarificationCount_other_stages [y; z])
      end; [lia|].
      repeat (apply Forall_cons_2; [discriminate|]). apply Forall_nil_2. }
    rewrite Hcount in Hdet.
    destruct (bool_decide _).
    + rewrite Hdet. now destruct (Qltb _ _).
    + assert (antiPatternDetected
                (context (finish_turn Date_now (length (objects e))
                   (gated cfg (classifyIntent_at (Date_now (S (reads e))) input))
                   sid uid
                   (detect_turn Date_now cfg sid uid
                      (start_turn Date_now cfg input sid uid e))))
              = antiPatternDetected
                  (context (detect_turn Date_now cfg sid uid
                              (start_turn Date_now cfg input sid uid e)))) as ->
        by reflexivity.
      rewrite Hdet. now destruct (Qltb _ _).
Qed.

(** X8.  Once the first check of the detector fires on a history it
    fires on every longer history with the same configuration: the count
    of short inputs never goes down when events are appended, so an
    infinite-clarification finding is reported again, with the same
    severity, at every later call. *)
Theorem clarification_finding_persists
    (cfg : PipelineConfig) (c c' : PipelineContext) (more : list PipelineEvent)
    (a : AntiPattern) :
  detectAntiPatterns cfg c = Some a ->
  ap_type a = INFINITE_CLARIFICATION ->
  history c' = history c ++ more ->
  (clarificationCount (history c) <= clarificationCount (history c'))%nat
  /\ exists a', detectAntiPatterns cfg c' = Some a' /\ clarification_finding a'.
Proof.
  intros Hdet Htype Hmore.
  assert (clarificationCount (history c) <= clarificationCount (history c'))%nat as Hle
    by (rewrite Hmore, clarificationCount_app; lia).
  split; [exact Hle|].
  assert (Qltb (maxClarificationAttempts cfg)
               (of_nat (clarificationCount (history c))) = true) as Hfire.
  { unfold detectAntiPatterns in Hdet. destruct (Qltb _ _); [reflexivity|].
    destruct (_ && _); [|discriminate]. injection Hdet as <-. discriminate. }
  unfold detectAntiPatterns.
  assert (Qltb (maxClarificationAttempts cfg)
               (of_nat (clarificationCount (history c'))) = true) as ->.
  { apply Qltb_lt. apply Qltb_lt in Hfire.
    eapply Qlt_le_trans; [exact Hfire | now apply of_nat_le]. }
  eexists. split; [reflexivity|]. now split.
Qed.

(** Four short inputs against a limit of 3, and one more event. *)
Lemma clarification_finding_persists_witness :
  let ask t := event_at INTENT_CLASSIFICATION (DInput "what?") t "s" None in
  let c := mkContext "s" None [ask 0; ask 1; ask 2; ask 3]%Z None None None None in
  let more := [event_at FEEDBACK_COLLECTION (DFeedback (mkFeedback None None)) 4 "s" None] in
  let c' := mkContext "s" None (history c ++ more) None None None None in
  (clarificationCount (history c) <= clarificationCount (history c'))%nat
  /\ exists a', detectAntiPatterns DEFAULT_CONFIG c' = Some a' /\ clarification_finding a'.
Proof.
  cbv zeta.
  refine (clarification_finding_persists DEFAULT_CONFIG
            (mkContext "s" None _ None None None None)
            (mkContext "s" None _ None None None None)
            [event_at FEEDBACK_COLLECTION (DFeedback (mkFeedback None None)) 4 "s" None]
            (mkAntiPattern INFINITE_CLARIFICATION 0.9
               ["4 clarification attempts detected"]
               "Switch to guided mode with examples")
            _ _ _); reflexivity.
Defined.

Section FindingInvariant.

Variable Date_now : nat -> Z.

(** What the finding of a context is, if there is one. *)
Let finding_ok (c : PipelineContext) : Prop :=
  forall a, antiPatternDetected c = Some a -> clarification_finding a.

Lemma run_operation_finding op p :
  eventBus p = registerDefaultHandlers Date_now (config p) ->
  (forall sid c, contexts p !! sid = Some c -> finding_ok c) ->
  forall sid c, contexts (run_operation Date_now op p) !! sid = Some c -> finding_ok c.
Proof.
  intros Hbus Hinv sid c.
  destruct op as [input s u | s feedback | s]; cbn [run_operation].
  - rewrite (process_default Date_now p input s u Hbus). cbn [fst contexts].
    destruct (decide (s = sid)) as [->|Hne].
    + rewrite lookup_insert_eq. intros [= <-] a.
      destruct (default_turn_finding Date_now (config p) input sid u (session_env p sid u))
        as [_ ->].
      destruct (_ && _).
      * intros [= <-]. now split.
      * unfold session_env, session_context. cbn [context].
        destruct (contexts p !! sid) as [c0|] eqn:Hc0; cbn [default].
        -- apply (Hinv sid c0 Hc0).
        -- discriminate.
    + rewrite lookup_insert_ne by exact Hne. apply Hinv.
  - destruct (contexts p !! s) as [cs|] eqn:Hs.
    + rewrite (submitFeedback_default Date_now p s feedback cs Hbus Hs). cbn [fst contexts].
      destruct (decide (s = sid)) as [->|Hne].
      * rewrite lookup_insert_eq. intros [= <-]. apply (Hinv sid cs Hs).
      * rewrite lookup_insert_ne by exact Hne. apply Hinv.
    + unfold submitFeedback. rewrite Hs. apply Hinv.
  - unfold clearContext. cbn [contexts]. intros Hl.
    apply lookup_delete_Some in Hl as [_ Hl]. now apply (Hinv sid c).
Qed.

End FindingInvariant.

(** X9.  The stuck-loop check cannot fire from [process]: when the
    detection stage calls the detector, the last events of the history
    are those of classification, gating and detection, three different
    stages.  So on a pipeline with the default handlers every finding
    that [process], [submitFeedback] and [clearContext] ever leave in a
    context is an infinite-clarification finding of severity 0.9 (given
    that the contexts the pipeline starts with hold no other finding, as
    is the case of a new pipeline). *)
Theorem only_clarification_findings
    (Date_now : nat -> Z) (p : Pipeline) (ops : list Operation) :
  eventBus p = registerDefaultHandlers Date_now (config p) ->
  (forall sid c a,
      contexts p !! sid = Some c -> antiPatternDetected c = Some a ->
      clarification_finding a) ->
  forall sid c a,
    contexts (run_operations Date_now ops p) !! sid = Some c ->
    antiPatternDetected c = Some a ->
    clarification_finding a.
Proof.
  revert p. induction ops as [|op ops IH]; intros p Hbus Hinv; [exact Hinv|].
  cbn [run_operations fold_left]. apply IH.
  - destruct (run_operation_keeps_handlers Date_now op p) as [-> ->]. exact Hbus.
  - intros sid c a Hc Ha.
    exact (run_operation_finding Date_now op p Hbus
             (fun s0 c0 H0 a0 Ha0 => Hinv s0 c0 a0 H0 Ha0) sid c Hc a Ha).
Qed.

(** Five turns of "what?" on a new pipeline with a limit of 3. *)
Lemma only_clarification_findings_witness :
  let ask := Process "what?" "test-session-11" None in
  let p := run_operations (fun _ => 0%Z) [ask; ask; ask; ask; ask]
             (new_Pipeline (fun _ => 0%Z) gooseguard_overrides) in
  let c := session_context p "test-session-11" None in
  exists a, antiPatternDetected c = Some a /\ clarification_finding a.
Proof.
  cbv zeta.
  set (ops := [_; _; _; _; _]).
  set (c := session_context _ _ _).
  assert (contexts (run_operations (fun _ => 0%Z) ops
                      (new_Pipeline (fun _ => 0%Z) gooseguard_overrides))
            !! "test-session-11" = Some c) as Hc by (vm_compute; reflexivity).
  destruct (antiPatternDetected c) as [a|] eqn:Ha; [|vm_compute in Ha; discriminate].
  exists a. split; [reflexivity|].
  refine (only_clarification_findings (fun _ => 0%Z)
            (new_Pipeline (fun _ => 0%Z) gooseguard_overrides) ops
            eq_refl _ "test-session-11" c a Hc Ha).
  intros sid c0 a0 H. cbn in H. now rewrite lookup_empty in H.
Defined.

Section CountingTurns.

Variable Date_now : nat -> Z.

(** One turn, for a session whose finding, if set, was set by a count
    above the limit. *)
Lemma process_count p input sid uid :
  eventBus p = registerDefaultHandlers Date_now (config p) ->
  enableAntiPatternDetection (config p) = true ->
  let c0 := session_context p sid uid in
  (is_Some (antiPatternDetected c0) ->
   (maxClarificationAttempts (config p) < of_nat (clarificationCount (history c0)))%Q) ->
  let p' := fst (process Date_now input sid uid p) in
  eventBus p' = registerDefaultHandlers Date_now (config p')
  /\ config p' = config p
  /\ exists c,
       contexts p' !! sid = Some c
       /\ clarificationCount (history c)
          = (clarificationCount (history c0)
             + if counted_input input then 1 else 0)%nat
       /\ (is_Some (antiPatternDetected c)
           <-> (maxClarificationAttempts (config p)
                < of_nat (clarificationCount (history c)))%Q).
Proof.
  intros Hbus Hen c0 Hpre p'. subst p'.
  rewrite (process_default Date_now p input sid uid Hbus). cbn [fst config eventBus contexts].
  split; [exact Hbus|]. split; [reflexivity|].
  eexists. split; [apply lookup_insert_eq|].
  destruct (default_turn_finding Date_now (config p) input sid uid (session_env p sid uid))
    as [Hcount Hfinding].
  cbn [session_env context] in Hcount, Hfinding. fold c0 in Hcount, Hfinding.
  split; [exact Hcount|].
  rewrite Hfinding, Hcount, Hen. cbn [andb].
  destruct (Qltb _ _) eqn:Hfire.
  - apply Qltb_lt in Hfire. split; [intros _; exact Hfire | eauto].
  - apply Qltb_ge in Hfire. split.
    + intros Hset. exfalso. specialize (Hpre Hset).
      apply (Qlt_irrefl (maxClarificationAttempts (config p))).
      eapply Qlt_le_trans; [exact Hpre|]. eapply Qle_trans; [|exact Hfire].
      apply of_nat_le. lia.
    + intros Hlt. exfalso. now apply (Qlt_not_le _ _ Hlt).
Qed.

End CountingTurns.

(** X10.  On a pipeline with the default handlers and detection enabled,
    after any non-empty sequence of [process] calls for a session that
    starts without a finding (a new session, for one), the counter of the
    detector over the history of the session has grown by the number of
    inputs that are not empty and shorter than 10 code units, and the
    finding of the session is set exactly when that counter exceeds
    [maxClarificationAttempts].  In a new session the finding therefore
    appears with the first short input after [maxClarificationAttempts]
    of them, whatever longer inputs come in between. *)
Theorem finding_iff_count_exceeds
    (Date_now : nat -> Z) (p : Pipeline) (input : string) (inputs : list string)
    (sid : string) (uid : option string) :
  eventBus p = registerDefaultHandlers Date_now (config p) ->
  enableAntiPatternDetection (config p) = true ->
  antiPatternDetected (session_context p sid uid) = None ->
  exists c,
    contexts (process_inputs Date_now (input :: inputs) sid uid p) !! sid = Some c
    /\ clarificationCount (history c)
       = (clarificationCount (history (session_context p sid uid))
          + length (filter (fun s => counted_input s = true) (input :: inputs)))%nat
    /\ (is_Some (antiPatternDetected c)
        <-> (maxClarificationAttempts (config p)
             < of_nat (clarificationCount (history c)))%Q).
Proof.
  intros Hbus Hen Hnone.
  assert (is_Some (antiPatternDetected (session_context p sid uid)) ->
          (maxClarificationAttempts (config p)
           < of_nat (clarificationCount (history (session_context p sid uid))))%Q) as Hpre.
  { rewrite Hnone. intros [a Ha]. discriminate. }
  clear Hnone. revert p input Hbus Hen Hpre.
  induction inputs as [|next inputs IH]; intros p input Hbus Hen Hpre.
  - destruct (process_count Date_now p input sid uid Hbus Hen Hpre)
      as (_ & _ & c & Hc & Hcount & Hiff).
    exists c. cbn [process_inputs fold_left]. split; [exact Hc|]. split; [|exact Hiff].
    rewrite Hcount, filter_cons. destruct (counted_input input);
      destruct (decide _); cbn; congruence || lia.
  - destruct (process_count Date_now p input sid uid Hbus Hen Hpre)
      as (Hbus1 & Hcfg1 & c1 & Hc1 & Hcount1 & Hiff1).
    set (p1 := fst (process Date_now input sid uid p)) in *.
    assert (session_context p1 sid uid = c1) as Hsc
      by (unfold session_context; now rewrite Hc1).
    destruct (IH p1 next Hbus1) as (c & Hc & Hcount & Hiff).
    + now rewrite Hcfg1.
    + rewrite Hsc, Hcfg1. apply Hiff1.
    + exists c. split; [exact Hc|]. rewrite Hsc, Hcfg1 in *. split; [|exact Hiff].
      rewrite Hcount, Hcount1. rewrite (filter_cons _ input).
      destruct (counted_input input); destruct (decide _); cbn [length]; congruence || lia.
Qed.

(** The clarification-loop scenario with longer inputs in between. *)
Lemma finding_iff_count_exceeds_witness :
  let inputs := ["what?"; "How does REST API work?"; "??"; "hm"; "Create a REST API";
                 "huh?"] in
  exists c,
    contexts (process_inputs (fun _ => 0%Z) inputs "s" None
                (new_Pipeline (fun _ => 0%Z) gooseguard_overrides)) !! "s" = Some c
    /\ clarificationCount (history c) = 4%nat
    /\ is_Some (antiPatternDetected c).
Proof.
  cbv zeta.
  destruct (finding_iff_count_exceeds (fun _ => 0%Z)
              (new_Pipeline (fun _ => 0%Z) gooseguard_overrides)
              "what?" ["How does REST API work?"; "??"; "hm"; "Create a REST API"; "huh?"]
              "s" None eq_refl eq_refl eq_refl) as (c & Hc & Hcount & Hiff).
  exists c. split; [exact Hc|]. split; [exact Hcount|].
  apply Hiff. rewrite Hcount. reflexivity.
Defined.

(* ===================================================================== *)
(** * Further properties: a completed turn                                *)
(* ===================================================================== *)

(** X11.  What a call of [process] leaves on a pipeline with the default
    handlers.  It returns; it adds to the store one intent, the
    classified input after gating, and makes it the [currentIntent] of
    the context.  When the turn is not cut short (detection is disabled,
    or no finding is set in the returned context), [selectedStrategy] is
    the strategy of that intent and [executionResult] is a success with
    no error, no retry, 150 tokens and an output that names the intent
    type and the strategy; its [duration] is the difference of two later
    readings of the clock, hence not negative when the clock does not
    run backwards. *)
Theorem process_completed_turn
    (Date_now : nat -> Z) (p : Pipeline) (input sid : string) (uid : option string) :
  eventBus p = registerDefaultHandlers Date_now (config p) ->
  let intent := gated (config p) (classifyIntent_at (Date_now (S (clock p))) input) in
  exists p' c',
    process Date_now input sid uid p = (p', Returned c')
    /\ heap p' = heap p ++ [intent]
    /\ currentIntent c' = Some (length (heap p))
    /\ (enableAntiPatternDetection (config p) = false
        \/ antiPatternDetected c' = None ->
        exists strategy result,
          selectedStrategy c' = Some strategy
          /\ strategy_type strategy
             = match intent_type intent with
               | VIBE_CHECK => AUTONOMOUS
               | MOVE_MAKE => CONFIRMATION
               | CLARITY_CALL => GUIDED
               | RAPPORT_BUILD => AUTONOMOUS
               end
          /\ executionResult c' = Some result
          /\ success result = true
          /\ error result = None
          /\ output result
             = Some ("Executed " +:+ IntentType_value (intent_type intent)
                     +:+ " with " +:+ StrategyType_value (strategy_type strategy)
                     +:+ " strategy")
          /\ retriesAttempted (metrics result) = 0%Z
          /\ tokensUsed (metrics result) = Some 150%Z
          /\ (monotone_clock Date_now -> (0 <= duration (metrics result))%Z)).
Proof.
  intros Hbus intent.
  rewrite (process_default Date_now p input sid uid Hbus).
  eexists _, _. split; [reflexivity|]. cbn [heap].
  assert (forall e,
             exists strategy result,
               selectedStrategy
                 (context (finish_turn Date_now (length (heap p)) intent sid uid e))
               = Some strategy
               /\ strategy_type strategy
                  = match intent_type intent with
                    | VIBE_CHECK => AUTONOMOUS
                    | MOVE_MAKE => CONFIRMATION
                    | CLARITY_CALL => GUIDED
                    | RAPPORT_BUILD => AUTONOMOUS
                    end
               /\ executionResult
                    (context (finish_turn Date_now (length (heap p)) intent sid uid e))
                  = Some result
               /\ success result = true
               /\ error result = None
               /\ output result
                  = Some ("Executed " +:+ IntentType_value (intent_type intent)
                          +:+ " with " +:+ StrategyType_value (strategy_type strategy)
                          +:+ " strategy")
               /\ retriesAttempted (metrics result) = 0%Z
               /\ tokensUsed (metrics result) = Some 150%Z
               /\ (monotone_clock Date_now -> (0 <= duration (metrics result))%Z)) as Hfinish.
  { intros e. eexists _, _. cbn [finish_turn context selectedStrategy executionResult
      set_executionResult set_selectedStrategy push_history].
    split; [reflexivity|]. split; [apply strategy_table|].
    split; [reflexivity|]. cbn. repeat split.
    intros Hmono. specialize (Hmono (S (S (reads e))) (S (S (S (reads e))))). lia. }
  unfold default_turn. cbn [session_env objects reads].
  destruct (enableAntiPatternDetection (config p)) eqn:Hen.
  - destruct (bool_decide _) eqn:Hstop.
    + split; [reflexivity|]. split.
      * cbn. now rewrite detected_currentIntent.
      * apply bool_decide_eq_true in Hstop. intros [Hoff|Hnone]; [discriminate|].
        rewrite Hnone in Hstop. now destruct Hstop.
    + split; [reflexivity|]. split.
      * cbn. now rewrite detected_currentIntent.
      * intros _. apply Hfinish.
  - split; [reflexivity|]. split; [reflexivity|]. intros _. apply Hfinish.
Qed.

(** A first turn on a new pipeline, with a clock that ticks. *)
Lemma process_completed_turn_witness :
  exists p' c' strategy result,
    process (fun n => Z.of_nat n) "Create a REST API" "integration-test-1" None
            (new_Pipeline (fun n => Z.of_nat n) no_overrides) = (p', Returned c')
    /\ selectedStrategy c' = Some strategy
    /\ strategy_type strategy = CONFIRMATION
    /\ executionResult c' = Some result
    /\ success result = true
    /\ (0 <= duration (metrics result))%Z.
Proof.
  destruct (process_completed_turn (fun n => Z.of_nat n)
              (new_Pipeline (fun n => Z.of_nat n) no_overrides)
              "Create a REST API" "integration-test-1" None eq_refl)
    as (p' & c' & Hp & _ & _ & Hdone).
  assert (antiPatternDetected c' = None) as Hnone.
  { apply (f_equal snd) in Hp. vm_compute in Hp. now injection Hp as <-. }
  destruct (Hdone (or_intror Hnone))
    as (strategy & result & Hs & Ht & Hr & Hok & _ & _ & _ & _ & Hd).
  exists p', c', strategy, result. split; [exact Hp|].
  split; [exact Hs|]. split; [exact Ht|]. split; [exact Hr|]. split; [exact Hok|].
  apply Hd. intros n m Hnm. lia.
Defined.

(* ===================================================================== *)
(** * Further properties: observers                                       *)
(* ===================================================================== *)

Lemma bind_ext {S A B} (c1 c2 : Comp S A) (k1 k2 : A -> Comp S B) (s : S) :
  (forall s, c1 s = c2 s) -> (forall a s, k1 a s = k2 a s) ->
  bind c1 k1 s = bind c2 k2 s.
Proof.
  intros Hc Hk. unfold bind. rewrite Hc. destruct (c2 s) as [s' [a|message]]; auto.
Qed.

(** A turn depends on the pipeline through its configuration and through
    what [emit] does. *)
Lemma process_stages_ext Date_now p1 p2 input sid uid e :
  config p1 = config p2 ->
  (forall event e, emit p1 event e = emit p2 event e) ->
  process_stages Date_now p1 input sid uid e = process_stages Date_now p2 input sid uid e.
Proof.
  intros Hcfg Hemit.
  unfold process_stages, upto_detection, classification_and_gating,
    detection_stage, selection_and_execution.
  rewrite Hcfg.
  repeat first
    [ apply Hemit
    | reflexivity
    | apply bind_ext; intros
    | match goal with |- (if ?b then _ else _) _ = _ => destruct b end ].
Qed.

Lemma emit_on_same_stage stage0 handler p event e :
  stage event = stage0 ->
  emit (on stage0 handler p) event e = (emit p event ;;; handler event ;;; ret tt) e.
Proof.
  intros Hs. unfold emit, on. cbn [eventBus].
  rewrite decide_True by exact Hs.
  unfold bind at 1 3 4. cbn [update_context].
  now rewrite run_handlers_app.
Qed.

Lemma emit_on_other_stage stage0 handler p event e :
  stage event <> stage0 -> emit (on stage0 handler p) event e = emit p event e.
Proof. intros Hs. unfold emit, on. cbn [eventBus]. now rewrite decide_False. Qed.

(** X12.  [on(stage, handler)] puts the handler after the handlers the
    stage already has, the default one included, and touches no other
    stage: an event of that stage is handled as before and then, if no
    earlier handler threw, by the new handler, in the state the earlier
    ones left; if one threw, the new handler is not called.  The
    configuration and the sessions are not changed by [on]. *)
Theorem on_appends_observer
    (stage0 : PipelineStage) (handler : EventHandler) (p : Pipeline) :
  (forall event e e1,
      stage event = stage0 ->
      emit p event e = (e1, Returned tt) ->
      emit (on stage0 handler p) event e = handler event e1)
  /\ (forall event e e1 message,
        stage event = stage0 ->
        emit p event e = (e1, Thrown message) ->
        emit (on stage0 handler p) event e = (e1, Thrown message))
  /\ (forall event e,
        stage event <> stage0 -> emit (on stage0 handler p) event e = emit p event e)
  /\ config (on stage0 handler p) = config p
  /\ contexts (on stage0 handler p) = contexts p.
Proof.
  split; [|split; [|split; [|split]]]; try reflexivity.
  - intros event e e1 Hs He. rewrite (emit_on_same_stage _ _ _ _ _ Hs).
    unfold bind at 1. rewrite He.
    unfold bind, ret. now destruct (handler event e1) as [e2 [[]|message]].
  - intros event e e1 message Hs He. rewrite (emit_on_same_stage _ _ _ _ _ Hs).
    unfold bind at 1. now rewrite He.
  - intros event e Hs. now apply emit_on_other_stage.
Qed.

(** X13.  An observer that only looks (it returns and leaves the context
    and the intents as they are) changes nothing of a turn: with it
    registered on any stage, [process] returns the same outcome and
    leaves the same sessions, the same intents and the same clock as
    without it. *)
Theorem passive_observer_is_invisible
    (Date_now : nat -> Z) (stage0 : PipelineStage) (handler : EventHandler)
    (p : Pipeline) (input sid : string) (uid : option string) :
  (forall event e, handler event e = (e, Returned tt)) ->
  snd (process Date_now input sid uid (on stage0 handler p))
  = snd (process Date_now input sid uid p)
  /\ contexts (fst (process Date_now input sid uid (on stage0 handler p)))
     = contexts (fst (process Date_now input sid uid p))
  /\ heap (fst (process Date_now input sid uid (on stage0 handler p)))
     = heap (fst (process Date_now input sid uid p))
  /\ clock (fst (process Date_now input sid uid (on stage0 handler p)))
     = clock (fst (process Date_now input sid uid p)).
Proof.
  intros Hpassive.
  assert (forall event e, emit (on stage0 handler p) event e = emit p event e) as Hemit.
  { intros event e.
    destruct (decide (stage event = stage0)) as [Hs|Hs];
      [|now apply emit_on_other_stage].
    rewrite (emit_on_same_stage _ _ _ _ _ Hs). unfold bind.
    destruct (emit p event e) as [e1 [[]|message]]; [|reflexivity].
    now rewrite Hpassive. }
  rewrite !process_unfold. unfold in_session, session_context.
  change (contexts (on stage0 handler p)) with (contexts p).
  change (heap (on stage0 handler p)) with (heap p).
  change (clock (on stage0 handler p)) with (clock p).
  rewrite (process_stages_ext Date_now (on stage0 handler p) p input sid uid _ eq_refl Hemit).
  now destruct (process_stages _ _ _ _ _ _).
Qed.

(** The observer of the test "Integration - Custom event handlers". *)
Lemma passive_observer_is_invisible_witness :
  snd (process (fun _ => 0%Z) "Test query" "custom-handler-test" None
               (on INTENT_CLASSIFICATION passive_observer
                   (new_Pipeline (fun _ => 0%Z) no_overrides)))
  = snd (process (fun _ => 0%Z) "Test query" "custom-handler-test" None
                 (new_Pipeline (fun _ => 0%Z) no_overrides)).
Proof.
  exact (proj1 (passive_observer_is_invisible (fun _ => 0%Z) INTENT_CLASSIFICATION
                  passive_observer (new_Pipeline (fun _ => 0%Z) no_overrides)
                  "Test query" "custom-handler-test" None (fun event e => eq_refl))).
Defined.

(* ===================================================================== *)
(** * Further properties: an observer that throws                         *)
(* ===================================================================== *)

Lemma emit_failing_observer stage0 handler message p event e e1 :
  (forall event e, handler event e = (e, Thrown message)) ->
  stage event = stage0 ->
  emit p event e = (e1, Returned tt) ->
  emit (on stage0 handler p) event e = (e1, Thrown message).
Proof.
  intros Hthrow Hs He. rewrite (emit_on_same_stage _ _ _ _ _ Hs).
  unfold bind at 1. rewrite He. unfold bind. now rewrite Hthrow.
Qed.

Lemma turn_events_default Date_now p input sid uid :
  eventBus p = registerDefaultHandlers Date_now (config p) ->
  turn_events Date_now p input sid uid
  = drop (length (history (session_context p sid uid)))
         (history (context (default_turn Date_now (config p) input sid uid
                              (session_env p sid uid)))).
Proof. intros Hbus. unfold turn_events. now rewrite (process_default _ _ _ _ _ Hbus). Qed.

Section FailingObserver.

Variable Date_now : nat -> Z.
Variable p : Pipeline.
Hypothesis Hbus : eventBus p = registerDefaultHandlers Date_now (config p).
Variable handler : EventHandler.
Variable message : string.
Hypothesis Hthrow : forall event e, handler event e = (e, Thrown message).

Ltac other_stage :=
  repeat first
    [ apply emit_on_other_stage; cbn; congruence
    | reflexivity
    | apply bind_ext; intros
    | match goal with |- (if ?b then _ else _) _ = _ => destruct b end ].

Ltac failing_emit default :=
  match goal with
  | |- context [emit (on ?s ?h ?p0) ?ev ?e] =>
      erewrite (emit_failing_observer s h message p0 ev e _ Hthrow eq_refl);
      [|default]
  end.

Lemma start_other_stage stage0 input sid uid e :
  stage0 <> INTENT_CLASSIFICATION -> stage0 <> CONFIDENCE_GATING ->
  classification_and_gating Date_now (on stage0 handler p) input sid uid e
  = (start_turn Date_now (config p) input sid uid e, Returned tt).
Proof.
  intros H1 H2. rewrite <- (start_turn_spec Date_now p Hbus).
  unfold classification_and_gating. other_stage.
Qed.

Lemma detection_other_stage stage0 sid uid e :
  stage0 <> ANTI_PATTERN_DETECTION ->
  detection_stage Date_now (on stage0 handler p) sid uid e
  = detection_stage Date_now p sid uid e.
Proof.
  intros H. unfold detection_stage. change (config (on stage0 handler p)) with (config p).
  other_stage.
Qed.

Lemma finish_other_stage stage0 sid uid e :
  stage0 <> STRATEGY_SELECTION -> stage0 <> EXECUTION ->
  selection_and_execution Date_now (on stage0 handler p) sid uid e
  = selection_and_execution Date_now p sid uid e.
Proof. intros H1 H2. unfold selection_and_execution. other_stage. Qed.

Lemma failing_classification input sid uid e :
  classification_and_gating Date_now (on INTENT_CLASSIFICATION handler p) input sid uid e
  = (mkEnv (set_currentIntent (length (objects e))
              (push_history
                 (event_at INTENT_CLASSIFICATION (DInput input) (Date_now (reads e)) sid uid)
                 (context e)))
           (objects e ++ [classifyIntent_at (Date_now (S (reads e))) input])
           (S (S (reads e))),
     Thrown message).
Proof.
  destruct e as [c objs n]. unfold classification_and_gating.
  unfold bind at 1. cbn [now context objects reads].
  unfold bind at 1.
  failing_emit ltac:(apply (emit_classification Date_now p Hbus)). reflexivity.
Qed.

Lemma failing_gating input sid uid e :
  classification_and_gating Date_now (on CONFIDENCE_GATING handler p) input sid uid e
  = (start_turn Date_now (config p) input sid uid e, Thrown message).
Proof.
  destruct e as [c objs n]. unfold classification_and_gating.
  unfold bind at 1. cbn [now context objects reads].
  unfold bind at 1. rewrite emit_on_other_stage by (cbn; congruence).
  rewrite (emit_classification Date_now p Hbus).
  cbn [context objects reads].
  unfold bind at 1. cbn [get_context context].
  unfold bind at 1. cbn [now context objects reads].
  cbn [currentIntent set_currentIntent].
  failing_emit ltac:(apply (emit_gating Date_now p Hbus (length objs)
                              (classifyIntent_at (Date_now (S n)) input));
                     cbn; apply lookup_fresh).
  cbn [context objects reads]. now rewrite insert_fresh.
Qed.

Lemma failing_detection sid uid e :
  detection_stage Date_now (on ANTI_PATTERN_DETECTION handler p) sid uid e
  = if enableAntiPatternDetection (config p)
    then (detect_turn Date_now (config p) sid uid e, Thrown message)
    else (e, Returned false).
Proof.
  destruct e as [c objs n]. unfold detection_stage.
  change (config (on ANTI_PATTERN_DETECTION handler p)) with (config p).
  destruct (enableAntiPatternDetection (config p)); [|reflexivity].
  unfold bind at 1. cbn [now context objects reads].
  unfold bind at 1.
  failing_emit ltac:(apply (emit_detection Date_now p Hbus)). reflexivity.
Qed.

Lemma failing_selection r intent sid uid e :
  objects e !! r = Some intent ->
  currentIntent (context e) = Some r ->
  let ev := event_at STRATEGY_SELECTION (DIntent (Some r)) (Date_now (reads e)) sid uid in
  selection_and_execution Date_now (on STRATEGY_SELECTION handler p) sid uid e
  = (mkEnv (set_selectedStrategy
              (selectStrategy intent (push_history ev (context e)))
              (push_history ev (context e)))
           (objects e) (S (reads e)),
     Thrown message).
Proof.
  intros Hobj Hcur. destruct e as [c objs n]. cbn in Hobj, Hcur.
  unfold selection_and_execution.
  unfold bind at 1. cbn [get_context context].
  unfold bind at 1. cbn [now context objects reads].
  unfold bind at 1. rewrite Hcur.
  failing_emit ltac:(apply (emit_strategy Date_now p Hbus r intent); exact Hobj).
  reflexivity.
Qed.

Lemma failing_execution r intent sid uid e :
  objects e !! r = Some intent ->
  currentIntent (context e) = Some r ->
  selection_and_execution Date_now (on EXECUTION handler p) sid uid e
  = (finish_turn Date_now r intent sid uid e, Thrown message).
Proof.
  intros Hobj Hcur. destruct e as [c objs n]. cbn in Hobj, Hcur.
  unfold selection_and_execution.
  unfold bind at 1. cbn [get_context context].
  unfold bind at 1. cbn [now context objects reads].
  unfold bind at 1. rewrite Hcur.
  rewrite emit_on_other_stage by (cbn; congruence).
  rewrite (emit_strategy Date_now p Hbus r intent) by exact Hobj.
  cbn [context objects reads].
  unfold bind at 1. cbn [get_context context].
  unfold bind at 1. cbn [now context objects reads].
  unfold bind at 1. cbn [currentIntent selectedStrategy set_selectedStrategy push_history].
  rewrite Hcur.
  failing_emit ltac:(apply (emit_execution Date_now p Hbus r intent); exact Hobj).
  reflexivity.
Qed.

End FailingObserver.

(** A turn on a pipeline with the default handlers and, after the default
    one of [stage0], a handler that throws: where the turn stops. *)
Lemma failing_turn Date_now p handler message stage0 input sid uid e :
  eventBus p = registerDefaultHandlers Date_now (config p) ->
  (forall event e, handler event e = (e, Thrown message)) ->
  let cfg := config p in
  let r := length (objects e) in
  let intent := gated cfg (classifyIntent_at (Date_now (S (reads e))) input) in
  let e2 := start_turn Date_now cfg input sid uid e in
  let e3 := if enableAntiPatternDetection cfg then detect_turn Date_now cfg sid uid e2
            else e2 in
  let halted :=
    enableAntiPatternDetection cfg
    && bool_decide (is_Some (antiPatternDetected (context e3))) in
  let plain := process_stages Date_now p input sid uid e in
  process_stages Date_now (on stage0 handler p) input sid uid e
  = match stage0 with
    | INTENT_CLASSIFICATION =>
        (mkEnv (set_currentIntent r
                  (push_history
                     (event_at INTENT_CLASSIFICATION (DInput input)
                               (Date_now (reads e)) sid uid)
                     (context e)))
               (objects e ++ [classifyIntent_at (Date_now (S (reads e))) input])
               (S (S (reads e))),
         Thrown message)
    | CONFIDENCE_GATING => (e2, Thrown message)
    | STRATEGY_SELECTION =>
        if halted then plain
        else
          let ev := event_at STRATEGY_SELECTION (DIntent (Some r))
                             (Date_now (reads e3)) sid uid in
          (mkEnv (set_selectedStrategy
                    (selectStrategy intent (push_history ev (context e3)))
                    (push_history ev (context e3)))
                 (objects e3) (S (reads e3)),
           Thrown message)
    | EXECUTION =>
        if halted then plain
        else (finish_turn Date_now r intent sid uid e3, Thrown message)
    | ANTI_PATTERN_DETECTION =>
        if enableAntiPatternDetection cfg then (e3, Thrown message) else plain
    | FEEDBACK_COLLECTION => plain
    end.
Proof.
  intros Hbus Hthrow cfg r intent e2 e3 halted plain.
  subst plain. rewrite (process_stages_default Date_now p Hbus).
  unfold default_turn. fold cfg r intent e2.
  unfold process_stages, upto_detection.
  change (config (on stage0 handler p)) with cfg.
  assert (objects e3 !! r = Some intent) as Hobj.
  { subst e3. destruct (enableAntiPatternDetection cfg); cbn; apply lookup_fresh. }
  assert (currentIntent (context e3) = Some r) as Hcur.
  { subst e3. destruct (enableAntiPatternDetection cfg); cbn;
      [apply detected_currentIntent | reflexivity]. }
  destruct stage0.
  - unfold bind at 1. unfold bind at 1.
    now rewrite (failing_classification Date_now p Hbus handler message Hthrow).
  - unfold bind at 1. unfold bind at 1.
    now rewrite (failing_gating Date_now p Hbus handler message Hthrow).
  - unfold bind at 1. unfold bind at 1.
    rewrite (start_other_stage Date_now p Hbus) by discriminate. cbv beta iota.
    rewrite detection_other_stage by discriminate.
    rewrite (detection_stage_spec Date_now p Hbus).
    fold cfg e2. subst e3 halted.
    destruct (enableAntiPatternDetection cfg); cbn [andb].
    + destruct (bool_decide _); [reflexivity|].
      now apply (failing_selection Date_now p Hbus handler message Hthrow).
    + now apply (failing_selection Date_now p Hbus handler message Hthrow).
  - unfold bind at 1. unfold bind at 1.
    rewrite (start_other_stage Date_now p Hbus) by discriminate. cbv beta iota.
    rewrite detection_other_stage by discriminate.
    rewrite (detection_stage_spec Date_now p Hbus).
    fold cfg e2. subst e3 halted.
    destruct (enableAntiPatternDetection cfg); cbn [andb].
    + destruct (bool_decide _); [reflexivity|].
      now apply (failing_execution Date_now p Hbus handler message Hthrow).
    + now apply (failing_execution Date_now p Hbus handler message Hthrow).
  - unfold bind at 1. unfold bind at 1.
    rewrite (start_other_stage Date_now p Hbus) by discriminate. cbv beta iota.
    rewrite (failing_detection Date_now p Hbus handler message Hthrow).
    fold cfg e2. subst e3 halted.
    destruct (enableAntiPatternDetection cfg); [reflexivity|].
    rewrite finish_other_stage by discriminate.
    now apply (finish_turn_spec Date_now p Hbus).
  - unfold bind at 1. unfold bind at 1.
    rewrite (start_other_stage Date_now p Hbus) by discriminate. cbv beta iota.
    rewrite detection_other_stage by discriminate.
    rewrite (detection_stage_spec Date_now p Hbus).
    fold cfg e2. subst e3 halted.
    destruct (enableAntiPatternDetection cfg).
    + destruct (bool_decide _); [reflexivity|].
      rewrite finish_other_stage by discriminate.
      now apply (finish_turn_spec Date_now p Hbus).
    + rewrite finish_other_stage by discriminate.
      now apply (finish_turn_spec Date_now p Hbus).
Qed.

Lemma lookup_stages (events : list PipelineEvent) (k : nat) (ev : PipelineEvent) :
  events !! k = Some ev -> stages events !! k = Some (stage ev).
Proof.
  revert k. induction events as [|ev' events IH]; intros [|k] H; try discriminate.
  - now injection H as ->.
  - now apply IH.
Qed.

Lemma stages_app (events1 events2 : list PipelineEvent) :
  stages (events1 ++ events2) = stages events1 ++ stages events2.
Proof. apply map_app. Qed.

Lemma stages_take (n : nat) (events : list PipelineEvent) :
  stages (take n events) = take n (stages events).
Proof. symmetry. apply firstn_map. Qed.

Ltac cut_after k :=
  exists k; eexists; eexists;
  split; [reflexivity|];
  split; [reflexivity|];
  split; [reflexivity|];
  split; [apply lookup_insert_eq|];
  cbn [detect_turn start_turn finish_turn context objects reads history currentIntent
       push_history set_currentIntent set_selectedStrategy set_executionResult take];
  rewrite ?detected_history, ?detected_currentIntent;
  cbn [context history currentIntent push_history set_currentIntent
       set_selectedStrategy set_executionResult];
  rewrite <- ?app_assoc;
  split; reflexivity.

(** X14.  A handler that throws, registered on a stage of a pipeline
    with the default handlers.  If a turn of the pipeline without it
    reaches that stage, [process] with it throws the same error, and the
    session is kept, a new one included: its history is the old one
    followed by the events of the undisturbed turn up to the event of
    that stage, no later stage is run, and [currentIntent] is the intent
    of the turn.  If the undisturbed turn does not reach the stage, the
    handler changes nothing. *)
Theorem failing_observer_cuts_turn
    (Date_now : nat -> Z) (p : Pipeline) (input sid : string) (uid : option string)
    (stage0 : PipelineStage) (handler : EventHandler) (message : string) :
  eventBus p = registerDefaultHandlers Date_now (config p) ->
  (forall event e, handler event e = (e, Thrown message)) ->
  let new := turn_events Date_now p input sid uid in
  let failed := process Date_now input sid uid (on stage0 handler p) in
  (In stage0 (stages new) ->
   exists k ev c',
     new !! k = Some ev
     /\ stage ev = stage0
     /\ snd failed = Thrown message
     /\ getContext sid (fst failed) = Some c'
     /\ history c' = history (session_context p sid uid) ++ take (S k) new
     /\ currentIntent c' = Some (length (heap p)))
  /\ (~ In stage0 (stages new) ->
      snd failed = snd (process Date_now input sid uid p)
      /\ contexts (fst failed) = contexts (fst (process Date_now input sid uid p))
      /\ heap (fst failed) = heap (fst (process Date_now input sid uid p))
      /\ clock (fst failed) = clock (fst (process Date_now input sid uid p))).
Proof.
  intros Hbus Hthrow new failed. subst new failed.
  rewrite (turn_events_default _ _ _ _ _ Hbus).
  rewrite process_unfold. rewrite (process_unfold _ _ _ _ p). unfold in_session.
  change (session_context (on stage0 handler p) sid uid) with (session_context p sid uid).
  change (heap (on stage0 handler p)) with (heap p).
  change (clock (on stage0 handler p)) with (clock p).
  change (contexts (on stage0 handler p)) with (contexts p).
  change (config (on stage0 handler p)) with (config p).
  fold (session_env p sid uid).
  rewrite (failing_turn Date_now p handler message stage0 input sid uid _ Hbus Hthrow).
  rewrite (process_stages_default Date_now p Hbus).
  unfold default_turn.
  change (session_context p sid uid) with (context (session_env p sid uid)).
  change (heap p) with (objects (session_env p sid uid)) at 1.
  generalize (session_env p sid uid). intros e0.
  destruct (enableAntiPatternDetection (config p)) eqn:Hen;
    cbn [andb]; cbv iota; [destruct (bool_decide _) eqn:Hstop|];
    cbv iota;
    cbn [detect_turn start_turn finish_turn context objects reads history push_history
         set_currentIntent set_selectedStrategy set_executionResult];
    rewrite ?detected_history;
    cbn [history push_history set_currentIntent set_selectedStrategy set_executionResult];
    rewrite <- ?app_assoc; cbn [app]; rewrite drop_app_length;
    cbn [stages map stage event_at In].
  all: destruct stage0.
  all: (split; intros Hin;
        [ first [ now (exfalso; intuition discriminate)
                | solve [cut_after 0%nat] | solve [cut_after 1%nat]
                | solve [cut_after 2%nat] | solve [cut_after 3%nat]
                | solve [cut_after 4%nat] ]
        | first [ now (exfalso; apply Hin; tauto)
                | now repeat split ] ]).
Qed.

(** A new pipeline with a failing handler on the gating stage. *)
Lemma failing_observer_cuts_turn_witness :
  exists c',
    snd (process (fun _ => 0%Z) "Test query" "custom-handler-test" None
           (on CONFIDENCE_GATING (fun _ => throw "observer failed")
               (new_Pipeline (fun _ => 0%Z) no_overrides)))
    = Thrown "observer failed"
    /\ getContext "custom-handler-test"
         (fst (process (fun _ => 0%Z) "Test query" "custom-handler-test" None
                 (on CONFIDENCE_GATING (fun _ => throw "observer failed")
                     (new_Pipeline (fun _ => 0%Z) no_overrides))))
       = Some c'
    /\ stages (history c') = [INTENT_CLASSIFICATION; CONFIDENCE_GATING].
Proof.
  assert (stages (turn_events (fun _ => 0%Z) (new_Pipeline (fun _ => 0%Z) no_overrides)
                    "Test query" "custom-handler-test" None)
          = [INTENT_CLASSIFICATION; CONFIDENCE_GATING; ANTI_PATTERN_DETECTION;
             STRATEGY_SELECTION; EXECUTION]) as Hst
    by (vm_compute; reflexivity).
  destruct (proj1 (failing_observer_cuts_turn (fun _ => 0%Z)
                     (new_Pipeline (fun _ => 0%Z) no_overrides)
                     "Test query" "custom-handler-test" None CONFIDENCE_GATING
                     (fun _ => throw "observer failed") "observer failed"
                     eq_refl (fun _ _ => eq_refl)))
    as (k & ev & c' & Hk & Hs & Hthrown & Hget & Hhist & _).
  { rewrite Hst. cbn. tauto. }
  exists c'. split; [exact Hthrown|]. split; [exact Hget|].
  apply lookup_stages in Hk. rewrite Hs, Hst in Hk.
  rewrite Hhist, stages_app, stages_take, Hst.
  destruct k as [|[|[|[|[|k]]]]]; try discriminate Hk.
  reflexivity.
Defined.

(* ===================================================================== *)
(** * Further properties: the preference model                            *)
(* ===================================================================== *)

Section PreferenceModelMore.

Import PreferenceModel.



Lemma Math_max_upper (a b c : Q) : (a <= c)%Q -> (b <= c)%Q -> (Math_max a b <= c)%Q.
Proof. unfold Math_max. now destruct (Qle_bool a b). Qed.

Lemma of_nat_nonneg (n : nat) : (0 <= of_nat n)%Q.
Proof. unfold of_nat. change 0%Q with (inject_Z 0). rewrite <- Zle_Qle. lia. Qed.

Lemma learning_rate_bounds (n : nat) :
  (0 < learning_rate n)%Q /\ (learning_rate n <= 0.1)%Q.
Proof.
  unfold learning_rate. pose proof (of_nat_nonneg n) as Hn.
  assert (0 < 1 + of_nat n * 0.001)%Q as Hpos by lra.
  split.
  - apply Qlt_shift_div_l; [exact Hpos | lra].
  - apply Qle_shift_div_r; [exact Hpos | lra].
Qed.

(** X16.  A model that has gone through [selections] calls of
    [selectStrategy] and [updates] calls of [updateFromFeedback], in any
    order, has [totalIterations = selections] and
    [rewardHistory.length = updates]; its exploration rate lies between
    0.1 and 1; every reward of its history lies between 0 and 1; its
    weight map holds the five strategies in the order of the enumeration,
    each with 6 weights; and the learning rate of its next update,
    0.1 / (1 + selections / 1000), is positive and at most 0.1. *)
Theorem model_invariants (selections updates : nat) (st : PreferenceState) :
  reachable_after selections updates st ->
  totalIterations st = selections
  /\ length (rewardHistory st) = updates
  /\ (0.1 <= explorationRate st <= 1)%Q
  /\ Forall (fun h => (0 <= reward h <= 1)%Q) (rewardHistory st)
  /\ map fst (strategyWeights st) = StrategyType_values
  /\ Forall (fun sw => length (snd sw) = featureDimension) (strategyWeights st)
  /\ (0 < learning_rate (totalIterations st) <= 0.1)%Q.
Proof.
  intros Hst.
  assert (reachable st) as Hreach.
  { induction Hst; [apply reachable_new | now apply reachable_update
                    | now apply reachable_select]. }
  destruct (reachable_weights st Hreach) as [Hkeys Hlen].
  assert (totalIterations st = selections
          /\ length (rewardHistory st) = updates
          /\ (0.1 <= explorationRate st <= 1)%Q
          /\ Forall (fun h => (0 <= reward h <= 1)%Q) (rewardHistory st)) as H.
  { clear Hreach Hkeys Hlen.
    induction Hst as [random | selections updates c strategy feedback st Hst IH
                     | selections updates sqrt log alpha c st Hst IH].
    - cbn. repeat split; try lra. apply Forall_nil_2.
    - destruct IH as (Hi & Hu & Hr & Hf).
      cbn [updateFromFeedback totalIterations rewardHistory explorationRate].
      split; [exact Hi|]. split; [rewrite length_app, Hu; cbn; lia|].
      split; [exact Hr|]. apply Forall_app. split; [exact Hf|].
      apply Forall_cons_2; [apply feedbackToReward_unit | apply Forall_nil_2].
    - destruct IH as (Hi & Hu & [Hr0 Hr1] & Hf).
      cbn [selectStrategy snd totalIterations rewardHistory explorationRate].
      split; [now rewrite Hi|]. split; [exact Hu|]. split; [|exact Hf]. split.
      + apply Math_max_lower.
      + apply Math_max_upper; lra. }
  destruct H as (Hi & Hu & Hr & Hf).
  repeat (split; [assumption|]). apply learning_rate_bounds.
Qed.

(** The model of the export test, after one selection more. *)
Lemma model_invariants_witness :
  let st := snd (selectStrategy (fun x => x) (fun x => x) 0.5 example_features
                                (trained 1)) in
  totalIterations st = 1%nat
  /\ length (rewardHistory st) = 1%nat
  /\ (0.1 <= explorationRate st <= 1)%Q.
Proof.
  cbv zeta.
  destruct (model_invariants 1 1 _
              (after_select 0 1 (fun x => x) (fun x => x) 0.5 example_features _
                 (after_update 0 0 example_features CONFIRMATION example_feedback _
                    (after_new example_random))))
    as (Hi & Hu & Hr & _).
  split; [exact Hi|]. split; [exact Hu | exact Hr].
Defined.

(** ** Statistics *)

Lemma reward_sum_bounds (l : list RewardEntry) (acc : Q) :
  Forall (fun h => (0 <= reward h <= 1)%Q) l ->
  (acc <= fold_left (fun sum h => sum + reward h)%Q l acc <= acc + of_nat (length l))%Q.
Proof.
  intros Hall. revert acc. induction Hall as [|h l [H0 H1] Hl IH]; intros acc.
  - cbn [fold_left length]. change (of_nat 0) with 0%Q. lra.
  - cbn [fold_left length]. specialize (IH (acc + reward h)%Q).
    assert (of_nat (S (length l)) == of_nat (length l) + 1)%Q as Hs.
    { unfold of_nat. rewrite Nat2Z.inj_succ, <- Z.add_1_r, inject_Z_plus. reflexivity. }
    rewrite Hs. destruct IH as [IH1 IH2]. split; lra.
Qed.

Lemma count_by_strategy (l : list RewardEntry) :
  sum_list (map (fun strategy => length (filter (fun h => entry_strategy h = strategy) l))
                StrategyType_values)
  = length l.
Proof.
  induction l as [|h l IH]; [reflexivity|].
  cbn [StrategyType_values map sum_list] in IH |- *.
  rewrite !filter_cons.
  destruct (entry_strategy h);
    repeat (destruct (decide _) as [?|?]; try congruence);
    cbn [length]; unfold id in *; lia.
Qed.

(** X17.  [getStrategyStats] has one entry for each of the five
    strategies, in the order of the enumeration.  The [count] of a
    strategy is the number of entries of the reward history with that
    strategy, and the counts add up to the length of the history.
    [avgReward] is 0 for a strategy that was never rewarded (there is no
    division by zero); and when every reward of the history lies in
    [0, 1], as in every model built by the constructor and the two
    methods, every [avgReward] lies in [0, 1] too. *)
Theorem getStrategyStats_summary (st : PreferenceState) :
  map fst (getStrategyStats st) = StrategyType_values
  /\ sum_list (map (fun entry => stats_count (snd entry)) (getStrategyStats st))
     = length (rewardHistory st)
  /\ (forall strategy,
        exists stats,
          Map_get same_strategy strategy (getStrategyStats st) = Some stats
          /\ stats_count stats
             = length (filter (fun h => entry_strategy h = strategy) (rewardHistory st))
          /\ (stats_count stats = 0%nat -> avgReward stats = 0%Q)
          /\ (Forall (fun h => (0 <= reward h <= 1)%Q) (rewardHistory st) ->
              (0 <= avgReward stats <= 1)%Q)).
Proof.
  split; [|split].
  - unfold getStrategyStats. rewrite map_map. cbn. reflexivity.
  - unfold getStrategyStats. rewrite map_map. cbn [snd stats_count].
    apply count_by_strategy.
  - intros strategy.
    set (l := filter (fun h => entry_strategy h = strategy) (rewardHistory st)).
    exists {| stats_count := length l;
              avgReward :=
                if (0 <? length l)%nat
                then (fold_left (fun sum h => sum + reward h) l 0 / of_nat (length l))%Q
                else 0%Q |}.
    split; [destruct strategy; reflexivity|]. cbn [stats_count avgReward].
    split; [reflexivity|]. split.
    + intros ->. reflexivity.
    + intros Hall.
      destruct (0 <? length l)%nat eqn:Hpos; [|lra].
      apply Nat.ltb_lt in Hpos.
      assert (Forall (fun h => (0 <= reward h <= 1)%Q) l) as Hl.
      { apply Forall_forall. intros h Hh. apply list_elem_of_filter in Hh as [_ Hh].
        now apply (proj1 (Forall_forall _ _) Hall). }
      pose proof (reward_sum_bounds l 0 Hl) as [Hlo Hhi].
      assert (0 < of_nat (length l))%Q as Hn.
      { unfold of_nat. change 0%Q with (inject_Z 0). rewrite <- Zlt_Qlt. lia. }
      split.
      * apply Qle_shift_div_l; [exact Hn | lra].
      * apply Qle_shift_div_r; [exact Hn | lra].
Qed.

(** ** The update step *)



(** ** The reward *)

Lemma Qle_bool_false (a b : Q) : Qle_bool a b = false -> (b < a)%Q.
Proof.
  intros H. apply Qnot_le_lt. intros Hle. apply Qle_bool_iff in Hle. congruence.
Qed.

Ltac order_cases :=
  repeat match goal with
         | |- context [Qle_bool ?a ?b] =>
             let E := fresh "E" in
             destruct (Qle_bool a b) eqn:E;
             [apply Qle_bool_iff in E | apply Qle_bool_false in E];
             cbv iota
         end.

Lemma Math_max_mono (a b b' : Q) : (b <= b')%Q -> (Math_max a b <= Math_max a b')%Q.
Proof. intros H. unfold Math_max. order_cases; lra. Qed.

Lemma clamp_mono (x y : Q) :
  (x <= y)%Q -> (Math_min 1 (Math_max 0 x) <= Math_min 1 (Math_max 0 y))%Q.
Proof. intros H. unfold Math_max. order_cases; unfold Math_min; order_cases; lra. Qed.

Ltac constant_divisions :=
  unfold Qdiv;
  change (/ 5)%Q with (1 # 5)%Q;
  change (/ 300)%Q with (1 # 300)%Q;
  change (/ 10)%Q with (1 # 10)%Q.

(** X19.  How the reward answers to the feedback.  Feedback with no
    rating and no implicit signals is worth 0; a rating between 0 and 5
    alone is worth between 0 and 0.6.  The reward never goes down when
    the rating goes up, or when the task is completed rather than not,
    and never goes up when the time to completion or the number of edits
    goes up. *)
Theorem feedbackToReward_responds :
  feedbackToReward (mkFeedback None None) = 0%Q
  /\ (forall r, (0 <= r <= 5)%Q ->
        (0 <= feedbackToReward (mkFeedback (Some r) None) <= 0.6)%Q)
  /\ (forall r1 r2 signals,
        (r1 <= r2)%Q ->
        (feedbackToReward (mkFeedback (Some r1) signals)
         <= feedbackToReward (mkFeedback (Some r2) signals))%Q)
  /\ (forall given time edits,
        (feedbackToReward (mkFeedback given (Some (mkImplicit false time edits)))
         <= feedbackToReward (mkFeedback given (Some (mkImplicit true time edits))))%Q)
  /\ (forall given completed time1 time2 edits,
        (time1 <= time2)%Q ->
        (feedbackToReward (mkFeedback given (Some (mkImplicit completed time2 edits)))
         <= feedbackToReward (mkFeedback given (Some (mkImplicit completed time1 edits))))%Q)
  /\ (forall given completed time edits1 edits2,
        (edits1 <= edits2)%Q ->
        (feedbackToReward (mkFeedback given (Some (mkImplicit completed time edits2)))
         <= feedbackToReward (mkFeedback given (Some (mkImplicit completed time edits1))))%Q).
Proof.
  split; [reflexivity|]. split; [|split; [|split; [|split]]].
  - intros r [H0 H5]. unfold feedbackToReward. cbn [rating implicit].
    constant_divisions. unfold Math_max. order_cases; unfold Math_min; order_cases; lra.
  - intros r1 r2 signals Hr. unfold feedbackToReward. cbn [rating implicit].
    apply clamp_mono. destruct signals as [[completed time edits]|];
      cbn [taskCompleted timeToCompletion editsMade];
      [destruct completed|]; constant_divisions; lra.
  - intros given time edits. unfold feedbackToReward.
    cbn [rating implicit taskCompleted timeToCompletion editsMade].
    apply clamp_mono. destruct given; lra.
  - intros given completed time1 time2 edits Ht. unfold feedbackToReward.
    cbn [rating implicit taskCompleted timeToCompletion editsMade].
    apply clamp_mono.
    assert (Math_max 0 (1 - time2 / 300) <= Math_max 0 (1 - time1 / 300))%Q as Hm
      by (apply Math_max_mono; constant_divisions; lra).
    destruct given, completed; lra.
  - intros given completed time edits1 edits2 He. unfold feedbackToReward.
    cbn [rating implicit taskCompleted timeToCompletion editsMade].
    apply clamp_mono.
    assert (Math_max 0 (1 - edits2 / 10) <= Math_max 0 (1 - edits1 / 10))%Q as Hm
      by (apply Math_max_mono; constant_divisions; lra).
    destruct given, completed; lra.
Qed.

(** ** The exploration rate *)

Lemma decay_step (rate x y : Q) :
  (rate == Math_max 0.1 x)%Q -> (y == x * 0.999)%Q ->
  (Math_max 0.1 (rate * 0.999) == Math_max 0.1 y)%Q.
Proof.
  unfold Math_max. intros Hr Hy. revert Hr. order_cases; intros Hr; lra.
Qed.

Lemma power_succ (a : Q) (n : nat) : (a ^ Z.of_nat (S n) == a ^ Z.of_nat n * a)%Q.
Proof.
  destruct n as [|n].
  - change (a == 1 * a)%Q. ring.
  - change (Z.of_nat (S (S n))) with (Zpos (Pos.succ (Pos.of_succ_nat n))).
    change (Z.of_nat (S n)) with (Zpos (Pos.of_succ_nat n)).
    unfold Qpower, Qpower_positive.
    rewrite (Ring_theory.pow_pos_succ Q_Setoid Qmult_comp Qmult_assoc). ring.
Qed.

(** Over the rationals the rate after [selections] selections is the
    larger of 0.1 and 0.999 to that power. *)
Lemma explorationRate_power (selections updates : nat) (st : PreferenceState) :
  reachable_after selections updates st ->
  (explorationRate st == Math_max 0.1 (0.999 ^ Z.of_nat selections))%Q.
Proof.
  induction 1 as [random | selections updates c strategy feedback st Hst IH
                 | selections updates sqrt log alpha c st Hst IH].
  - reflexivity.
  - exact IH.
  - cbn [selectStrategy snd explorationRate].
    apply (decay_step _ _ _ IH). apply power_succ.
Qed.

Lemma power_positive (n : nat) : (0 < 0.999 ^ Z.of_nat n)%Q.
Proof.
  induction n as [|n IH]; [reflexivity|]. rewrite power_succ.
  apply Qmult_lt_0_compat; [exact IH | reflexivity].
Qed.

Lemma power_decreases (n m : nat) :
  (n <= m)%nat -> (0.999 ^ Z.of_nat m <= 0.999 ^ Z.of_nat n)%Q.
Proof.
  induction 1 as [|m Hle IH]; [apply Qle_refl|].
  rewrite power_succ. pose proof (power_positive m) as Hpos. lra.
Qed.

Lemma power_add (a : Q) (n m : nat) :
  (a ^ Z.of_nat (n + m) == a ^ Z.of_nat n * a ^ Z.of_nat m)%Q.
Proof.
  induction m as [|m IH].
  - rewrite Nat.add_0_r. change (a ^ Z.of_nat 0)%Q with 1%Q. ring.
  - rewrite Nat.add_succ_r, !power_succ, IH. ring.
Qed.

Lemma power_mul (a : Q) (k n : nat) :
  (a ^ Z.of_nat (k * n) == (a ^ Z.of_nat n) ^ Z.of_nat k)%Q.
Proof.
  induction k as [|k IH]; [reflexivity|].
  cbn [Nat.mul]. rewrite Nat.add_comm, power_add, IH, (power_succ _ k). reflexivity.
Qed.

Lemma power_monotone (a b : Q) (k : nat) :
  (0 <= a <= b)%Q -> (0 <= a ^ Z.of_nat k <= b ^ Z.of_nat k)%Q.
Proof.
  intros Hab. induction k as [|k IH]; [split; discriminate|].
  rewrite !power_succ. split.
  - apply Qmult_le_0_compat; tauto.
  - now apply Qmult_le_compat_nonneg.
Qed.

(** 0.999 to the power 2301 is above 0.1 and to the power 2302 below it,
    through bounds of its 100th power to 12 places. *)
Lemma power_at_floor :
  (0.1 < 0.999 ^ Z.of_nat 2301)%Q /\ (0.999 ^ Z.of_nat 2302 < 0.1)%Q.
Proof.
  assert (0.904792147113 <= 0.999 ^ Z.of_nat 100 <= 0.904792147114)%Q as [Hlow Hhigh]
    by (split; vm_compute; discriminate).
  pose proof (power_monotone _ _ 23 (conj (Qle_bool_imp_le 0 0.904792147113 eq_refl) Hlow))
    as [_ Hlow23].
  pose proof (power_monotone _ _ 23 (conj (Qlt_le_weak _ _ (power_positive 100)) Hhigh))
    as [_ Hhigh23].
  assert (0.1 < 0.904792147113 ^ Z.of_nat 23 * 0.999)%Q as Hl
    by (vm_compute; reflexivity).
  assert (0.904792147114 ^ Z.of_nat 23 * 0.998001 < 0.1)%Q as Hh
    by (vm_compute; reflexivity).
  split.
  - change 2301%nat with (23 * 100 + 1)%nat. rewrite power_add, power_mul.
    change (0.999 ^ Z.of_nat 1)%Q with 0.999%Q. lra.
  - change 2302%nat with (23 * 100 + 2)%nat. rewrite power_add, power_mul.
    assert (0.999 ^ Z.of_nat 2 == 0.998001)%Q as -> by reflexivity. lra.
Qed.

(** X20.  The exploration rate of a model goes by the number of
    selections alone and never goes up: of two models, the one that has
    gone through at least as many calls of [selectStrategy] has the rate
    that is at most the other's, whatever updates either has seen.  The
    rate is above its floor 0.1 for fewer than 2302 selections and is
    0.1 from the 2302nd on. *)
Theorem explorationRate_decay
    (selections updates selections' updates' : nat) (st st' : PreferenceState) :
  reachable_after selections updates st ->
  reachable_after selections' updates' st' ->
  ((selections <= selections')%nat -> (explorationRate st' <= explorationRate st)%Q)
  /\ ((selections < 2302)%nat -> (0.1 < explorationRate st)%Q)
  /\ ((2302 <= selections)%nat -> (explorationRate st == 0.1)%Q).
Proof.
  intros Hst Hst'.
  rewrite (explorationRate_power _ _ _ Hst), (explorationRate_power _ _ _ Hst').
  destruct power_at_floor as [Habove Hbelow].
  split; [|split].
  - intros Hle. apply Math_max_mono. now apply power_decreases.
  - intros Hlt. assert (selections <= 2301)%nat as Hle by lia.
    apply power_decreases in Hle. unfold Math_max. order_cases; lra.
  - intros Hle. apply power_decreases in Hle. unfold Math_max. order_cases; lra.
Qed.

Lemma explorationRate_decay_witness :
  (0.1 < explorationRate
           (snd (selectStrategy (fun x => x) (fun x => x) 0.5 example_features
                                (trained 1))))%Q.
Proof.
  apply (explorationRate_decay 1 1 0 0 _ (new_PreferenceModel example_random)
           (after_select 0 1 (fun x => x) (fun x => x) 0.5 example_features _
              (after_update 0 0 example_features CONFIRMATION example_feedback _
                 (after_new example_random)))
           (after_new example_random)).
  lia.
Defined.
End PreferenceModelMore.
